(** * NEURO test and release-gating scripts: a shallow embedding

  The Python scripts under [tests/] and [tools/] drive an external
  compiler, interpret process results and decide a process exit code.
  Each script is embedded as a function in a state-and-exception monad;
  everything outside the repository (the file system, the compiler, the
  spawned executables, Python's float formatting) is an explicit
  environment record that the functions consult. *)

From Stdlib Require Import ZArith Floats Ascii String.
From stdpp Require Import gmap strings list pretty sorting.

Open Scope string_scope.
Open Scope list_scope.
Open Scope Z_scope.

(** ** Python values, exceptions and control flow *)

Module Py.

(** The exception classes the scripts can meet. All of them derive from
    [Exception], so an [except Exception] clause (and a bare [except])
    catches every one of them. *)
Inductive exn_class :=
| FileNotFoundError
| IsADirectoryError
| PermissionError
| OSError
| JSONDecodeError
| UnicodeEncodeError
| ValueError
| TypeError
| AttributeError
| OverflowError
| ZeroDivisionError
| UnboundLocalError
| TimeoutExpired.

#[global] Instance exn_class_eq_dec : EqDecision exn_class.
Proof. solve_decision. Defined.

Record exn := Exn { exn_cls : exn_class; exn_msg : string }.

(** [str(e)] *)
Definition str_exn (e : exn) : string := exn_msg e.

(** Outcome of evaluating a Python expression or block. *)
Inductive res (A : Type) :=
| Ret (a : A)
| Raise (e : exn).
Arguments Ret {A} a.
Arguments Raise {A} e.

(** Sequencing of expressions that may raise and touch no state. *)
#[global] Instance res_ret : MRet res := fun A a => Ret a.
#[global] Instance res_bind : MBind res :=
  fun A B k r => match r with Ret a => k a | Raise e => Raise e end.

(** Computations over a mutable state [S] that may raise. *)
Definition M (S A : Type) : Type := S -> res A * S.

Definition ret {S A} (a : A) : M S A := fun s => (Ret a, s).
Definition raise {S A} (e : exn) : M S A := fun s => (Raise e, s).
Definition bind {S A B} (m : M S A) (k : A -> M S B) : M S B :=
  fun s => match m s with
           | (Ret a, s') => k a s'
           | (Raise e, s') => (Raise e, s')
           end.
Definition get {S} : M S S := fun s => (Ret s, s).
Definition modify {S} (f : S -> S) : M S unit := fun s => (Ret tt, f s).
Definition lift {S A} (r : res A) : M S A := fun s => (r, s).

(** [try: m  except Exception as e: h e] *)
Definition try_except {S A} (m : M S A) (h : exn -> M S A) : M S A :=
  fun s => match m s with
           | (Ret a, s') => (Ret a, s')
           | (Raise e, s') => h e s'
           end.

(** [try: m  finally: fin].  The [finally] block runs on every exit of
    [m]; the result of [m] (a returned value or a pending exception) is
    kept unless [fin] itself raises. *)
Definition try_finally {S A} (m : M S A) (fin : M S unit) : M S A :=
  fun s => match m s with
           | (r, s') =>
               match fin s' with
               | (Ret _, s'') => (r, s'')
               | (Raise e, s'') => (Raise e, s'')
               end
           end.

(** What a finished [subprocess.run(..., capture_output=True)] gives. *)
Record CompletedProcess := Completed {
  returncode : Z;
  stdout : string;
  stderr : string
}.

(** Exit status of the interpreter: [sys.exit(None)] is status 0,
    [sys.exit(n)] is status [n], and an exception nobody catches prints
    a traceback and ends the process with status 1. *)
Definition sys_exit (code : option Z) : Z :=
  match code with None => 0 | Some n => n end.
Definition uncaught_exit_status : Z := 1.

(** ["=" * n] *)
Fixpoint str_repeat (s : string) (n : nat) : string :=
  match n with O => "" | S n' => s +:+ str_repeat s n' end.

Definition nl : string := String "010"%char "".

Arguments str_repeat : simpl never.

(** Total correctness: from every state the computation returns (it does
    not raise) and the value satisfies [Q]. *)
Definition returns {S A} (m : M S A) (Q : A -> Prop) : Prop :=
  forall s, exists a s', m s = (Ret a, s') /\ Q a.

End Py.

Import Py.

Declare Scope py_scope.
Delimit Scope py_scope with py.
Notation "x <- m ;; k" := (bind m (fun x => k))
(at level 100, m at next level, right associativity) : py_scope.
Notation "m1 ;; m2" := (bind m1 (fun _ => m2))
(at level 100, right associativity) : py_scope.

(** ** tests/run_all_tests.py *)

Module Orchestrator.

(** The world the orchestrator sees: which suite scripts exist next to
    it and what running each one with the interpreter does (with the
    300-second timeout). *)
Record Env := {
  script_exists : string -> bool;
  run_python : string -> res CompletedProcess
}.

(** [run_test_script] returns a 2-tuple on one path and a 3-tuple on the
    others. *)
Inductive script_result :=
| Tuple2 (success : bool) (message : string)
| Tuple3 (success : bool) (out err : string).

Definition run_test_script (env : Env) (script_name : string) : script_result :=
  if negb (script_exists env script_name) then
    Tuple2 false ("Test script " +:+ script_name +:+ " not found")
  else
    match run_python env script_name with
    | Ret result =>
        Tuple3 (returncode result =? 0) (stdout result) (stderr result)
    | Raise e =>
        if decide (exn_cls e = TimeoutExpired)
        then Tuple3 false "" "Test timed out"
        else Tuple3 false "" (str_exn e)
    end.

(** State of [main]: the lines printed so far. *)
Definition print (line : string) : M (list string) unit :=
  modify (fun out => out ++ [line]).

(** [success, stdout, stderr = run_test_script(script)] *)
Definition unpack3 (r : script_result) : M (list string) (bool * string * string) :=
  match r with
  | Tuple3 b o e => ret (b, o, e)
  | Tuple2 _ _ =>
      raise (Exn ValueError "not enough values to unpack (expected 3, got 2)")
  end.

Definition test_scripts : list (string * string) :=
  [ ("test_all_nr_files.py", "File Compilation Tests");
    ("test_compilation_features.py", "Language Feature Tests") ].

Definition when (b : bool) (m : M (list string) unit) : M (list string) unit :=
  if b then m else ret tt.

Definition nonempty (s : string) : bool :=
  match s with "" => false | _ => true end.

(** The [for script, description in test_scripts] loop, carrying
    [all_passed]. *)
Fixpoint run_suites (env : Env) (scripts : list (string * string))
         (all_passed : bool) : M (list string) bool :=
  match scripts with
  | [] => ret all_passed
  | (script, description) :: rest =>
      (print (nl +:+ "[*] Running " +:+ description) ;;
       print (str_repeat "-" 40) ;;
       r <- unpack3 (run_test_script env script) ;;
       let '(success, out, err) := r in
       (if success
        then print ("[PASS] " +:+ description +:+ " - PASSED")
        else print ("[FAIL] " +:+ description +:+ " - FAILED")) ;;
       when (nonempty out) (print out) ;;
       when (nonempty err) (print ("Errors: " +:+ err)) ;;
       run_suites env rest (if success then all_passed else false))%py
  end.

Definition main (env : Env) : M (list string) Z :=
  (print "*** NEURO Compiler - Master Test Suite ***" ;;
   print (str_repeat "=" 60) ;;
   all_passed <- run_suites env test_scripts true ;;
   print (nl +:+ str_repeat "=" 60) ;;
   print "*** MASTER TEST SUITE RESULTS ***" ;;
   print (str_repeat "=" 60) ;;
   (if all_passed : bool
    then (print "[SUCCESS] ALL TESTS PASSED!" ;;
          print "The NEURO compiler is working correctly." ;;
          print "[OK] Ready for production use")
    else (print "[ERROR] SOME TESTS FAILED" ;;
          print "Review the test output above for details." ;;
          print "[WARNING] Not ready for production use")) ;;
   ret (if all_passed then 0 else 1))%py.

(** [exit_code = main(); sys.exit(exit_code)] *)
Definition exit_status (env : Env) : Z :=
  match fst (main env []) with
  | Ret exit_code => sys_exit (Some exit_code)
  | Raise _ => uncaught_exit_status
  end.

(** A suite passed: its script was there, the process finished within
    the timeout and its exit code was 0. *)
Definition suite_exited_zero (env : Env) (script : string) : Prop :=
  script_exists env script = true /\
  exists p, run_python env script = Ret p /\ returncode p = 0.

(** A suite that was started and timed out, raised, or exited non-zero. *)
Definition suite_failed (env : Env) (script : string) : Prop :=
  script_exists env script = true /\
  ((exists e, run_python env script = Raise e) \/
   (exists p, run_python env script = Ret p /\ returncode p <> 0)).

(** [suite_exited_zero] as a boolean. *)
Definition suite_okb (env : Env) (script : string) : bool :=
  script_exists env script &&
  match run_python env script with
  | Ret p => returncode p =? 0
  | Raise _ => false
  end.

(** Both suites exit 0. *)
Definition env_all_green : Env := {|
  script_exists := fun _ => true;
  run_python := fun _ => Ret (Completed 0 "ok" "")
|}.

(** The corpus suite exits 1, the feature suite exits 0. *)
Definition env_corpus_red : Env := {|
  script_exists := fun _ => true;
  run_python := fun script =>
    if String.eqb script "test_all_nr_files.py"
    then Ret (Completed 1 "" "Traceback")
    else Ret (Completed 0 "ok" "")
|}.

(** The feature suite's script is not there: [run_test_script] returns a
    pair and the unpacking in [main] raises. *)
Definition env_script_missing : Env := {|
  script_exists := fun script => String.eqb script "test_all_nr_files.py";
  run_python := fun _ => Ret (Completed 0 "ok" "")
|}.

(** The line [main] prints for a suite once it has run. *)
Definition verdict_line (env : Env) (script description : string) : string :=
  if suite_okb env script
  then "[PASS] " +:+ description +:+ " - PASSED"
  else "[FAIL] " +:+ description +:+ " - FAILED".

(** What unpacking the pair of a missing script raises. *)
Definition unpack_error : exn :=
  Exn ValueError "not enough values to unpack (expected 3, got 2)".

(** Every script of the list exists. *)
Definition all_present (env : Env) (scripts : list (string * string)) : bool :=
  forallb (fun sd => script_exists env sd.1) scripts.

End Orchestrator.

(** ** Paths and strings *)

Module PyStr.

(** *** [pathlib.PurePosixPath]

    A pure POSIX path as [pathlib] keeps it once parsed: the root
    ([""], ["/"] or ["//"]) and the names after it.  (Python's [parts] is
    the root, when there is one, followed by these names.) *)
Record PurePath := {
  root : string;
  names : list string
}.

(** [s.split(sep)] for a one-character [sep]. *)
Fixpoint split (sep : ascii) (s : string) : list string :=
  match s with
  | EmptyString => [EmptyString]
  | String c rest =>
      if Ascii.eqb c sep then EmptyString :: split sep rest
      else match split sep rest with
           | first :: others => String c first :: others
           | [] => [s]
           end
  end.

(** [s.lstrip(sep)] for a one-character [sep]. *)
Fixpoint lstrip (sep : ascii) (s : string) : string :=
  match s with
  | EmptyString => EmptyString
  | String c rest => if Ascii.eqb c sep then lstrip sep rest else s
  end.

(** [splitroot]: exactly two leading slashes are a root of their own,
    any other number of them is the root ["/"]. *)
Definition splitroot (part : string) : string * string :=
  match part with
  | String c _ =>
      if Ascii.eqb c "/"%char then
        let stripped_part := lstrip "/"%char part in
        if (String.length part - String.length stripped_part =? 2)%nat
        then ("//", stripped_part)
        else ("/", stripped_part)
      else ("", part)
  | EmptyString => ("", part)
  end.

(** A name that parsing keeps: neither empty nor ["."]. *)
Definition kept (x : string) : bool :=
  negb (String.eqb x "") && negb (String.eqb x ".").

(** [Path(s)]: the root is split off, the rest is cut at every ["/"],
    and empty names and ["."] are dropped; [".."] stays. *)
Definition Path (s : string) : PurePath :=
  let '(root, rel) := splitroot s in
  {| root := root; names := List.filter kept (split "/"%char rel) |}.

(** [path / key]: a [key] with a root replaces [path], any other is
    appended. *)
Definition truediv (path : PurePath) (key : string) : PurePath :=
  let other := Path key in
  if negb (String.eqb (root other) "")
  then other
  else {| root := root path; names := names path ++ names other |}.

(** [str(path)] *)
Definition str (path : PurePath) : string :=
  let text := root path +:+ String.concat "/" (names path) in
  if String.eqb text "" then "." else text.

(** [path.name]: the last name, [""] when there is none. *)
Definition name (path : PurePath) : string := List.last (names path) "".

(** [str(Path(dir) / name)] *)
Definition joinpath (dir name : string) : string := str (truediv (Path dir) name).

(** [name.rfind('.')], counting from [i]. *)
Fixpoint rfind_dot (name : string) (i : nat) : option nat :=
  match name with
  | EmptyString => None
  | String c rest =>
      match rfind_dot rest (S i) with
      | Some j => Some j
      | None => if Ascii.eqb c "."%char then Some i else None
      end
  end.

(** [path.stem] (CPython 3.11): the final component without its last
    suffix; a leading or a trailing dot does not start a suffix. *)
Definition stem (path : PurePath) : string :=
  let name := name path in
  match rfind_dot name 0 with
  | Some i =>
      if (0 <? i)%nat && (i <? String.length name - 1)%nat
      then String.substring 0 i name
      else name
  | None => name
  end.

(** [s.replace(old, new)] for a non-empty [old]: every non-overlapping
    occurrence, leftmost first.  [skip] counts the characters of a
    match that are still to be dropped. *)
Fixpoint replace_from (old new : string) (skip : nat) (s : string) : string :=
  match s with
  | EmptyString => EmptyString
  | String c rest =>
      match skip with
      | S k => replace_from old new k rest
      | O =>
          if String.prefix old s
          then new +:+ replace_from old new (String.length old - 1) rest
          else String c (replace_from old new 0 rest)
      end
  end.

Definition replace (old new s : string) : string := replace_from old new 0 s.

(** [s.split(sep, maxsplit=1)] for a one-character [sep]: the text before
    the first separator and the text after it, or [s] alone. *)
Fixpoint split_once (sep : ascii) (s : string) : list string :=
  match s with
  | EmptyString => [EmptyString]
  | String c rest =>
      if Ascii.eqb c sep then [EmptyString; rest]
      else match split_once sep rest with
           | [a; b] => [String c a; b]
           | _ => [s]
           end
  end.

End PyStr.

(** ** tools/run_release_smoke_tests.py *)

Module SmokeTest.
Import PyStr.

(** The parsed command line, after [resolve()]. *)
Record Args := {
  neurc : string;
  workspace : string
}.

Record Env := {
  path_exists : string -> bool;
  (** [platform.system().lower().startswith("win")] *)
  is_windows : bool;
  (** the directory [tempfile.TemporaryDirectory()] creates *)
  mkdtemp : res string;
  (** [subprocess.run(command, cwd=cwd, check=False)]: no timeout, a
      non-zero exit status is a result, a failure to start raises *)
  spawn : list string -> string -> res CompletedProcess
}.

(** What [main] has done so far: the lines printed and the commands
    handed to [run_command], oldest first. *)
Record State := {
  printed : list string;
  spawned : list (list string)
}.

Definition initial : State := {| printed := []; spawned := [] |}.

Definition print (line : string) : M State unit :=
  modify (fun st => {| printed := printed st ++ [line]; spawned := spawned st |}).

Definition run_command (env : Env) (command : list string) (cwd : string)
  : M State CompletedProcess :=
  (modify (fun st => {| printed := printed st; spawned := spawned st ++ [command] |}) ;;
   lift (spawn env command cwd))%py.

Definition examples : list (string * Z) :=
  [ ("milestone.nr", 8);
    ("factorial.nr", 120) ].

(** [source = workspace / "examples" / example_name] *)
Definition source_of (args : Args) (example_name : string) : PurePath :=
  truediv (truediv (Path (workspace args)) "examples") example_name.

(** [output = temp_root / f"{source.stem}_smoke{executable_suffix}"] *)
Definition output_of (temp_root executable_suffix : string) (source : PurePath)
  : PurePath :=
  truediv (Path temp_root) (stem source +:+ "_smoke" +:+ executable_suffix).

Definition compile_cmd (args : Args) (temp_root executable_suffix example_name : string)
  : list string :=
  let source := source_of args example_name in
  let output := output_of temp_root executable_suffix source in
  [ neurc args; "compile"; str source; "-O"; "2"; "-o"; str output ].

(** [[str(output)]], the command that starts the binary. *)
Definition run_cmd (args : Args) (temp_root executable_suffix example_name : string)
  : list string :=
  [ str (output_of temp_root executable_suffix (source_of args example_name)) ].

(** The [for example_name, expected_exit in examples] loop.  [Some code]
    is a [return code] taken inside the loop; [None] is the loop running
    to its end. *)
Fixpoint smoke_loop (env : Env) (args : Args) (temp_root executable_suffix : string)
         (todo : list (string * Z)) : M State (option Z) :=
  match todo with
  | [] => ret None
  | (example_name, expected_exit) :: rest =>
      (compile_result <-
         run_command env (compile_cmd args temp_root executable_suffix example_name)
                     (workspace args) ;;
       if negb (returncode compile_result =? 0) then
         (print ("Compile failed for " +:+ example_name +:+ " (exit="
                 +:+ pretty (returncode compile_result) +:+ ")") ;;
          print (stdout compile_result) ;;
          print (stderr compile_result) ;;
          ret (Some 1))
       else
         (run_result <-
            run_command env (run_cmd args temp_root executable_suffix example_name)
                        (workspace args) ;;
          if negb (returncode run_result =? expected_exit) then
            (print ("Smoke test failed for " +:+ example_name +:+ ": expected exit "
                    +:+ pretty expected_exit +:+ ", got "
                    +:+ pretty (returncode run_result)) ;;
             print (stdout run_result) ;;
             print (stderr run_result) ;;
             ret (Some 1))
          else
            (print ("Smoke test passed: " +:+ example_name +:+ " -> exit "
                    +:+ pretty (returncode run_result)) ;;
             smoke_loop env args temp_root executable_suffix rest)))%py
  end.

Definition main (env : Env) (args : Args) : M State Z :=
  if negb (path_exists env (neurc args)) then
    (print ("neurc executable not found: " +:+ neurc args) ;;
     ret 1)%py
  else
    let executable_suffix := if is_windows env then ".exe" else "" in
    (temp_root <- lift (mkdtemp env) ;;
     returned <- smoke_loop env args temp_root executable_suffix examples ;;
     match returned with
     | Some code => ret code
     | None =>
         (print "All release smoke tests passed." ;;
          ret 0)
     end)%py.

(** [sys.exit(main())] *)
Definition exit_status (env : Env) (args : Args) : Z :=
  match fst (main env args initial) with
  | Ret code => sys_exit (Some code)
  | Raise _ => uncaught_exit_status
  end.

(** The commands one example gives rise to. *)
Definition suffix_of (env : Env) : string := if is_windows env then ".exe" else "".

Definition compile_of (env : Env) (args : Args) (temp_root : string)
           (example : string * Z) : list string :=
  compile_cmd args temp_root (suffix_of env) example.1.

Definition execute_of (env : Env) (args : Args) (temp_root : string)
           (example : string * Z) : list string :=
  run_cmd args temp_root (suffix_of env) example.1.

(** The example compiled with exit code 0 and its binary exited with the
    expected code. *)
Definition example_passes (env : Env) (args : Args) (temp_root : string)
           (example : string * Z) : Prop :=
  (exists c, spawn env (compile_of env args temp_root example) (workspace args) = Ret c
             /\ returncode c = 0) /\
  (exists r, spawn env (execute_of env args temp_root example) (workspace args) = Ret r
             /\ returncode r = example.2).

(** The compilation exited non-zero. *)
Definition compile_fails (env : Env) (args : Args) (temp_root : string)
           (example : string * Z) : Prop :=
  exists c, spawn env (compile_of env args temp_root example) (workspace args) = Ret c
            /\ returncode c <> 0.

(** The compilation exited 0 and the binary's exit code is not the
    expected one. *)
Definition exit_code_differs (env : Env) (args : Args) (temp_root : string)
           (example : string * Z) : Prop :=
  (exists c, spawn env (compile_of env args temp_root example) (workspace args) = Ret c
             /\ returncode c = 0) /\
  (exists r, spawn env (execute_of env args temp_root example) (workspace args) = Ret r
             /\ returncode r <> example.2).

(** Commands spawned for examples that all passed. *)
Definition commands_of (env : Env) (args : Args) (temp_root : string)
           (done : list (string * Z)) : list (list string) :=
  concat (map (fun ex => [compile_of env args temp_root ex;
                          execute_of env args temp_root ex]) done).

(** A checkout at [/w]. *)
Definition args0 : Args := {| neurc := "/w/target/release/neurc"; workspace := "/w" |}.

(** A run in which [milestone.nr] compiles but its binary exits with 7
    where 8 is expected. *)
Definition env_wrong_exit : Env := {|
  path_exists := fun _ => true;
  is_windows := false;
  mkdtemp := Ret "/tmp/tmpq1";
  spawn := fun command _ =>
    match command with
    | [exe] => if String.eqb exe "/tmp/tmpq1/milestone_smoke"
               then Ret (Completed 7 "" "")
               else Ret (Completed 120 "" "")
    | _ => Ret (Completed 0 "" "")
    end
|}.

(** A compiler that exits 0 and writes no binary: starting the output
    raises [FileNotFoundError]. *)
Definition env_no_binary : Env := {|
  path_exists := fun _ => true;
  is_windows := false;
  mkdtemp := Ret "/tmp/tmpq1";
  spawn := fun command _ =>
    match command with
    | [exe] => Raise (Exn FileNotFoundError
                        ("[Errno 2] No such file or directory: '" +:+ exe +:+ "'"))
    | _ => Ret (Completed 0 "" "")
    end
|}.

(** Every compilation exits 0 and every binary exits with the code its
    example expects. *)
Definition env_all_pass : Env := {|
  path_exists := fun _ => true;
  is_windows := false;
  mkdtemp := Ret "/tmp/tmpq1";
  spawn := fun command _ =>
    match command with
    | [exe] => if String.eqb exe "/tmp/tmpq1/milestone_smoke"
               then Ret (Completed 8 "" "")
               else Ret (Completed 120 "" "")
    | _ => Ret (Completed 0 "" "")
    end
|}.

End SmokeTest.

(** ** Python numbers *)

Module PyNum.

(** [float(n)] for an [int]: the nearest binary64 value, ties to even.
    Python raises [OverflowError] where this gives an infinity. *)
Definition float_of_int (n : Z) : float :=
  SF2Prim (binary_normalize 53 1024 n 0 false).

Definition is_infinite (x : float) : bool :=
  match Prim2SF x with S754_infinity _ => true | _ => false end.

(** [a / b] on two [int]s (true division), for a non-zero [b].  Python
    rounds the exact quotient once; dividing the two conversions agrees
    with it whenever both operands are below 2^53, which counters of
    files and test cases are. *)
Definition int_truediv (a b : Z) : float :=
  (float_of_int a / float_of_int b)%float.

(** [x >= y] and [x > y] on floats. *)
Definition float_ge (x y : float) : bool := PrimFloat.leb y x.
Definition float_gt (x y : float) : bool := PrimFloat.ltb y x.

End PyNum.

(** ** tests/test_all_nr_files.py *)

Module CorpusValidator.
Import PyStr PyNum.

Record Env := {
  (** [dir_path.exists()] for a directory under the repository root *)
  dir_exists : string -> bool;
  (** the names of the entries [dir_path.glob("*.nr")] yields, in the
      order the file system lists them *)
  glob_nr : string -> list string;
  (** [subprocess.run(['./target/release/neurc', 'build', path],
      timeout=30)] *)
  neurc_build : string -> res CompletedProcess;
  (** [f"{x:.1f}"] *)
  format_1f : float -> string
}.

Definition print (line : string) : M (list string) unit :=
  modify (fun out => out ++ [line]).

Definition run_neurc_build (env : Env) (file_path : string) : bool * string :=
  match neurc_build env file_path with
  | Ret result => (returncode result =? 0, stderr result)
  | Raise e =>
      if decide (exn_cls e = TimeoutExpired)
      then (false, "Timeout")
      else (false, str_exn e)
  end.

(** Order of [sorted] on the paths of one directory. *)
Definition path_le (a b : string) : Prop := Is_true (String.leb a b).

#[global] Instance path_le_dec a b : Decision (path_le a b).
Proof. unfold path_le. apply _. Defined.

Definition sorted (names : list string) : list string := merge_sort path_le names.

(** The [for nr_file in sorted(nr_files)] loop. *)
Fixpoint build_each (env : Env) (directory : string) (names : list string)
         (success_count : Z) (failures : list (string * string))
  : M (list string) (Z * list (string * string)) :=
  match names with
  | [] => ret (success_count, failures)
  | file_name :: rest =>
      let '(success, error) := run_neurc_build env (joinpath directory file_name) in
      if success then
        (print ("PASS " +:+ file_name) ;;
         build_each env directory rest (success_count + 1) failures)%py
      else
        (print ("FAIL " +:+ file_name +:+ ": " +:+ error) ;;
         build_each env directory rest success_count (failures ++ [(file_name, error)]))%py
  end.

Definition test_directory (env : Env) (directory : string)
  : M (list string) (Z * Z * list (string * string)) :=
  if negb (dir_exists env directory) then
    (print ("Directory " +:+ directory +:+ " does not exist") ;;
     ret (0, 0, []))%py
  else
    let nr_files := glob_nr env directory in
    match nr_files with
    | [] =>
        (print ("No .nr files found in " +:+ directory) ;;
         ret (0, 0, []))%py
    | _ =>
        (print (nl +:+ "=== Testing " +:+ directory +:+ "/ directory ===") ;;
         r <- build_each env directory (sorted nr_files) 0 [] ;;
         ret (r.1, Z.of_nat (length nr_files), r.2))%py
    end.

Fixpoint print_failures (failures : list (string * string)) : M (list string) unit :=
  match failures with
  | [] => ret tt
  | (file_name, error) :: rest =>
      (print ("FAIL " +:+ file_name +:+ ": " +:+ error) ;;
       print_failures rest)%py
  end.

Definition ratio_line (what : string) (a b : Z) : string :=
  what +:+ pretty a +:+ "/" +:+ pretty b +:+ " successful".

(** [main] ends in [sys.exit(code)]; [Ret code] stands for that
    [SystemExit], [Raise] for an exception that reaches the top level.
    The local [success_rate] is bound only inside [if total_files > 0]. *)
Definition main (env : Env) : M (list string) Z :=
  (print "NEURO Compiler Test Suite" ;;
   print (str_repeat "=" 50) ;;
   debug <- test_directory env "debug" ;;
   let '(debug_success, debug_total, debug_failures) := debug in
   examples <- test_directory env "examples" ;;
   let '(examples_success, examples_total, examples_failures) := examples in
   let total_success := debug_success + examples_success in
   let total_files := debug_total + examples_total in
   print (nl +:+ "=== FINAL RESULTS ===") ;;
   print (ratio_line "Debug files: " debug_success debug_total) ;;
   print (ratio_line "Examples files: " examples_success examples_total) ;;
   print (ratio_line "Total: " total_success total_files) ;;
   success_rate <-
     (if 0 <? total_files then
        let success_rate := (int_truediv total_success total_files * 100)%float in
        (print ("Success rate: " +:+ format_1f env success_rate +:+ "%") ;;
         (if float_ge success_rate 98
          then print "SUCCESS: Achieved 98%+ success rate!"
          else print "FAILED: Did not achieve 98% success rate") ;;
         ret (Some success_rate))
      else ret None) ;;
   let all_failures := debug_failures ++ examples_failures in
   (match all_failures with
    | [] => ret tt
    | _ =>
        (print (nl +:+ "=== FAILURES (" +:+ pretty (Z.of_nat (length all_failures))
                +:+ " files) ===") ;;
         print_failures all_failures)
    end) ;;
   match success_rate with
   | Some rate => ret (if float_ge rate 98 then 0 else 1)
   | None =>
       raise (Exn UnboundLocalError
         "cannot access local variable 'success_rate' where it is not associated with a value")
   end)%py.

(** Exit status of the script. *)
Definition exit_status (env : Env) : Z :=
  match fst (main env []) with
  | Ret code => sys_exit (Some code)
  | Raise _ => uncaught_exit_status
  end.

(** No matching file under a directory: it is missing or holds none. *)
Definition discovers_nothing (env : Env) (directory : string) : Prop :=
  dir_exists env directory = false \/ glob_nr env directory = [].

(** How the build of one file ended. *)
Definition build_exited_nonzero (env : Env) (path : string) : Prop :=
  exists p, neurc_build env path = Ret p /\ returncode p <> 0.

Definition build_timed_out (env : Env) (path : string) : Prop :=
  exists e, neurc_build env path = Raise e /\ exn_cls e = TimeoutExpired.

(** [subprocess.run] raised something else: the process never ran to an
    exit code (the compiler binary is missing, for one). *)
Definition build_not_run (env : Env) (path : string) : Prop :=
  exists e, neurc_build env path = Raise e /\ exn_cls e <> TimeoutExpired.

(** A checkout in which the compiler was never built: spawning it
    raises [FileNotFoundError]. *)
Definition env_no_compiler : Env := {|
  dir_exists := fun _ => true;
  glob_nr := fun directory => if String.eqb directory "debug" then ["a.nr"] else [];
  neurc_build := fun _ =>
    Raise (Exn FileNotFoundError
             "[Errno 2] No such file or directory: './target/release/neurc'");
  format_1f := fun _ => "0.0"
|}.

(** A checkout with neither [debug/] nor [examples/]. *)
Definition env_empty_checkout : Env := {|
  dir_exists := fun _ => false;
  glob_nr := fun _ => [];
  neurc_build := fun _ => Ret (Completed 0 "" "");
  format_1f := fun _ => "0.0"
|}.

(** A directory that exists and holds at least one matching file. *)
Definition discovers_some (env : Env) (directory : string) : Prop :=
  dir_exists env directory = true /\ glob_nr env directory <> [].

(** Of [names], in their order: how many build with success, and the
    failure entries of the others. *)
Definition passes_among (env : Env) (directory : string) (names : list string) : Z :=
  Z.of_nat (length (List.filter
                      (fun n => (run_neurc_build env (joinpath directory n)).1) names)).

Definition failures_among (env : Env) (directory : string) (names : list string)
  : list (string * string) :=
  map (fun n => (n, (run_neurc_build env (joinpath directory n)).2))
      (List.filter (fun n => negb (run_neurc_build env (joinpath directory n)).1) names).

(** Two files, of which the second does not compile. *)
Definition env_one_broken : Env := {|
  dir_exists := fun directory => String.eqb directory "examples";
  glob_nr := fun directory =>
    if String.eqb directory "examples" then ["b.nr"; "a.nr"] else [];
  neurc_build := fun path =>
    if String.eqb path "examples/b.nr"
    then Ret (Completed 1 "" "error: type mismatch")
    else Ret (Completed 0 "" "");
  format_1f := fun _ => "50.0"
|}.

End CorpusValidator.

(** ** tests/test_compilation_features.py *)

Module FeatureHarness.
Import PyStr PyNum.

(** The world of the harness.  The compiler and the executables it
    produces are black boxes: each gives a process result (or makes
    [subprocess.run] raise) and leaves the set of existing files in a
    new state. *)
Record Env := {
  (** the name [tempfile.NamedTemporaryFile(mode='w', suffix='.nr',
      delete=False)] creates, given the files that exist *)
  mkstemp : gset string -> res string;
  (** whether [f.write(code)] raises (the text cannot be encoded, the
      device is full), and with what *)
  write_text : string -> option exn;
  (** [subprocess.run(['./target/release/neurc', 'build', temp_file],
      timeout=30)] *)
  neurc_build : string -> gset string -> res CompletedProcess * gset string;
  (** [subprocess.run([exe_file], timeout=10)] *)
  run_exe : string -> gset string -> res CompletedProcess * gset string;
  (** what [os.unlink(path)] raises for a path that exists and cannot be
      removed (a directory, a file in a directory without write
      permission); [None] when it can be removed *)
  unlink_error : string -> option exn;
  (** [f"{x:.1f}"] *)
  format_1f : float -> string
}.

Record State := {
  (** paths that exist on disk *)
  files : gset string;
  (** lines printed, oldest first *)
  printed : list string;
  (** commands handed to [subprocess.run], oldest first *)
  spawned : list (list string);
  (** the local variable [temp_file] of the running call of
      [compile_and_run_code]; [None] while it is unbound *)
  local_temp_file : option string
}.

Definition set_files (fs : gset string) (st : State) : State :=
  {| files := fs; printed := printed st; spawned := spawned st;
     local_temp_file := local_temp_file st |}.

Definition set_local_temp_file (v : option string) (st : State) : State :=
  {| files := files st; printed := printed st; spawned := spawned st;
     local_temp_file := v |}.

Definition log_spawn (command : list string) (st : State) : State :=
  {| files := files st; printed := printed st; spawned := spawned st ++ [command];
     local_temp_file := local_temp_file st |}.

Definition print (line : string) : M State unit :=
  modify (fun st => {| files := files st; printed := printed st ++ [line];
                       spawned := spawned st;
                       local_temp_file := local_temp_file st |}).

(** [os.path.exists(path)] *)
Definition path_exists (path : string) : M State bool :=
  fun st => (Ret (bool_decide (path ∈ files st)), st).

(** [os.unlink(path)]: raises for a path that is not there and for one
    that cannot be removed, and then leaves the files as they are. *)
Definition unlink (env : Env) (path : string) : M State unit :=
  fun st =>
    if bool_decide (path ∈ files st) then
      match unlink_error env path with
      | Some e => (Raise e, st)
      | None => (Ret tt, set_files (files st ∖ {[path]}) st)
      end
    else (Raise (Exn FileNotFoundError
                     ("[Errno 2] No such file or directory: '" +:+ path +:+ "'")), st).

(** Entering the [with] block: the file is created on disk. *)
Definition create_temp (env : Env) : M State string :=
  fun st =>
    match mkstemp env (files st) with
    | Ret name => (Ret name, set_files ({[name]} ∪ files st) st)
    | Raise e => (Raise e, st)
    end.

Definition write (env : Env) (code : string) : M State unit :=
  match write_text env code with
  | Some e => raise e
  | None => ret tt
  end.

Definition build_cmd (temp_file : string) : list string :=
  ["./target/release/neurc"; "build"; temp_file].

Definition build (env : Env) (temp_file : string) : M State CompletedProcess :=
  fun st =>
    let '(r, fs) := neurc_build env temp_file (files st) in
    (r, set_files fs (log_spawn (build_cmd temp_file) st)).

Definition run (env : Env) (exe_file : string) : M State CompletedProcess :=
  fun st =>
    let '(r, fs) := run_exe env exe_file (files st) in
    (r, set_files fs (log_spawn [exe_file] st)).

(** [temp_file.replace('.nr', '.exe')] *)
Definition exe_of (temp_file : string) : string := replace ".nr" ".exe" temp_file.

(** The [try] block. *)
Definition try_block (env : Env) (code : string) (expected_exit_code : option Z)
  : M State (bool * string) :=
  (name <- create_temp env ;;
   write env code ;;
   modify (set_local_temp_file (Some name)) ;;
   let temp_file := name in
   build_result <- build env temp_file ;;
   if negb (returncode build_result =? 0) then
     ret (false, "Build failed: " +:+ stderr build_result)
   else
     match expected_exit_code with
     | Some expected =>
         let exe_file := exe_of temp_file in
         present <- path_exists exe_file ;;
         if present : bool then
           (run_result <- run env exe_file ;;
            if negb (returncode run_result =? expected) then
              ret (false, "Expected exit code " +:+ pretty expected +:+ ", got "
                          +:+ pretty (returncode run_result))
            else ret (true, "Success"))
         else ret (true, "Success")
     | None => ret (true, "Success")
     end)%py.

(** The [finally] block: its own [try] with a bare [except: pass]. *)
Definition finally_block (env : Env) : M State unit :=
  try_except
    (st <- get ;;
     match local_temp_file st with
     | Some temp_file =>
         (unlink env temp_file ;;
          let exe_file := exe_of temp_file in
          present <- path_exists exe_file ;;
          if present : bool then unlink env exe_file else ret tt)
     | None => ret tt
     end)%py
    (fun _ => ret tt).

Definition compile_and_run_code (env : Env) (code : string)
           (expected_exit_code : option Z) : M State (bool * string) :=
  (modify (set_local_temp_file None) ;;
   try_finally
     (try_except (try_block env code expected_exit_code)
                 (fun e => ret (false, str_exn e)))
     (finally_block env))%py.

(** A test table: name, source text, expected exit code if any. *)
Definition case : Type := string * string * option Z.

(** The loop shared by the four [test_*] functions; the result is
    [(passed, len(tests))]. *)
Fixpoint run_cases (env : Env) (tests : list case) (passed : Z) : M State Z :=
  match tests with
  | [] => ret passed
  | (name, code, expected) :: rest =>
      (r <- compile_and_run_code env code expected ;;
       let '(success, message) := r in
       if success : bool then
         (print ("[PASS] " +:+ name) ;;
          run_cases env rest (passed + 1))
       else
         (print ("[FAIL] " +:+ name +:+ ": " +:+ message) ;;
          run_cases env rest passed))%py
  end.

Definition run_table (env : Env) (header : string) (tests : list case)
  : M State (Z * Z) :=
  (print (nl +:+ header) ;;
   passed <- run_cases env tests 0 ;;
   ret (passed, Z.of_nat (length tests)))%py.

Definition basic_tests : list case :=
  [ ("Simple main function",
     "fn main() -> int { return 42; }", Some 42);
    ("Variable declaration",
     "fn main() -> int { let x = 10; return x; }", Some 10);
    ("Arithmetic operations",
     "fn main() -> int { let result = 5 + 3 * 2; return result; }", Some 11);
    ("Boolean operations",
     "fn main() -> int { let flag = true; if flag { return 1; } return 0; }", Some 1);
    ("If-else statement",
     "fn main() -> int { if 5 > 3 { return 1; } else { return 0; } }", Some 1);
    ("While loop",
     "fn main() -> int { let i = 0; while i < 3 { i = i + 1; } return i; }", Some 3);
    ("Function calls",
     "fn add(a: int, b: int) -> int { return a + b; } fn main() -> int { return add(5, 7); }",
     Some 12);
    ("Nested function calls",
     "fn double(x: int) -> int { return x * 2; } fn main() -> int { return double(double(3)); }",
     Some 12) ].

Definition advanced_tests : list case :=
  [ ("Complex expressions",
     "fn main() -> int { return (5 + 3) * (2 - 1); }", Some 8);
    ("Logical operators",
     "fn main() -> int { if true && false { return 0; } return 1; }", Some 1);
    ("Comparison operators",
     "fn main() -> int { if 10 >= 10 && 5 < 7 { return 1; } return 0; }", Some 1);
    ("Variable reassignment",
     "fn main() -> int { let x = 5; x = x + 3; return x; }", Some 8);
    ("Multiple variables",
     "fn main() -> int { let a = 3; let b = 4; return a * b; }", Some 12);
    ("Recursive functions",
     "fn factorial(n: int) -> int { if n <= 1 { return 1; } return n * factorial(n - 1); } fn main() -> int { return factorial(5); }",
     Some 120);
    ("Break and continue in loops",
     "fn main() -> int { let sum = 0; let i = 0; while i < 10 { i = i + 1; if i == 5 { continue; } if i == 8 { break; } sum = sum + i; } return sum; }",
     Some 21);
    ("Nested function scopes",
     "fn outer() -> int { let x = 10; fn inner() -> int { return x + 5; } return inner(); } fn main() -> int { return outer(); }",
     Some 15) ].

Definition compilation_only_tests : list case :=
  [ ("Empty main function",
     "fn main() -> int { return 0; }", None);
    ("Multiple functions",
     "fn helper() -> int { return 5; } fn main() -> int { return helper(); }", None);
    ("Nested if statements",
     "fn main() -> int { if true { if false { return 1; } return 2; } return 3; }", None);
    ("Complex control flow",
     "fn main() -> int { let x = 0; while x < 5 { if x == 2 { x = x + 2; } else { x = x + 1; } } return x; }",
     None);
    ("Type annotations",
     "fn typed_function(x: int, y: int) -> int { let result: int = x + y; return result; } fn main() -> int { return typed_function(3, 4); }",
     None);
    ("Module import (basic)",
     "use std::print; fn main() -> int { return 0; }", None);
    ("Pattern matching (basic)",
     "fn main() -> int { let x = 5; return match x { 5 => 1, _ => 0 }; }", None);
    ("Boolean expressions",
     "fn main() -> int { let flag = true; let result = flag && (5 > 3) || false; if result { return 1; } return 0; }",
     None) ].

Definition phase_1_tests : list case :=
  [ ("Memory management basics",
     "fn main() -> int { let x = 42; let y = x; return y; }", Some 42);
    ("Type inference",
     "fn test() -> int { let x = 5; let y = x + 3; return y; } fn main() -> int { return test(); }",
     Some 8);
    ("Function overloading check",
     "fn test(x: int) -> int { return x * 2; } fn main() -> int { return test(5); }",
     Some 10);
    ("Advanced control flow",
     "fn test() -> int { let mut i = 0; let mut sum = 0; while i < 5 { if i % 2 == 0 { sum = sum + i; } i = i + 1; } return sum; } fn main() -> int { return test(); }",
     Some 6) ].

Definition test_basic_features (env : Env) : M State (Z * Z) :=
  run_table env "=== Testing Basic Language Features ===" basic_tests.

Definition test_advanced_features (env : Env) : M State (Z * Z) :=
  run_table env "=== Testing Advanced Language Features ===" advanced_tests.

Definition test_compilation_only (env : Env) : M State (Z * Z) :=
  run_table env "=== Testing Compilation-Only Features ===" compilation_only_tests.

Definition test_phase_1_features (env : Env) : M State (Z * Z) :=
  run_table env "=== Testing Phase 1 Implemented Features ===" phase_1_tests.

Definition score_line (what : string) (passed total : Z) : string :=
  what +:+ pretty passed +:+ "/" +:+ pretty total.

(** [main] has no [return] statement: it returns [None] on every path. *)
Definition main (env : Env) : M State (option Z) :=
  (print "*** NEURO Language Features Test Suite ***" ;;
   print (str_repeat "=" 50) ;;
   basic <- test_basic_features env ;;
   advanced <- test_advanced_features env ;;
   compile <- test_compilation_only env ;;
   phase1 <- test_phase_1_features env ;;
   let total_passed := basic.1 + advanced.1 + compile.1 + phase1.1 in
   let total_tests := basic.2 + advanced.2 + compile.2 + phase1.2 in
   print (nl +:+ "=== FEATURE TEST RESULTS ===") ;;
   print (score_line "Basic features: " basic.1 basic.2) ;;
   print (score_line "Advanced features: " advanced.1 advanced.2) ;;
   print (score_line "Compilation tests: " compile.1 compile.2) ;;
   print (score_line "Phase 1 features: " phase1.1 phase1.2) ;;
   print (score_line "Total: " total_passed total_tests) ;;
   (if 0 <? total_tests then
      let success_rate := (int_truediv total_passed total_tests * 100)%float in
      (print ("Success rate: " +:+ format_1f env success_rate +:+ "%") ;;
       (if float_ge success_rate 90 then
          print "[EXCELLENT] Language features working well! Phase 1 Complete"
        else if float_ge success_rate 75 then
          print "[GOOD] Most language features working"
        else
          print "[NEEDS WORK] Some language features need attention") ;;
       (if float_ge success_rate 95 then
          print (nl +:+ "[STATUS] Ready for Phase 2 development!")
        else if float_ge success_rate 85 then
          print (nl +:+ "[STATUS] Phase 1 mostly complete, minor fixes needed")
        else
          print (nl +:+ "[STATUS] Phase 1 needs more work before Phase 2")))
    else ret tt) ;;
   ret None)%py.

(** [exit_code = main(); if exit_code is None: sys.exit(0);
    sys.exit(exit_code)] *)
Definition exit_status (env : Env) (st : State) : Z :=
  match fst (main env st) with
  | Ret None => sys_exit (Some 0)
  | Ret (Some exit_code) => sys_exit (Some exit_code)
  | Raise _ => uncaught_exit_status
  end.

Definition initial (fs : gset string) : State :=
  {| files := fs; printed := []; spawned := []; local_temp_file := None |}.

(** A process that does not delete the scratch file. *)
Definition keeps (process : string -> gset string -> res CompletedProcess * gset string)
           (name : string) : Prop :=
  forall arg fs, name ∈ fs -> name ∈ (process arg fs).2.

(** A scratch file name as [tempfile] makes them. *)
Definition scratch : string := "/tmp/tmp4k2j9x1q.nr".

(** A compiler that exits 0 and writes no file at the path the harness
    looks at. *)
Definition env_no_exe : Env := {|
  mkstemp := fun _ => Ret scratch;
  write_text := fun _ => None;
  neurc_build := fun _ fs => (Ret (Completed 0 "" ""), fs);
  run_exe := fun _ fs => (Ret (Completed 1 "" ""), fs);
  unlink_error := fun _ => None;
  format_1f := fun _ => "?"
|}.

(** A source text the locale's encoding cannot encode (a lone surrogate
    under UTF-8): [f.write] raises [UnicodeEncodeError]. *)
Definition env_unencodable : Env := {|
  mkstemp := fun _ => Ret scratch;
  write_text := fun _ =>
    Some (Exn UnicodeEncodeError
            "'utf-8' codec can't encode character '\udc80' in position 0: surrogates not allowed");
  neurc_build := fun _ fs => (Ret (Completed 0 "" ""), fs);
  run_exe := fun _ fs => (Ret (Completed 0 "" ""), fs);
  unlink_error := fun _ => None;
  format_1f := fun _ => "?"
|}.

(** The compiler binary is missing: every build fails to start. *)
Definition env_compiler_missing : Env := {|
  mkstemp := fun _ => Ret scratch;
  write_text := fun _ => None;
  neurc_build := fun _ fs =>
    (Raise (Exn FileNotFoundError
              "[Errno 2] No such file or directory: './target/release/neurc'"), fs);
  run_exe := fun _ fs => (Ret (Completed 0 "" ""), fs);
  unlink_error := fun _ => None;
  format_1f := fun _ => "0.0"
|}.

(** A compiler that exits 0 and writes the executable where the harness
    looks for it; the executable exits with [exit_code]. *)
Definition env_compiles (exit_code : Z) : Env := {|
  mkstemp := fun _ => Ret scratch;
  write_text := fun _ => None;
  neurc_build := fun name fs => (Ret (Completed 0 "" ""), {[exe_of name]} ∪ fs);
  run_exe := fun _ fs => (Ret (Completed exit_code "" ""), fs);
  unlink_error := fun _ => None;
  format_1f := fun _ => "?"
|}.

(** A compiler that rejects the source. *)
Definition env_syntax_error : Env := {|
  mkstemp := fun _ => Ret scratch;
  write_text := fun _ => None;
  neurc_build := fun _ fs => (Ret (Completed 1 "" "error: unexpected token"), fs);
  run_exe := fun _ fs => (Ret (Completed 0 "" ""), fs);
  unlink_error := fun _ => None;
  format_1f := fun _ => "?"
|}.

(** A compiler that does not finish within 30 seconds. *)
Definition env_build_timeout : Env := {|
  mkstemp := fun _ => Ret scratch;
  write_text := fun _ => None;
  neurc_build := fun _ fs =>
    (Raise (Exn TimeoutExpired "Command timed out after 30 seconds"), fs);
  run_exe := fun _ fs => (Ret (Completed 0 "" ""), fs);
  unlink_error := fun _ => None;
  format_1f := fun _ => "?"
|}.

(** A compiler that moves its input away and leaves an executable. *)
Definition env_consumes_source : Env := {|
  mkstemp := fun _ => Ret scratch;
  write_text := fun _ => None;
  neurc_build := fun name fs =>
    (Ret (Completed 0 "" ""), {[exe_of name]} ∪ (fs ∖ {[name]}));
  run_exe := fun _ fs => (Ret (Completed 0 "" ""), fs);
  unlink_error := fun _ => None;
  format_1f := fun _ => "?"
|}.

(** Whether a call goes on to run the executable: the build exited 0,
    an exit code is expected and a file is at the executable's path. *)
Definition runs_executable (build_outcome : res CompletedProcess)
           (expected_exit_code : option Z) (exe_file : string) (fs : gset string)
  : bool :=
  match build_outcome, expected_exit_code with
  | Ret build_result, Some _ =>
      (returncode build_result =? 0) && bool_decide (exe_file ∈ fs)
  | _, _ => false
  end.

(** A process that neither creates nor deletes [path]. *)
Definition leaves_alone
           (process : string -> gset string -> res CompletedProcess * gset string)
           (path : string) : Prop :=
  forall arg fs, path ∈ (process arg fs).2 <-> path ∈ fs.

(** The text [old] occurs nowhere in [s ++ old] but at its very end. *)
Fixpoint only_at_end (old s : string) : Prop :=
  match s with
  | EmptyString => True
  | String c rest => String.prefix old (s +:+ old) = false /\ only_at_end old rest
  end.

End FeatureHarness.

(** ** tools/check_benchmark_regression.py *)

Module BenchmarkGate.
Import PyStr PyNum.

(** What [json.load] returns.  [JObj] lists a [dict]'s items in insertion
    order; the keys of a [dict] are pairwise distinct.  [JNull] is
    [None]. *)
#[local] Set Warnings "-register-all".
Inductive json :=
| JNull
| JBool (b : bool)
| JInt (n : Z)
| JFloat (x : float)
| JStr (s : string)
| JArr (items : list json)
| JObj (members : list (string * json)).
#[local] Set Warnings "register-all".

Fixpoint dict_get (key : string) (members : list (string * json)) : option json :=
  match members with
  | [] => None
  | (k, v) :: rest => if String.eqb k key then Some v else dict_get key rest
  end.

Definition type_name (v : json) : string :=
  match v with
  | JNull => "NoneType"
  | JBool _ => "bool"
  | JInt _ => "int"
  | JFloat _ => "float"
  | JStr _ => "str"
  | JArr _ => "list"
  | JObj _ => "dict"
  end.

Definition no_attribute (v : json) (attr : string) : exn :=
  Exn AttributeError
      ("'" +:+ type_name v +:+ "' object has no attribute '" +:+ attr +:+ "'").

(** [v.get(key, default)] *)
Definition py_get (v : json) (key : string) (default : json) : res json :=
  match v with
  | JObj members =>
      Ret (match dict_get key members with Some x => x | None => default end)
  | _ => Raise (no_attribute v "get")
  end.

(** [v.items()] *)
Definition py_items (v : json) : res (list (string * json)) :=
  match v with
  | JObj members => Ret members
  | _ => Raise (no_attribute v "items")
  end.

(** Truth value of [v], as [not v] tests it. *)
Definition truthy (v : json) : bool :=
  match v with
  | JNull => false
  | JBool b => b
  | JInt n => negb (n =? 0)
  | JFloat x => negb (PrimFloat.eqb x 0)
  | JStr s => negb (String.eqb s "")
  | JArr items => match items with [] => false | _ => true end
  | JObj members => match members with [] => false | _ => true end
  end.

Record Env := {
  (** what is at a path: [None] when nothing exists there, otherwise
      what opening the file and parsing it as JSON gives *)
  file_at : string -> option (res json);
  (** [float(s)] on a [str]; [None] where Python raises [ValueError] *)
  float_of_str : string -> option float;
  (** [f"{x:.0f}"] and [f"{x:.2f}"] *)
  format_0f : float -> string;
  format_2f : float -> string
}.

Record Args := {
  baseline : string;
  results_root : string;
  threshold_ratio : float
}.

(** [float(v)] *)
Definition py_float (env : Env) (v : json) : res float :=
  match v with
  | JFloat x => Ret x
  | JInt n =>
      let x := float_of_int n in
      if is_infinite x
      then Raise (Exn OverflowError "int too large to convert to float")
      else Ret x
  | JBool b => Ret (if b then 1%float else 0%float)
  | JStr s =>
      match float_of_str env s with
      | Some x => Ret x
      | None => Raise (Exn ValueError ("could not convert string to float: '" +:+ s +:+ "'"))
      end
  | _ =>
      Raise (Exn TypeError
               ("float() argument must be a string or a real number, not '"
                +:+ type_name v +:+ "'"))
  end.

(** [x / y] on floats *)
Definition float_div (x y : float) : res float :=
  if PrimFloat.eqb y 0
  then Raise (Exn ZeroDivisionError "float division by zero")
  else Ret (x / y)%float.

Definition load_json (env : Env) (path : string) : res json :=
  match file_at env path with
  | Some r => r
  | None =>
      Raise (Exn FileNotFoundError
               ("[Errno 2] No such file or directory: '" +:+ path +:+ "'"))
  end.

(** [results_root / group / bench_name / "new" / "estimates.json"], as
    the text the file is opened by. *)
Definition estimates_path_of (results_root group bench_name : string) : string :=
  str (truediv (truediv (truediv (truediv (Path results_root) group) bench_name) "new")
               "estimates.json").

Definition read_criterion_mean_ns (env : Env) (results_root benchmark_key : string)
  : res float :=
  match split_once "/" benchmark_key with
  | [group; bench_name] =>
      let estimates_path := estimates_path_of results_root group bench_name in
      match file_at env estimates_path with
      | None =>
          Raise (Exn FileNotFoundError
                   ("Missing benchmark output: " +:+ estimates_path))
      | Some _ =>
          estimates ← load_json env estimates_path;
          mean ← py_get estimates "mean" (JObj []);
          point_estimate ← py_get mean "point_estimate" JNull;
          match point_estimate with
          | JNull =>
              Raise (Exn ValueError
                       ("Invalid criterion estimates format in " +:+ estimates_path))
          | _ => py_float env point_estimate
          end
      end
  | _ => Raise (Exn ValueError "not enough values to unpack (expected 2, got 1)")
  end.

(** [allowed_ns = float(baseline_ns) * (1.0 + args.threshold_ratio)] *)
Definition allowed_ns_of (budget ratio : float) : float :=
  (budget * (1 + ratio))%float.

(** What [main] has done so far: the lines printed and the benchmark
    keys whose measurement it asked for, oldest first. *)
Record State := {
  printed : list string;
  consulted : list string
}.

Definition initial : State := {| printed := []; consulted := [] |}.

Definition print (line : string) : M State unit :=
  modify (fun st => {| printed := printed st ++ [line]; consulted := consulted st |}).

Definition consult (benchmark_key : string) : M State unit :=
  modify (fun st => {| printed := printed st;
                       consulted := consulted st ++ [benchmark_key] |}).

(** The [for benchmark_key, baseline_ns in benchmarks.items()] loop. *)
Fixpoint check_each (env : Env) (args : Args) (items : list (string * json))
         (failures : list string) : M State (list string) :=
  match items with
  | [] => ret failures
  | (benchmark_key, baseline_ns) :: rest =>
      (consult benchmark_key ;;
       measured_ns <- lift (read_criterion_mean_ns env (results_root args) benchmark_key) ;;
       budget <- lift (py_float env baseline_ns) ;;
       let allowed_ns := allowed_ns_of budget (threshold_ratio args) in
       slowdown <- lift (float_div measured_ns budget) ;;
       print (benchmark_key +:+ ": measured=" +:+ format_0f env measured_ns +:+ "ns "
              +:+ "baseline=" +:+ format_0f env budget +:+ "ns allowed="
              +:+ format_0f env allowed_ns +:+ "ns "
              +:+ "ratio=" +:+ format_2f env slowdown +:+ "x") ;;
       check_each env args rest
         (if float_gt measured_ns allowed_ns
          then failures ++ [benchmark_key +:+ " exceeded budget: measured "
                            +:+ format_0f env measured_ns +:+ "ns > allowed "
                            +:+ format_0f env allowed_ns +:+ "ns"]
          else failures))%py
  end.

Fixpoint print_failures (failures : list string) : M State unit :=
  match failures with
  | [] => ret tt
  | failure :: rest => (print ("  - " +:+ failure) ;; print_failures rest)%py
  end.

(** [main] after [parse_args]. *)
Definition main (env : Env) (args : Args) : M State Z :=
  (baseline_data <- lift (load_json env (baseline args)) ;;
   benchmarks <- lift (py_get baseline_data "benchmarks" (JObj [])) ;;
   if negb (truthy benchmarks) then
     (print "No benchmark baseline entries found." ;;
      ret 1)
   else
     (items <- lift (py_items benchmarks) ;;
      failures <- check_each env args items [] ;;
      match failures with
      | _ :: _ =>
          (print (nl +:+ "Benchmark regression check failed:") ;;
           print_failures failures ;;
           ret 1)
      | [] =>
          (print (nl +:+ "Benchmark regression check passed.") ;;
           ret 0)
      end))%py.

(** [sys.exit(main())] *)
Definition exit_status (env : Env) (args : Args) : Z :=
  match fst (main env args initial) with
  | Ret code => sys_exit (Some code)
  | Raise _ => uncaught_exit_status
  end.

(** The baseline at [args.baseline] is a document whose ["benchmarks"]
    entry is the mapping [members]. *)
Definition baseline_is (env : Env) (args : Args) (members : list (string * json)) : Prop :=
  exists top,
    file_at env (baseline args) = Some (Ret (JObj top)) /\
    dict_get "benchmarks" top = Some (JObj members).

(** The value at [mean.point_estimate] of a results document, when the
    document has one. *)
Definition point_estimate_of (doc : json) : option json :=
  match doc with
  | JObj members =>
      match dict_get "mean" members with
      | Some (JObj mean) =>
          match dict_get "point_estimate" mean with
          | Some JNull => None
          | found => found
          end
      | _ => None
      end
  | _ => None
  end.

(** The results file of a key is missing, or its document has no
    [mean.point_estimate]. *)
Definition missing_data (env : Env) (args : Args) (benchmark_key : string) : Prop :=
  exists group bench_name,
    split_once "/" benchmark_key = [group; bench_name] /\
    (file_at env (estimates_path_of (results_root args) group bench_name) = None \/
     exists doc,
       file_at env (estimates_path_of (results_root args) group bench_name) = Some (Ret doc)
       /\ point_estimate_of doc = None).

(** A budget the loop cannot work with: [float()] rejects it, or it is
    zero. *)
Definition unusable_budget (env : Env) (baseline_ns : json) : Prop :=
  (exists e, py_float env baseline_ns = Raise e) \/
  (exists b, py_float env baseline_ns = Ret b /\ PrimFloat.eqb b 0 = true).

(** A key the gate can check: it has a measurement and a budget it can
    divide by. *)
Definition checkable (env : Env) (args : Args) (item : string * json)
           (measured budget : float) : Prop :=
  read_criterion_mean_ns env (results_root args) item.1 = Ret measured /\
  py_float env item.2 = Ret budget /\
  PrimFloat.eqb budget 0 = false.

(** The comparison of one key, as a boolean: the key has a measurement
    and a budget, and the measurement is above the allowance. *)
Definition exceeds (env : Env) (args : Args) (item : string * json) : bool :=
  match read_criterion_mean_ns env (results_root args) item.1, py_float env item.2 with
  | Ret measured, Ret budget =>
      float_gt measured (budget * (1 + threshold_ratio args))%float
  | _, _ => false
  end.

(** The default threshold of 35%. *)
Definition args_35 : Args := {|
  baseline := "baseline.json";
  results_root := "target/criterion";
  threshold_ratio := 0x1.6666666666666p-2
|}.

(** A baseline of one key with a budget of one millisecond, and a
    results document that gives [measured] as its mean. *)
Definition env_measured (measured : json) : Env := {|
  file_at := fun path =>
    if String.eqb path "baseline.json" then
      Some (Ret (JObj [("benchmarks", JObj [("g/b", JInt 1000000)])]))
    else if String.eqb path "target/criterion/g/b/new/estimates.json" then
      Some (Ret (JObj [("mean", JObj [("point_estimate", measured)])]))
    else None;
  float_of_str := fun _ => None;
  format_0f := fun _ => "?";
  format_2f := fun _ => "?"
|}.


(** The baseline's only key has an absolute path after its first [/]:
    the results root is left out of the path that is opened. *)
Definition env_absolute_key : Env := {|
  file_at := fun path =>
    if String.eqb path "baseline.json" then
      Some (Ret (JObj [("benchmarks", JObj [("g//abs/x", JInt 1000000)])]))
    else if String.eqb path "/abs/x/new/estimates.json" then
      Some (Ret (JObj [("mean", JObj [("point_estimate", JFloat 1300000)])]))
    else None;
  float_of_str := fun _ => None;
  format_0f := fun _ => "?";
  format_2f := fun _ => "?"
|}.

(** The results tree holds nothing for the baseline's only key. *)
Definition env_no_results : Env := {|
  file_at := fun path =>
    if String.eqb path "baseline.json" then
      Some (Ret (JObj [("benchmarks", JObj [("g/b", JInt 1000000)])]))
    else None;
  float_of_str := fun _ => None;
  format_0f := fun _ => "?";
  format_2f := fun _ => "?"
|}.

(** A baseline document with an empty mapping. *)
Definition env_empty_baseline : Env := {|
  file_at := fun path =>
    if String.eqb path "baseline.json"
    then Some (Ret (JObj [("benchmarks", JObj [])]))
    else None;
  float_of_str := fun _ => None;
  format_0f := fun _ => "?";
  format_2f := fun _ => "?"
|}.

(** A baseline whose only key has no [/] in it. *)
Definition env_plain_key : Env := {|
  file_at := fun path =>
    if String.eqb path "baseline.json"
    then Some (Ret (JObj [("benchmarks", JObj [("plain", JInt 5)])]))
    else None;
  float_of_str := fun _ => None;
  format_0f := fun _ => "?";
  format_2f := fun _ => "?"
|}.

(** A baseline document that maps ["benchmarks"] to [benchmarks]. *)
Definition env_benchmarks (benchmarks : json) : Env := {|
  file_at := fun path =>
    if String.eqb path "baseline.json"
    then Some (Ret (JObj [("benchmarks", benchmarks)]))
    else None;
  float_of_str := fun _ => None;
  format_0f := fun _ => "?";
  format_2f := fun _ => "?"
|}.

(** Nothing on disk at all. *)
Definition env_nothing : Env := {|
  file_at := fun _ => None;
  float_of_str := fun _ => None;
  format_0f := fun _ => "?";
  format_2f := fun _ => "?"
|}.

(** Two keys: the first is measured within its budget, the second has no
    results file. *)
Definition env_second_missing : Env := {|
  file_at := fun path =>
    if String.eqb path "baseline.json" then
      Some (Ret (JObj [("benchmarks",
                        JObj [("g/a", JInt 1000000); ("g/b", JInt 1000000)])]))
    else if String.eqb path "target/criterion/g/a/new/estimates.json" then
      Some (Ret (JObj [("mean", JObj [("point_estimate", JFloat 1300000)])]))
    else None;
  float_of_str := fun _ => None;
  format_0f := fun _ => "?";
  format_2f := fun _ => "?"
|}.

End BenchmarkGate.

(** * Properties *)

(** Unfolding the monad of [Py]. *)
Ltac unfold_py :=
unfold bind, ret, raise, modify, get, lift, try_except, try_finally in *.

(** Total correctness in the monad: from every state the computation
  returns (it does not raise) and the value satisfies [Q]. *)
Module PyFacts.

Lemma returns_ret {S A} (a : A) (Q : A -> Prop) :
  Q a -> returns (S := S) (ret a) Q.
Proof. intros H s. exists a, s. split; [reflexivity | exact H]. Qed.

Lemma returns_modify {S} (f : S -> S) (Q : unit -> Prop) :
  Q tt -> returns (modify f) Q.
Proof. intros H s. exists tt, (f s). split; [reflexivity | exact H]. Qed.

Lemma returns_bind {S A B} (m : M S A) (k : A -> M S B) (P : A -> Prop) (Q : B -> Prop) :
  returns m P -> (forall a, P a -> returns (k a) Q) -> returns (bind m k) Q.
Proof.
  intros Hm Hk s. destruct (Hm s) as (a & s1 & E & Ha).
  destruct (Hk a Ha s1) as (b & s2 & E2 & Hb).
  exists b, s2. unfold bind. rewrite E. split; assumption.
Qed.

(** An [except Exception] whose handler returns makes any block return. *)
Lemma returns_try_except {S A} (m : M S A) (h : exn -> M S A) (Q : A -> Prop) :
  (forall e, returns (h e) Q) ->
  (forall s a s', m s = (Ret a, s') -> Q a) ->
  returns (try_except m h) Q.
Proof.
  intros Hh Hm s. unfold try_except.
  destruct (m s) as [[a|e] s1] eqn:E.
  - exists a, s1. split; [reflexivity|]. eapply Hm, E.
  - apply Hh.
Qed.

Lemma returns_try_finally {S A} (m : M S A) (fin : M S unit) (Q : A -> Prop) :
  returns m Q -> returns fin (fun _ => True) -> returns (try_finally m fin) Q.
Proof.
  intros Hm Hf s. unfold try_finally.
  destruct (Hm s) as (a & s1 & E & Ha). rewrite E.
  destruct (Hf s1) as ([] & s2 & E2 & _). rewrite E2.
  exists a, s2. split; [reflexivity | exact Ha].
Qed.

(** One step of a sequence whose first computation returns. *)
Lemma bind_ret_eq {S A B} (m : M S A) (k : A -> M S B) s a s' :
  m s = (Ret a, s') -> bind m k s = k a s'.
Proof. intros E. unfold bind. now rewrite E. Qed.

End PyFacts.

Module OrchestratorFacts.
Import PyFacts Orchestrator.

Lemma suite_okb_spec env script :
  suite_okb env script = true <-> suite_exited_zero env script.
Proof.
  unfold suite_okb, suite_exited_zero. split.
  - intros H. apply andb_true_iff in H as [He Hr]. split; [exact He|].
    destruct (run_python env script) as [p|e]; [|discriminate].
    exists p. split; [reflexivity|]. now apply Z.eqb_eq.
  - intros [He (p & Hp & Hz)]. rewrite He, Hp. simpl. now apply Z.eqb_eq.
Qed.

Lemma suite_failed_not_ok env script :
  suite_failed env script -> suite_okb env script = false.
Proof.
  unfold suite_failed, suite_okb.
  intros [He [[e Hr]|(p & Hp & Hnz)]]; rewrite He; simpl.
  - now rewrite Hr.
  - rewrite Hp. now apply Z.eqb_neq.
Qed.

(** One suite that passed leaves [all_passed] alone and never raises. *)
Lemma run_test_script_ok env script :
  suite_okb env script = true ->
  exists out err, run_test_script env script = Tuple3 true out err.
Proof.
  unfold suite_okb, run_test_script. intros H.
  apply andb_true_iff in H as [He Hr]. rewrite He. simpl.
  destruct (run_python env script) as [p|e]; [|discriminate].
  rewrite Hr. eauto.
Qed.

Lemma run_test_script_not_ok env script :
  suite_okb env script = false ->
  (exists msg, run_test_script env script = Tuple2 false msg) \/
  (exists out err, run_test_script env script = Tuple3 false out err).
Proof.
  unfold suite_okb, run_test_script. intros H.
  destruct (script_exists env script); simpl in *; [right|left; eauto].
  destruct (run_python env script) as [p|e].
  - rewrite H. eauto.
  - destruct (decide _); eauto.
Qed.

(** The loop returns the conjunction of [all_passed] with every suite's
    verdict, unless unpacking a 2-tuple raised on the way. *)
Lemma run_suites_result env scripts :
  forall all_passed out,
    match fst (run_suites env scripts all_passed out) with
    | Ret b => b = all_passed && forallb (fun sd => suite_okb env sd.1) scripts
    | Raise _ => forallb (fun sd => suite_okb env sd.1) scripts = false
    end.
Proof.
  induction scripts as [|[script description] rest IH]; intros all_passed out.
  - simpl. now rewrite andb_true_r.
  - cbn [run_suites forallb fst]. unfold_py. unfold print, when. unfold_py.
    destruct (suite_okb env script) eqn:Hok.
    + destruct (run_test_script_ok _ _ Hok) as (o & e & ->). cbn.
      destruct (nonempty o), (nonempty e); cbn; apply IH.
    + destruct (run_test_script_not_ok _ _ Hok) as [(m & ->)|(o & e & ->)];
        cbn -[str_repeat]; [reflexivity|].
      rewrite andb_false_r.
      destruct (nonempty o), (nonempty e); cbn -[str_repeat];
        match goal with
        | |- context [run_suites env rest false ?o] =>
            specialize (IH false o);
            destruct (run_suites env rest false o) as [[b'|e'] s'];
            cbn [fst] in *; first [reflexivity | exact IH]
        end.
Qed.

Lemma main_result env :
  match fst (main env []) with
  | Ret code => code = if forallb (fun sd => suite_okb env sd.1) test_scripts then 0 else 1
  | Raise _ => forallb (fun sd => suite_okb env sd.1) test_scripts = false
  end.
Proof.
  unfold main. unfold_py. unfold print at 1 2. unfold_py.
  pose proof (run_suites_result env test_scripts true
    ([] ++ ["*** NEURO Compiler - Master Test Suite ***"] ++ [str_repeat "=" 60])) as H.
  change (([] ++ ["*** NEURO Compiler - Master Test Suite ***"]) ++ [str_repeat "=" 60])
    with ([] ++ ["*** NEURO Compiler - Master Test Suite ***"] ++ [str_repeat "=" 60]).
  destruct (run_suites env test_scripts true _) as [[b|e] out']; cbn [fst] in *.
  - rewrite andb_true_l in H. subst b. unfold print. unfold_py.
    destruct (forallb _ _); reflexivity.
  - exact H.
Qed.

Lemma exit_status_cases env :
  exit_status env =
  if forallb (fun sd => suite_okb env sd.1) test_scripts then 0 else 1.
Proof.
  unfold exit_status. pose proof (main_result env) as H.
  destruct (fst (main env [])) as [code|e].
  - subst code. destruct (forallb _ _); reflexivity.
  - rewrite H. reflexivity.
Qed.

(** C10: the orchestrator's exit status is 0 exactly when every suite of
    [test_scripts] ran and exited with code 0, and it is 1 otherwise; in
    particular a suite that timed out, raised or exited non-zero makes
    it 1. *)
Theorem orchestrator_exit_zero_iff_all_suites_pass (env : Env) :
  (exit_status env = 0 <->
   Forall (fun sd => suite_exited_zero env sd.1) test_scripts) /\
  (exit_status env = 0 \/ exit_status env = 1) /\
  (forall script description,
      In (script, description) test_scripts ->
      suite_failed env script -> exit_status env = 1).
Proof.
  rewrite exit_status_cases. repeat split.
  - intros H. apply Forall_forall. intros sd Hin.
    apply suite_okb_spec.
    destruct (forallb _ _) eqn:Hall; [|discriminate].
    rewrite forallb_forall in Hall. apply Hall. now apply list_elem_of_In.
  - intros H. rewrite Forall_forall in H.
    assert (forallb (fun sd => suite_okb env sd.1) test_scripts = true) as ->; [|reflexivity].
    apply forallb_forall. intros sd Hin. apply suite_okb_spec, H.
    now apply list_elem_of_In.
  - destruct (forallb _ _); auto.
  - intros script description Hin Hfail.
    destruct (forallb _ _) eqn:Hall; [|reflexivity].
    rewrite forallb_forall in Hall. specialize (Hall _ Hin). simpl in Hall.
    rewrite (suite_failed_not_ok _ _ Hfail) in Hall. discriminate.
Qed.

Example all_green_exit : exit_status env_all_green = 0.
Proof. vm_compute. reflexivity. Qed.

Example corpus_red_exit : exit_status env_corpus_red = 1.
Proof. vm_compute. reflexivity. Qed.

Example script_missing_raises :
  fst (main env_script_missing [])
  = Raise (Exn ValueError "not enough values to unpack (expected 3, got 2)")
  /\ exit_status env_script_missing = 1.
Proof. split; vm_compute; reflexivity. Qed.

(** *** Missing scripts *)

(** A script that is there gives a triple, whatever the process did. *)
Lemma run_test_script_present env script :
  script_exists env script = true ->
  exists out err,
    run_test_script env script = Tuple3 (suite_okb env script) out err.
Proof.
  intros He. unfold run_test_script, suite_okb. rewrite He. cbn [negb andb].
  destruct (run_python env script) as [p|e]; [eauto|].
  destruct (decide _); eauto.
Qed.

(** The loop raises exactly when it meets a missing script, and then it
    raises the [ValueError] of the unpacking; otherwise it prints, after
    what was printed before, the verdict line of every suite. *)
Lemma run_suites_outcome env scripts :
  forall all_passed out,
    if all_present env scripts then
      exists result tail,
        run_suites env scripts all_passed out = (Ret result, out ++ tail) /\
        forall script description,
          In (script, description) scripts ->
          In (verdict_line env script description) tail
    else
      exists out', run_suites env scripts all_passed out = (Raise unpack_error, out').
Proof.
  induction scripts as [|[script description] rest IH]; intros all_passed out.
  - cbn. exists all_passed, []. rewrite app_nil_r. split; [reflexivity|]. intros ? ? [].
  - unfold all_present in *. cbn [forallb fst run_suites].
    do 2 (erewrite bind_ret_eq by reflexivity).
    destruct (script_exists env script) eqn:He; cbn [andb].
    2: { unfold run_test_script. rewrite He. cbn. eauto. }
    destruct (run_test_script_present env script He) as (o & e & ->).
    erewrite bind_ret_eq by reflexivity.
    assert (exists s1,
               (if suite_okb env script
                then print ("[PASS] " +:+ description +:+ " - PASSED")
                else print ("[FAIL] " +:+ description +:+ " - FAILED"))
                 ((out ++ [nl +:+ "[*] Running " +:+ description]) ++ [str_repeat "-" 40])
               = (Ret tt, s1) /\
               s1 = out ++ [nl +:+ "[*] Running " +:+ description; str_repeat "-" 40;
                            verdict_line env script description])
      as (s1 & E1 & Hs1).
    { unfold verdict_line. destruct (suite_okb env script);
        (eexists; split; [reflexivity|]); now rewrite <- !app_assoc. }
    erewrite bind_ret_eq by exact E1.
    assert (exists t2, when (nonempty o) (print o) s1 = (Ret tt, s1 ++ t2)) as (t2 & E2).
    { unfold when. destruct (nonempty o); [exists [o] | exists []];
        [reflexivity | now rewrite app_nil_r]. }
    erewrite bind_ret_eq by exact E2.
    assert (exists t3, when (nonempty e) (print ("Errors: " +:+ e)) (s1 ++ t2)
                       = (Ret tt, (s1 ++ t2) ++ t3)) as (t3 & E3).
    { unfold when. destruct (nonempty e); [eexists [_] | exists []];
        [reflexivity | now rewrite app_nil_r]. }
    erewrite bind_ret_eq by exact E3.
    match goal with
    | |- context [run_suites env rest ?b ?s] => specialize (IH b s)
    end.
    destruct (forallb (fun sd => script_exists env sd.1) rest).
    + destruct IH as (result & tail & -> & Hin).
      exists result,
        ([nl +:+ "[*] Running " +:+ description; str_repeat "-" 40;
          verdict_line env script description] ++ t2 ++ t3 ++ tail).
      split; [f_equal; rewrite Hs1; now rewrite <- !app_assoc|].
      intros s d [Heq|Hrest].
      * inversion Heq; subst. right. right. now left.
      * apply in_or_app. right. apply in_or_app. right.
        apply in_or_app. right. now apply Hin.
    + destruct IH as (out' & ->). eauto.
Qed.

Lemma forallb_false_iff {A} (f : A -> bool) (l : list A) :
  forallb f l = false <-> exists x, In x l /\ f x = false.
Proof.
  induction l as [|x l IH]; cbn [forallb].
  - split; [discriminate | intros (? & [] & _)].
  - rewrite andb_false_iff, IH. split.
    + intros [Hx|(y & Hin & Hy)]; [exists x | exists y]; cbn; auto.
    + intros (y & [<-|Hin] & Hy); [now left | right; eauto].
Qed.

(** When the loop raises, it has just printed the header of a suite
    whose script is missing. *)
Lemma run_suites_raises_at_header env scripts :
  forall all_passed out e out',
    run_suites env scripts all_passed out = (Raise e, out') ->
    exists script description pre,
      In (script, description) scripts /\
      script_exists env script = false /\
      out' = pre ++ [nl +:+ "[*] Running " +:+ description; str_repeat "-" 40].
Proof.
  induction scripts as [|[script description] rest IH];
    intros all_passed out e out' Hraise; [discriminate Hraise|].
  cbn [run_suites] in Hraise.
  do 2 (erewrite bind_ret_eq in Hraise by reflexivity).
  destruct (script_exists env script) eqn:He.
  - destruct (run_test_script_present env script He) as (o & err & Hr).
    rewrite Hr in Hraise.
    erewrite bind_ret_eq in Hraise by reflexivity.
    cbv beta iota zeta in Hraise.
    assert (exists s1,
               (if suite_okb env script
                then print ("[PASS] " +:+ description +:+ " - PASSED")
                else print ("[FAIL] " +:+ description +:+ " - FAILED"))
                 ((out ++ [nl +:+ "[*] Running " +:+ description]) ++ [str_repeat "-" 40])
               = (Ret tt, s1)) as (s1 & E1)
        by (destruct (suite_okb env script); eexists; reflexivity).
    erewrite bind_ret_eq in Hraise by exact E1.
    assert (exists s2, when (nonempty o) (print o) s1 = (Ret tt, s2)) as (s2 & E2)
        by (unfold when; destruct (nonempty o); eexists; reflexivity).
    erewrite bind_ret_eq in Hraise by exact E2.
    assert (exists s3, when (nonempty err) (print ("Errors: " +:+ err)) s2 = (Ret tt, s3))
      as (s3 & E3)
        by (unfold when; destruct (nonempty err); eexists; reflexivity).
    erewrite bind_ret_eq in Hraise by exact E3.
    destruct (IH _ _ _ _ Hraise) as (s & d & pre & Hin & Hmissing & Hout).
    exists s, d, pre. split; [now right|]. split; assumption.
  - unfold run_test_script in Hraise. rewrite He in Hraise. cbn in Hraise.
    injection Hraise as _ <-.
    exists script, description, out. split; [now left|]. split; [exact He|].
    now rewrite <- app_assoc.
Qed.

(** X22: [main] raises exactly when the script of some suite is missing
    ([run_test_script] then returns a pair, which the three-way unpacking
    rejects); the exception is that [ValueError]; and [main] stops there:
    the last lines printed are the header of a suite whose script is
    missing, so the results banner is never reached. *)
Theorem orchestrator_raises_iff_a_script_is_missing (env : Env) :
  ((exists e out, main env [] = (Raise e, out)) <->
   exists script description,
     In (script, description) test_scripts /\ script_exists env script = false) /\
  (forall e out, main env [] = (Raise e, out) -> e = unpack_error) /\
  (forall e out,
      main env [] = (Raise e, out) ->
      exists script description pre,
        In (script, description) test_scripts /\
        script_exists env script = false /\
        out = pre ++ [nl +:+ "[*] Running " +:+ description; str_repeat "-" 40]).
Proof.
  assert (forall e out,
             main env [] = (Raise e, out) ->
             exists script description pre,
               In (script, description) test_scripts /\
               script_exists env script = false /\
               out = pre ++ [nl +:+ "[*] Running " +:+ description; str_repeat "-" 40])
    as Hheader.
  { intros e out Hraise. unfold main in Hraise.
    do 2 (erewrite bind_ret_eq in Hraise by reflexivity).
    unfold bind at 1 in Hraise.
    match type of Hraise with
    | context [run_suites env test_scripts true ?s] =>
        destruct (run_suites env test_scripts true s) as [[result|e'] out'] eqn:Hloop
    end.
    - exfalso. do 3 (erewrite bind_ret_eq in Hraise by reflexivity).
      destruct result; discriminate Hraise.
    - injection Hraise as <- <-.
      exact (run_suites_raises_at_header env test_scripts _ _ _ _ Hloop). }
  cut (((exists e out, main env [] = (Raise e, out)) <->
        exists script description,
          In (script, description) test_scripts /\ script_exists env script = false) /\
       (forall e out, main env [] = (Raise e, out) -> e = unpack_error)).
  { intros [H1 H2]. split; [exact H1|]. split; [exact H2 | exact Hheader]. }
  clear Hheader.
  assert (all_present env test_scripts = false <->
          exists script description,
            In (script, description) test_scripts /\ script_exists env script = false)
    as Hmissing.
  { unfold all_present. rewrite forallb_false_iff. split.
    - intros ([s d] & Hin & Hx). eauto.
    - intros (s & d & Hin & Hx). exists (s, d). auto. }
  rewrite <- Hmissing.
  assert (if all_present env test_scripts
          then exists code out, main env [] = (Ret code, out)
          else exists out, main env [] = (Raise unpack_error, out)) as Hmain.
  { unfold main. do 2 (erewrite bind_ret_eq by reflexivity).
    match goal with
    | |- context [bind (run_suites env test_scripts true) _ ?s] =>
        pose proof (run_suites_outcome env test_scripts true s) as Hout
    end.
    destruct (all_present env test_scripts).
    - destruct Hout as (result & tail & E & _).
      erewrite bind_ret_eq by exact E.
      do 3 (erewrite bind_ret_eq by reflexivity).
      destruct result; eexists _, _; reflexivity.
    - destruct Hout as (out' & E). unfold bind at 1. rewrite E. eauto. }
  destruct (all_present env test_scripts).
  - destruct Hmain as (code & out & ->).
    split; [|intros ? ? H; discriminate H].
    split; [intros (? & ? & H); discriminate H | discriminate].
  - destruct Hmain as (out & ->).
    split; [|intros ? ? H; now injection H as <- _].
    split; [reflexivity | eauto].
Qed.

(** X23: when every script is there, no suite is skipped: whatever the
    earlier suites did (failed, timed out, raised), [main] prints for
    each suite of [test_scripts] its verdict line, [PASS] when its
    process exited 0 and [FAIL] otherwise. *)
Theorem every_suite_is_run_and_reported (env : Env) (script description : string) :
  all_present env test_scripts = true ->
  In (script, description) test_scripts ->
  In (verdict_line env script description) (snd (main env [])).
Proof.
  intros Hall Hin.
  unfold main. do 2 (erewrite bind_ret_eq by reflexivity).
  match goal with
  | |- context [bind (run_suites env test_scripts true) _ ?s] =>
      pose proof (run_suites_outcome env test_scripts true s) as Hout
  end.
  rewrite Hall in Hout. destruct Hout as (result & tail & E & Hlines).
  erewrite bind_ret_eq by exact E.
  do 3 (erewrite bind_ret_eq by reflexivity).
  specialize (Hlines script description Hin).
  destruct result; unfold bind, print, modify, ret; cbn [snd];
    do 6 (apply in_or_app; left); apply in_or_app; right; exact Hlines.
Qed.

Lemma every_suite_is_run_and_reported_witness :
  In (verdict_line env_corpus_red "test_compilation_features.py" "Language Feature Tests")
     (snd (main env_corpus_red [])).
Proof.
  apply (every_suite_is_run_and_reported env_corpus_red).
  - reflexivity.
  - right. left. reflexivity.
Defined.

Example corpus_red_verdict_lines :
  verdict_line env_corpus_red "test_all_nr_files.py" "File Compilation Tests"
  = "[FAIL] File Compilation Tests - FAILED" /\
  verdict_line env_corpus_red "test_compilation_features.py" "Language Feature Tests"
  = "[PASS] Language Feature Tests - PASSED".
Proof. split; reflexivity. Qed.

End OrchestratorFacts.

Module SmokeTestFacts.
Import PyStr SmokeTest.

Example stem_milestone : stem (Path "/w/examples/milestone.nr") = "milestone".
Proof. reflexivity. Qed.

Example stem_hidden : stem (Path ".bashrc") = ".bashrc".
Proof. reflexivity. Qed.

Example stem_two_suffixes : stem (Path "a.tar.gz") = "a.tar".
Proof. reflexivity. Qed.

Example stem_of_final_component :
  stem (source_of args0 "sub/milestone.nr") = "milestone" /\
  stem (source_of args0 "x/..") = ".." /\
  stem (source_of args0 "") = "examples" /\
  stem (source_of args0 "/") = "".
Proof. repeat split. Qed.

Example path_parsing :
  map (fun s => str (Path s)) [""; "."; "./"; "/"; "///"; "//"; "a//b"; "a/./b/"; "///a"; "//a"; "a/.."]
  = ["."; "."; "."; "/"; "/"; "//"; "a/b"; "a/b"; "/a"; "//a"; "a/.."].
Proof. reflexivity. Qed.

Example path_joining :
  joinpath "/" "examples" = "/examples" /\
  joinpath "a/" "b" = "a/b" /\
  joinpath "a" "/b" = "/b" /\
  joinpath "a" "" = "a".
Proof. repeat split. Qed.

Section Loop.
Variables (env : Env) (args : Args) (temp_root : string).

(** One passing example: both of its commands are spawned and the loop
    goes on. *)
Lemma smoke_loop_pass_step ex rest st :
  example_passes env args temp_root ex ->
  exists st1,
    smoke_loop env args temp_root (suffix_of env) (ex :: rest) st
    = smoke_loop env args temp_root (suffix_of env) rest st1 /\
    spawned st1 = spawned st ++ [compile_of env args temp_root ex;
                                 execute_of env args temp_root ex].
Proof.
  destruct ex as [name expected].
  intros [(c & Hc & Hc0) (r & Hr & Hre)].
  unfold compile_of, execute_of in *. cbn [fst snd] in *.
  cbn [smoke_loop]. unfold run_command, print. unfold_py.
  rewrite Hc. cbn. rewrite Hc0. cbn. rewrite Hr. cbn. rewrite Hre.
  rewrite Z.eqb_refl. cbn.
  eexists. split; [reflexivity|]. cbn. now rewrite <- app_assoc.
Qed.

Lemma smoke_loop_compile_fails ex rest st :
  compile_fails env args temp_root ex ->
  exists st1,
    smoke_loop env args temp_root (suffix_of env) (ex :: rest) st
    = (Ret (Some 1), st1) /\
    spawned st1 = spawned st ++ [compile_of env args temp_root ex].
Proof.
  destruct ex as [name expected].
  intros (c & Hc & Hc0).
  unfold compile_of in *. cbn [fst snd] in *.
  cbn [smoke_loop]. unfold run_command, print. unfold_py.
  rewrite Hc. cbn. apply Z.eqb_neq in Hc0. rewrite Hc0. cbn.
  eexists. split; reflexivity.
Qed.

Lemma smoke_loop_exit_code_differs ex rest st :
  exit_code_differs env args temp_root ex ->
  exists st1,
    smoke_loop env args temp_root (suffix_of env) (ex :: rest) st
    = (Ret (Some 1), st1) /\
    spawned st1 = spawned st ++ [compile_of env args temp_root ex;
                                 execute_of env args temp_root ex].
Proof.
  destruct ex as [name expected].
  intros [(c & Hc & Hc0) (r & Hr & Hre)].
  unfold compile_of, execute_of in *. cbn [fst snd] in *.
  cbn [smoke_loop]. unfold run_command, print. unfold_py.
  rewrite Hc. cbn. rewrite Hc0. cbn. rewrite Hr. cbn.
  apply Z.eqb_neq in Hre. rewrite Hre. cbn.
  eexists. split; [reflexivity|]. cbn. now rewrite <- app_assoc.
Qed.

(** A prefix of passing examples only adds its own commands. *)
Lemma smoke_loop_skip_passing pre :
  Forall (example_passes env args temp_root) pre ->
  forall rest st,
  exists st1,
    smoke_loop env args temp_root (suffix_of env) (pre ++ rest) st
    = smoke_loop env args temp_root (suffix_of env) rest st1 /\
    spawned st1 = spawned st ++ commands_of env args temp_root pre.
Proof.
  induction 1 as [|ex pre Hex _ IH]; intros rest st.
  - exists st. split; [reflexivity|]. unfold commands_of. cbn.
    now rewrite app_nil_r.
  - destruct (smoke_loop_pass_step ex (pre ++ rest) st Hex) as (st1 & E1 & S1).
    destruct (IH rest st1) as (st2 & E2 & S2).
    exists st2. split.
    + cbn [app]. now rewrite E1.
    + rewrite S2, S1. unfold commands_of. cbn. now rewrite <- app_assoc.
Qed.

End Loop.

Lemma main_unfold env args temp_root :
  path_exists env (neurc args) = true ->
  mkdtemp env = Ret temp_root ->
  main env args initial =
  match smoke_loop env args temp_root (suffix_of env) examples initial with
  | (Ret (Some code), st) => (Ret code, st)
  | (Ret None, st) =>
      (Ret 0, {| printed := printed st ++ ["All release smoke tests passed."];
                 spawned := spawned st |})
  | (Raise e, st) => (Raise e, st)
  end.
Proof.
  intros He Hd. unfold main. rewrite He. cbn [negb]. unfold_py. rewrite Hd.
  unfold suffix_of.
  destruct (smoke_loop env args temp_root _ examples initial) as [[[code|]|e] st];
    reflexivity.
Qed.

(** C8: a missing compiler path ends the run with 1 before any command
    is spawned; the first example that fails to compile, or whose binary
    exits with another code than expected, ends the run with 1 and the
    commands spawned are those of the examples before it and its own,
    none of a later example; when every example passes the run returns
    0. *)
Theorem smoke_test_fails_fast (env : Env) (args : Args) :
  (path_exists env (neurc args) = false ->
   exists st, main env args initial = (Ret 1, st) /\ spawned st = []) /\
  (forall temp_root,
      path_exists env (neurc args) = true ->
      mkdtemp env = Ret temp_root ->
      (forall pre ex post,
          examples = pre ++ ex :: post ->
          Forall (example_passes env args temp_root) pre ->
          (compile_fails env args temp_root ex ->
           exists st,
             main env args initial = (Ret 1, st) /\
             spawned st = commands_of env args temp_root pre
                          ++ [compile_of env args temp_root ex]) /\
          (exit_code_differs env args temp_root ex ->
           exists st,
             main env args initial = (Ret 1, st) /\
             spawned st = commands_of env args temp_root pre
                          ++ [compile_of env args temp_root ex;
                              execute_of env args temp_root ex])) /\
      (Forall (example_passes env args temp_root) examples ->
       exists st,
         main env args initial = (Ret 0, st) /\
         spawned st = commands_of env args temp_root examples)).
Proof.
  split.
  - intros He. unfold main. rewrite He. cbn. eexists. split; reflexivity.
  - intros temp_root He Hd. rewrite (main_unfold env args temp_root He Hd).
    split.
    + intros pre ex post -> Hpre.
      destruct (smoke_loop_skip_passing env args temp_root pre Hpre (ex :: post) initial)
        as (st1 & E1 & S1).
      rewrite E1. cbn [spawned initial app] in S1. split.
      * intros Hfail.
        destruct (smoke_loop_compile_fails env args temp_root ex post st1 Hfail)
          as (st2 & E2 & S2).
        rewrite E2. exists st2. split; [reflexivity|]. now rewrite S2, S1.
      * intros Hdiff.
        destruct (smoke_loop_exit_code_differs env args temp_root ex post st1 Hdiff)
          as (st2 & E2 & S2).
        rewrite E2. exists st2. split; [reflexivity|]. now rewrite S2, S1.
    + intros Hall.
      destruct (smoke_loop_skip_passing env args temp_root examples Hall [] initial)
        as (st1 & E1 & S1).
      rewrite app_nil_r in E1. rewrite E1. cbn [smoke_loop]. unfold_py.
      eexists. split; [reflexivity|]. cbn [spawned]. exact S1.
Qed.

Example smoke_wrong_exit_run :
  main env_wrong_exit args0 initial =
  (Ret 1,
   {| printed := ["Smoke test failed for milestone.nr: expected exit 8, got 7"; ""; ""];
      spawned := [ ["/w/target/release/neurc"; "compile"; "/w/examples/milestone.nr";
                    "-O"; "2"; "-o"; "/tmp/tmpq1/milestone_smoke"];
                   ["/tmp/tmpq1/milestone_smoke"] ] |}).
Proof. vm_compute. reflexivity. Qed.

Lemma smoke_test_fails_fast_witness :
  exists st,
    main env_wrong_exit args0 initial = (Ret 1, st) /\
    spawned st = commands_of env_wrong_exit args0 "/tmp/tmpq1" []
                 ++ [compile_of env_wrong_exit args0 "/tmp/tmpq1" ("milestone.nr", 8);
                     execute_of env_wrong_exit args0 "/tmp/tmpq1" ("milestone.nr", 8)].
Proof.
  destruct (smoke_test_fails_fast env_wrong_exit args0) as [_ H].
  destruct (H "/tmp/tmpq1" eq_refl eq_refl) as [Hfirst _].
  destruct (Hfirst [] ("milestone.nr", 8) [("factorial.nr", 120)] eq_refl
                   ltac:(constructor)) as [_ Hdiff].
  apply Hdiff. split.
  - exists (Completed 0 "" ""). split; reflexivity.
  - exists (Completed 7 "" ""). split; [reflexivity|]. cbn. lia.
Defined.

(** *** What an exit status of 0 means *)

Section LoopOutcome.
Variables (env : Env) (args : Args) (temp_root : string).

(** A [return] taken inside the loop is [return 1]; the loop reaches its
    end only when every example passed. *)
Lemma smoke_loop_outcome todo :
  forall st st' returned,
    smoke_loop env args temp_root (suffix_of env) todo st = (Ret returned, st') ->
    match returned with
    | Some code => code = 1
    | None => Forall (example_passes env args temp_root) todo
    end.
Proof.
  induction todo as [|[name expected] rest IH]; intros st st' returned Hloop.
  - cbn in Hloop. injection Hloop as <- _. constructor.
  - cbn [smoke_loop] in Hloop. unfold run_command, print in Hloop.
    unfold bind, modify, lift, ret in Hloop.
    destruct (spawn env (compile_cmd args temp_root (suffix_of env) name) (workspace args))
      as [c|e] eqn:Hc; [|discriminate Hloop].
    destruct (returncode c =? 0) eqn:Hc0; cbn [negb] in Hloop.
    2: { injection Hloop as <- _. reflexivity. }
    destruct (spawn env (run_cmd args temp_root (suffix_of env) name) (workspace args))
      as [r|e] eqn:Hr; [|discriminate Hloop].
    destruct (returncode r =? expected) eqn:Hre; cbn [negb] in Hloop.
    2: { injection Hloop as <- _. reflexivity. }
    specialize (IH _ _ _ Hloop). destruct returned as [code|]; [exact IH|].
    constructor; [|exact IH].
    split; [exists c | exists r]; (split; [assumption|]); now apply Z.eqb_eq.
Qed.

End LoopOutcome.

(** X19: the smoke test exits with status 0 exactly when the compiler
    path exists, the temporary directory could be created, and every
    example compiled with exit code 0 and its binary exited with the
    expected code. *)
Theorem smoke_exit_zero_iff_all_examples_pass (env : Env) (args : Args) :
  exit_status env args = 0 <->
  path_exists env (neurc args) = true /\
  exists temp_root,
    mkdtemp env = Ret temp_root /\
    Forall (example_passes env args temp_root) examples.
Proof.
  unfold exit_status. split.
  - destruct (path_exists env (neurc args)) eqn:He.
    2: { unfold main. rewrite He. cbn. discriminate. }
    destruct (mkdtemp env) as [temp_root|e] eqn:Hd.
    2: { unfold main. rewrite He. cbn [negb]. unfold_py. rewrite Hd. cbn. discriminate. }
    rewrite (main_unfold env args temp_root He Hd).
    destruct (smoke_loop env args temp_root (suffix_of env) examples initial)
      as [[returned|e] st] eqn:Hloop; [|cbn; discriminate].
    pose proof (smoke_loop_outcome env args temp_root _ _ _ _ Hloop) as Hout.
    destruct returned as [code|]; cbn [fst sys_exit].
    + subst code. discriminate.
    + intros _. split; [reflexivity|]. eauto.
  - intros (He & temp_root & Hd & Hall).
    rewrite (main_unfold env args temp_root He Hd).
    destruct (smoke_loop_skip_passing env args temp_root examples Hall [] initial)
      as (st1 & E1 & _).
    rewrite app_nil_r in E1. rewrite E1. reflexivity.
Qed.

(** *** Commands that cannot be started *)

(** X20: when [subprocess.run] raises for the compilation of an example,
    or for the binary of an example that compiled with exit code 0, the
    exception leaves [main] (exit status 1); the commands spawned are
    those of the examples before, which all passed, and the example's
    own. *)
Theorem smoke_test_propagates_spawn_errors
  (env : Env) (args : Args) (temp_root : string)
  (pre post : list (string * Z)) (ex : string * Z) (e : exn) :
  path_exists env (neurc args) = true ->
  mkdtemp env = Ret temp_root ->
  examples = pre ++ ex :: post ->
  Forall (example_passes env args temp_root) pre ->
  (spawn env (compile_of env args temp_root ex) (workspace args) = Raise e ->
   exists st,
     main env args initial = (Raise e, st) /\
     spawned st = commands_of env args temp_root pre
                  ++ [compile_of env args temp_root ex]) /\
  ((exists c, spawn env (compile_of env args temp_root ex) (workspace args) = Ret c
              /\ returncode c = 0) ->
   spawn env (execute_of env args temp_root ex) (workspace args) = Raise e ->
   exists st,
     main env args initial = (Raise e, st) /\
     spawned st = commands_of env args temp_root pre
                  ++ [compile_of env args temp_root ex;
                      execute_of env args temp_root ex]).
Proof.
  intros He Hd Hex Hpre.
  rewrite (main_unfold env args temp_root He Hd), Hex.
  destruct (smoke_loop_skip_passing env args temp_root pre Hpre (ex :: post) initial)
    as (st1 & E1 & S1).
  rewrite E1. cbn [spawned initial app] in S1. destruct ex as [name expected].
  unfold compile_of, execute_of. cbn [fst snd].
  split.
  - intros Hc. cbn [smoke_loop]. unfold run_command. unfold_py. rewrite Hc.
    eexists. split; [reflexivity|]. cbn [spawned]. now rewrite S1.
  - intros (c & Hc & Hc0) Hr. cbn [smoke_loop]. unfold run_command. unfold_py.
    rewrite Hc. cbn [spawned printed]. rewrite Hc0. cbn [Z.eqb negb]. rewrite Hr.
    eexists. split; [reflexivity|]. cbn [spawned]. rewrite S1.
    now rewrite <- app_assoc.
Qed.

Lemma smoke_test_propagates_spawn_errors_witness :
  exists st,
    main env_no_binary args0 initial
    = (Raise (Exn FileNotFoundError
                "[Errno 2] No such file or directory: '/tmp/tmpq1/milestone_smoke'"), st) /\
    spawned st = commands_of env_no_binary args0 "/tmp/tmpq1" []
                 ++ [compile_of env_no_binary args0 "/tmp/tmpq1" ("milestone.nr", 8);
                     execute_of env_no_binary args0 "/tmp/tmpq1" ("milestone.nr", 8)].
Proof.
  destruct (smoke_test_propagates_spawn_errors env_no_binary args0 "/tmp/tmpq1"
              [] [("factorial.nr", 120)] ("milestone.nr", 8)
              (Exn FileNotFoundError
                 "[Errno 2] No such file or directory: '/tmp/tmpq1/milestone_smoke'")
              eq_refl eq_refl eq_refl ltac:(constructor)) as [_ Hrun].
  apply Hrun; [|reflexivity].
  exists (Completed 0 "" ""). split; reflexivity.
Defined.

Example all_pass_exit : exit_status env_all_pass args0 = 0.
Proof. vm_compute. reflexivity. Qed.

Example no_binary_exit : exit_status env_no_binary args0 = 1.
Proof. vm_compute. reflexivity. Qed.

(** *** Output names *)

Lemma length_append_string (a b : string) :
  String.length (a +:+ b) = (String.length a + String.length b)%nat.
Proof.
  induction a as [|c a IH]; [reflexivity|].
  change (String c a +:+ b) with (String c (a +:+ b)).
  cbn [String.length Nat.add]. now rewrite IH.
Qed.

Lemma substring_prefix_append (a b : string) :
  String.substring 0 (String.length a) (a +:+ b) = a.
Proof.
  induction a as [|c a IH].
  - now destruct b.
  - change (String c a +:+ b) with (String c (a +:+ b)).
    cbn [String.length String.substring]. now rewrite IH.
Qed.

Lemma rfind_dot_none ext i :
  Forall (fun c => c <> "."%char) (list_ascii_of_string ext) ->
  rfind_dot ext i = None.
Proof.
  revert i. induction ext as [|c rest IH]; intros i Hno; [reflexivity|].
  cbn [list_ascii_of_string] in Hno. apply Forall_cons in Hno as [Hc Hrest].
  cbn [rfind_dot]. rewrite (IH (S i) Hrest).
  now destruct (Ascii.eqb_spec c "."%char).
Qed.

Lemma rfind_dot_last base ext i :
  Forall (fun c => c <> "."%char) (list_ascii_of_string ext) ->
  rfind_dot (base +:+ "." +:+ ext) i = Some (i + String.length base)%nat.
Proof.
  intros Hno. revert i. induction base as [|c rest IH]; intros i.
  - change ("" +:+ "." +:+ ext) with (String "."%char ext).
    cbn [rfind_dot String.length]. rewrite (rfind_dot_none ext (S i) Hno).
    cbn. f_equal. lia.
  - change (String c rest +:+ "." +:+ ext) with (String c (rest +:+ "." +:+ ext)).
    cbn [rfind_dot String.length]. rewrite IH. f_equal. lia.
Qed.

Lemma list_ascii_of_append (a b : string) :
  list_ascii_of_string (a +:+ b) = list_ascii_of_string a ++ list_ascii_of_string b.
Proof.
  induction a as [|c a IH]; [reflexivity|].
  change (String c a +:+ b) with (String c (a +:+ b)).
  cbn [list_ascii_of_string app]. now rewrite IH.
Qed.

(** A text without a separator is one component. *)
Lemma split_of_one_component (s : string) :
  Forall (fun c => c <> "/"%char) (list_ascii_of_string s) ->
  split "/"%char s = [s].
Proof.
  induction s as [|c rest IH]; intros Hno; [reflexivity|].
  cbn [list_ascii_of_string] in Hno. apply Forall_cons in Hno as [Hc Hrest].
  cbn [split]. destruct (Ascii.eqb_spec c "/"%char); [contradiction|].
  now rewrite (IH Hrest).
Qed.

(** A file name is a path of one name and no root. *)
Lemma Path_of_file_name (s : string) :
  Forall (fun c => c <> "/"%char) (list_ascii_of_string s) ->
  s <> "" ->
  s <> "." ->
  Path s = {| root := ""; names := [s] |}.
Proof.
  intros Hno Hne Hdot. unfold Path, splitroot.
  destruct s as [|c rest]; [contradiction|].
  pose proof Hno as Hno'.
  cbn [list_ascii_of_string] in Hno'. apply Forall_cons in Hno' as [Hc _].
  destruct (Ascii.eqb_spec c "/"%char); [contradiction|].
  rewrite (split_of_one_component _ Hno). cbn [List.filter]. unfold kept.
  destruct (String.eqb_spec (String c rest) ""); [contradiction|].
  destruct (String.eqb_spec (String c rest) "."); [contradiction|].
  reflexivity.
Qed.

(** Joining a file name to any path makes it the final component. *)
Lemma name_of_joined_file_name (path : PurePath) (s : string) :
  Forall (fun c => c <> "/"%char) (list_ascii_of_string s) ->
  s <> "" ->
  s <> "." ->
  name (truediv path s) = s.
Proof.
  intros Hno Hne Hdot. unfold truediv, name.
  rewrite (Path_of_file_name s Hno Hne Hdot). cbn [root names String.eqb negb].
  apply last_last.
Qed.

(** X21: for an example [base.ext] whose [base] is non-empty, whose [ext]
    is non-empty and has no dot, and neither of which has a path
    separator, the final component of [source] is [base.ext] and
    [source.stem] is [base], whatever the workspace; the output of such
    an example is therefore [temp_root / "<base>_smoke<suffix>"]. *)
Theorem stem_drops_the_last_suffix
  (args : Args) (base ext temp_root executable_suffix : string) :
  base <> "" ->
  ext <> "" ->
  Forall (fun c => c <> "/"%char) (list_ascii_of_string base) ->
  Forall (fun c => c <> "."%char /\ c <> "/"%char) (list_ascii_of_string ext) ->
  name (source_of args (base +:+ "." +:+ ext)) = base +:+ "." +:+ ext /\
  stem (source_of args (base +:+ "." +:+ ext)) = base /\
  output_of temp_root executable_suffix (source_of args (base +:+ "." +:+ ext))
  = truediv (Path temp_root) (base +:+ "_smoke" +:+ executable_suffix).
Proof.
  intros Hbase Hext Hsep Hno.
  assert (Forall (fun c => c <> "."%char) (list_ascii_of_string ext)) as Hdot.
  { eapply Forall_impl; [exact Hno|]. now intros c [H _]. }
  assert (Forall (fun c => c <> "/"%char) (list_ascii_of_string ext)) as Hsep'.
  { eapply Forall_impl; [exact Hno|]. now intros c [_ H]. }
  assert (name (source_of args (base +:+ "." +:+ ext)) = base +:+ "." +:+ ext) as Hname.
  { unfold source_of. apply name_of_joined_file_name.
    - rewrite !list_ascii_of_append. apply Forall_app. split; [exact Hsep|].
      apply Forall_app. split; [|exact Hsep'].
      cbn. constructor; [discriminate|constructor].
    - destruct base; [contradiction|discriminate].
    - destruct base as [|c [|c' base]]; [contradiction| |discriminate].
      destruct ext; [contradiction|discriminate]. }
  assert (stem (source_of args (base +:+ "." +:+ ext)) = base) as Hstem.
  { unfold stem. rewrite Hname. rewrite (rfind_dot_last base ext 0 Hdot). cbn [Nat.add].
    assert ((0 <? String.length base)%nat = true) as ->.
    { apply Nat.ltb_lt. destruct base; [contradiction|cbn; lia]. }
    assert ((String.length base <? String.length (base +:+ "." +:+ ext) - 1)%nat = true)
      as ->.
    { apply Nat.ltb_lt. rewrite !length_append_string. cbn [String.length].
      destruct ext; [contradiction|cbn [String.length]; lia]. }
    cbn [andb]. apply substring_prefix_append. }
  split; [exact Hname|]. split; [exact Hstem|]. unfold output_of. now rewrite Hstem.
Qed.

Lemma stem_drops_the_last_suffix_witness :
  name (source_of args0 ("factorial" +:+ "." +:+ "nr")) = "factorial" +:+ "." +:+ "nr" /\
  stem (source_of args0 ("factorial" +:+ "." +:+ "nr")) = "factorial" /\
  output_of "/tmp/tmpq1" ".exe" (source_of args0 ("factorial" +:+ "." +:+ "nr"))
  = truediv (Path "/tmp/tmpq1") ("factorial" +:+ "_smoke" +:+ ".exe").
Proof.
  apply (stem_drops_the_last_suffix args0 "factorial" "nr" "/tmp/tmpq1" ".exe").
  - discriminate.
  - discriminate.
  - cbn. repeat constructor; discriminate.
  - cbn. repeat constructor; discriminate.
Defined.

Example separator_in_example_name :
  stem (source_of args0 "sub/milestone.nr") = "milestone" /\
  str (output_of "/tmp/tmpq1" "" (source_of args0 "sub/milestone.nr"))
  = "/tmp/tmpq1/milestone_smoke".
Proof. split; reflexivity. Qed.

End SmokeTestFacts.

Module CorpusValidatorFacts.
Import PyStr PyNum PyFacts CorpusValidator.

Example sorted_is_case_sensitive :
  sorted ["b.nr"; "a.nr"; "B.nr"] = ["B.nr"; "a.nr"; "b.nr"].
Proof. vm_compute. reflexivity. Qed.

Lemma sorted_length names : length (sorted names) = length names.
Proof. unfold sorted. apply Permutation_length, merge_sort_Permutation. Qed.

Lemma sorted_In names name : In name (sorted names) -> In name names.
Proof.
  unfold sorted. intros H. apply list_elem_of_In.
  rewrite <- (merge_sort_Permutation path_le names). now apply list_elem_of_In.
Qed.

(** A failed build is one of three things. *)
Lemma run_neurc_build_failure env path error :
  run_neurc_build env path = (false, error) ->
  build_exited_nonzero env path \/ build_timed_out env path \/ build_not_run env path.
Proof.
  unfold run_neurc_build, build_exited_nonzero, build_timed_out, build_not_run.
  destruct (neurc_build env path) as [p|e].
  - intros H. left. exists p. split; [reflexivity|].
    apply Z.eqb_neq. congruence.
  - intros _. right. destruct (decide (exn_cls e = TimeoutExpired)); eauto.
Qed.

(** The loop never raises; every name is counted once, as a success or
    as a failure entry. *)
Lemma build_each_counts env directory names :
  forall success_count failures out,
  exists success_count' failures' out',
    build_each env directory names success_count failures out
    = (Ret (success_count', failures'), out') /\
    success_count' + Z.of_nat (length failures')
    = success_count + Z.of_nat (length failures) + Z.of_nat (length names) /\
    forall file_name error,
      In (file_name, error) failures' ->
      In (file_name, error) failures \/
      (In file_name names /\
       run_neurc_build env (joinpath directory file_name) = (false, error)).
Proof.
  induction names as [|name rest IH]; intros success_count failures out.
  - exists success_count, failures, out. cbn. repeat split; [lia | auto].
  - cbn [build_each].
    destruct (run_neurc_build env (joinpath directory name)) as [success error] eqn:Hrun.
    destruct success; unfold print; unfold_py.
    + destruct (IH (success_count + 1) failures (out ++ ["PASS " +:+ name]))
        as (sc & fl & out' & E & Hcount & Hin).
      exists sc, fl, out'. rewrite E. repeat split.
      * cbn [length]. lia.
      * intros f e Hfe. destruct (Hin f e Hfe) as [?|[? ?]]; [now left|right].
        split; [now right | assumption].
    + destruct (IH success_count (failures ++ [(name, error)])
                   (out ++ ["FAIL " +:+ name +:+ ": " +:+ error]))
        as (sc & fl & out' & E & Hcount & Hin).
      exists sc, fl, out'. rewrite E. repeat split.
      * rewrite length_app in Hcount. cbn [length] in *. lia.
      * intros f e Hfe. destruct (Hin f e Hfe) as [Hold|[? ?]].
        -- apply in_app_or in Hold as [?|[Heq|[]]]; [now left|right].
           inversion Heq; subst. split; [now left | assumption].
        -- right. split; [now right | assumption].
Qed.

(** C9 (as amended): the counts add up, the total is the number of
    matching files discovered, and every failure entry names a
    discovered file whose build exited non-zero, timed out, or could not
    be run at all. *)
Theorem test_directory_counts (env : Env) (directory : string) (out : list string) :
  exists passed total failures out',
    test_directory env directory out = (Ret (passed, total, failures), out') /\
    passed + Z.of_nat (length failures) = total /\
    total = (if dir_exists env directory
             then Z.of_nat (length (glob_nr env directory)) else 0) /\
    forall file_name error,
      In (file_name, error) failures ->
      In file_name (glob_nr env directory) /\
      (build_exited_nonzero env (joinpath directory file_name) \/
       build_timed_out env (joinpath directory file_name) \/
       build_not_run env (joinpath directory file_name)).
Proof.
  unfold test_directory.
  destruct (dir_exists env directory); cbn [negb].
  2: { unfold print; unfold_py. eexists 0, 0, [], _.
       do 3 (split; [reflexivity|]). intros ? ? []. }
  destruct (glob_nr env directory) as [|first others] eqn:Hglob.
  { unfold print; unfold_py. eexists 0, 0, [], _.
    do 3 (split; [reflexivity|]). intros ? ? []. }
  unfold print; unfold_py.
  match goal with
  | |- context [build_each env directory ?names 0 [] ?o] =>
      destruct (build_each_counts env directory names 0 [] o)
        as (sc & fl & out' & E & Hcount & Hin); rewrite E
  end.
  exists sc, (Z.of_nat (length (first :: others))), fl, out'.
  cbn [fst snd]. repeat split.
  - rewrite sorted_length in Hcount. cbn [length] in *. lia.
  - destruct (Hin _ _ H) as [[]|[Hs _]]. now apply sorted_In.
  - destruct (Hin _ _ H) as [[]|[_ Hrun]].
    now apply run_neurc_build_failure in Hrun.
Qed.

(** C9 as stated fails: a failure entry is recorded for a file whose
    build process neither exited non-zero nor timed out. *)
Lemma failure_entry_without_exit_or_timeout :
  fst (test_directory env_no_compiler "debug" [])
  = Ret (0, 1, [("a.nr", "[Errno 2] No such file or directory: './target/release/neurc'")])
  /\ ~ build_exited_nonzero env_no_compiler (joinpath "debug" "a.nr")
  /\ ~ build_timed_out env_no_compiler (joinpath "debug" "a.nr").
Proof.
  split; [vm_compute; reflexivity|]. split.
  - intros (p & Hp & _). discriminate Hp.
  - intros (e & He & Hcls). cbn in He. inversion He; subst. discriminate Hcls.
Qed.

Lemma test_directory_nothing env directory out :
  discovers_nothing env directory ->
  exists out', test_directory env directory out = (Ret (0, 0, []), out').
Proof.
  unfold test_directory, print. unfold_py.
  intros [->| Hglob]; cbn [negb]; [eauto|].
  destruct (dir_exists env directory); cbn [negb]; [|eauto].
  rewrite Hglob. eauto.
Qed.

(** C5: when neither directory yields a matching file, [main] dies of
    an [UnboundLocalError] on [success_rate]; the process ends with
    status 1, not 0. *)
Theorem zero_files_is_not_success (env : Env) :
  discovers_nothing env "debug" ->
  discovers_nothing env "examples" ->
  (exists e out, main env [] = (Raise e, out) /\ exn_cls e = UnboundLocalError) /\
  exit_status env = 1 /\
  exit_status env <> 0.
Proof.
  intros Hd He.
  assert (exists e out, main env [] = (Raise e, out) /\ exn_cls e = UnboundLocalError)
    as (e & out & Hmain & Hcls).
  { unfold main. unfold print at 1 2. unfold_py.
    match goal with
    | |- context [test_directory env "debug" ?o] =>
        destruct (test_directory_nothing env "debug" o Hd) as (o1 & ->)
    end.
    match goal with
    | |- context [test_directory env "examples" ?o] =>
        destruct (test_directory_nothing env "examples" o He) as (o2 & ->)
    end.
    unfold print. unfold_py. cbn -[ratio_line str_repeat nl].
    eexists _, _. split; reflexivity. }
  split; [eauto|].
  unfold exit_status. rewrite Hmain. cbn. split; [reflexivity | discriminate].
Qed.

Lemma zero_files_is_not_success_witness :
  (exists e out, main env_empty_checkout [] = (Raise e, out)
                 /\ exn_cls e = UnboundLocalError) /\
  exit_status env_empty_checkout = 1 /\
  exit_status env_empty_checkout <> 0.
Proof.
  apply (zero_files_is_not_success env_empty_checkout); left; reflexivity.
Defined.

Example empty_checkout_run :
  main env_empty_checkout [] =
  (Raise (Exn UnboundLocalError
     "cannot access local variable 'success_rate' where it is not associated with a value"),
   [ "NEURO Compiler Test Suite";
     "==================================================";
     "Directory debug does not exist";
     "Directory examples does not exist";
     nl +:+ "=== FINAL RESULTS ===";
     "Debug files: 0/0 successful";
     "Examples files: 0/0 successful";
     "Total: 0/0 successful" ]).
Proof. vm_compute. reflexivity. Qed.

(** *** What a report holds *)

(** The loop is a filter: successes are counted, failures are appended
    in the order of the names. *)
Lemma build_each_is_a_filter env directory names :
  forall success_count failures out,
    fst (build_each env directory names success_count failures out)
    = Ret (success_count + passes_among env directory names,
           failures ++ failures_among env directory names).
Proof.
  unfold passes_among, failures_among.
  induction names as [|name rest IH]; intros success_count failures out.
  - cbn. now rewrite Z.add_0_r, app_nil_r.
  - cbn [build_each List.filter].
    destruct (run_neurc_build env (joinpath directory name)) as [success error] eqn:Hrun.
    destruct success; cbn [fst snd negb]; unfold print; unfold_py; rewrite IH.
    + cbn [length]. f_equal. f_equal. lia.
    + cbn [map]. rewrite Hrun. cbn [snd]. f_equal. f_equal. now rewrite <- app_assoc.
Qed.

(** X24: for a directory that exists, the report of [test_directory] is
    determined by the builds of its matching files taken in sorted
    order: [passed] counts the files whose build succeeded, [total] is
    the number of matching files, and [failures] lists the other files,
    each once, in sorted order, with the error text of its build. *)
Theorem test_directory_reports_failed_builds_in_sorted_order
  (env : Env) (directory : string) (out : list string) :
  dir_exists env directory = true ->
  fst (test_directory env directory out)
  = Ret (passes_among env directory (sorted (glob_nr env directory)),
         Z.of_nat (length (glob_nr env directory)),
         failures_among env directory (sorted (glob_nr env directory))).
Proof.
  intros He. unfold test_directory. rewrite He. cbn [negb].
  destruct (glob_nr env directory) as [|first others] eqn:Hglob.
  - reflexivity.
  - erewrite bind_ret_eq by reflexivity.
    match goal with
    | |- context [bind (build_each env directory ?names 0 []) _ ?s] =>
        pose proof (build_each_is_a_filter env directory names 0 [] s) as Hloop;
        destruct (build_each env directory names 0 [] s) as [[[sc fl]|e] out'] eqn:E;
        cbn [fst] in Hloop; [|discriminate Hloop]
    end.
    erewrite bind_ret_eq by exact E. injection Hloop as -> ->. reflexivity.
Qed.

Lemma test_directory_reports_failed_builds_in_sorted_order_witness :
  fst (test_directory env_one_broken "examples" [])
  = Ret (passes_among env_one_broken "examples"
           (sorted (glob_nr env_one_broken "examples")),
         Z.of_nat (length (glob_nr env_one_broken "examples")),
         failures_among env_one_broken "examples"
           (sorted (glob_nr env_one_broken "examples"))).
Proof.
  apply (test_directory_reports_failed_builds_in_sorted_order env_one_broken "examples" []).
  reflexivity.
Defined.

Example one_broken_report :
  fst (test_directory env_one_broken "examples" [])
  = Ret (1, 2, [("b.nr", "error: type mismatch")]).
Proof. vm_compute. reflexivity. Qed.

(** What [test_directory] returns, whatever the directory. *)
Lemma test_directory_returns env directory out :
  exists passed failures out',
    test_directory env directory out
    = (Ret (passed,
            (if dir_exists env directory
             then Z.of_nat (length (glob_nr env directory)) else 0),
            failures), out') /\
    forall file_name error,
      In (file_name, error) failures ->
      run_neurc_build env (joinpath directory file_name) = (false, error).
Proof.
  unfold test_directory.
  destruct (dir_exists env directory); cbn [negb].
  2: { unfold print; unfold_py. eexists 0, [], _. split; [reflexivity|]. intros ? ? []. }
  destruct (glob_nr env directory) as [|first others] eqn:Hglob.
  { unfold print; unfold_py. eexists 0, [], _. split; [reflexivity|]. intros ? ? []. }
  erewrite bind_ret_eq by reflexivity.
  match goal with
  | |- context [bind (build_each env directory ?names 0 []) _ ?s] =>
      destruct (build_each_counts env directory names 0 [] s)
        as (sc & fl & out' & E & _ & Hin)
  end.
  erewrite bind_ret_eq by exact E.
  exists sc, fl, out'. split; [reflexivity|].
  intros file_name error Hfe. destruct (Hin _ _ Hfe) as [[]|[_ Hrun]]. exact Hrun.
Qed.

(** X25: the error text of a failure entry tells how the build ended:
    the compiler's stderr when the process exited non-zero, the word
    [Timeout] when it ran out of its 30 seconds, and the text of the
    exception when the process could not be run. *)
Theorem failure_entries_carry_the_build_error
  (env : Env) (directory : string) (out : list string)
  (passed total : Z) (failures : list (string * string))
  (file_name error : string) :
  fst (test_directory env directory out) = Ret (passed, total, failures) ->
  In (file_name, error) failures ->
  (exists p, neurc_build env (joinpath directory file_name) = Ret p /\
             returncode p <> 0 /\ error = stderr p) \/
  (exists e, neurc_build env (joinpath directory file_name) = Raise e /\
             exn_cls e = TimeoutExpired /\ error = "Timeout") \/
  (exists e, neurc_build env (joinpath directory file_name) = Raise e /\
             exn_cls e <> TimeoutExpired /\ error = str_exn e).
Proof.
  intros Hret Hin.
  destruct (test_directory_returns env directory out) as (p & f & out' & E & Hruns).
  rewrite E in Hret. injection Hret as <- _ <-.
  specialize (Hruns _ _ Hin). unfold run_neurc_build in Hruns.
  destruct (neurc_build env (joinpath directory file_name)) as [result|e].
  - left. exists result. injection Hruns as Hrc <-.
    split; [reflexivity|]. split; [now apply Z.eqb_neq | reflexivity].
  - right. destruct (decide (exn_cls e = TimeoutExpired)) as [Ht|Ht];
      injection Hruns as <-; [left | right]; exists e; auto.
Qed.

Lemma failure_entries_carry_the_build_error_witness :
  (exists p, neurc_build env_one_broken (joinpath "examples" "b.nr") = Ret p /\
             returncode p <> 0 /\ "error: type mismatch" = stderr p) \/
  (exists e, neurc_build env_one_broken (joinpath "examples" "b.nr") = Raise e /\
             exn_cls e = TimeoutExpired /\ "error: type mismatch" = "Timeout") \/
  (exists e, neurc_build env_one_broken (joinpath "examples" "b.nr") = Raise e /\
             exn_cls e <> TimeoutExpired /\ "error: type mismatch" = str_exn e).
Proof.
  apply (failure_entries_carry_the_build_error env_one_broken "examples" []
           1 2 [("b.nr", "error: type mismatch")] "b.nr" "error: type mismatch").
  - vm_compute. reflexivity.
  - left. reflexivity.
Defined.

(** *** Runs that find files *)

Lemma print_failures_returns failures :
  forall out, exists out', print_failures failures out = (Ret tt, out').
Proof.
  induction failures as [|[file_name error] rest IH]; intros out; cbn [print_failures].
  - eauto.
  - erewrite bind_ret_eq by reflexivity. apply IH.
Qed.

(** X26: as soon as one matching file is discovered in [debug/] or in
    [examples/], [success_rate] is bound and [main] does not raise: it
    ends in [sys.exit] with 0 or with 1. *)
Theorem corpus_main_exits_when_files_are_found (env : Env) :
  discovers_some env "debug" \/ discovers_some env "examples" ->
  exists code out,
    main env [] = (Ret code, out) /\
    (code = 0 \/ code = 1) /\
    exit_status env = code.
Proof.
  intros Hsome.
  assert (exists code out, main env [] = (Ret code, out) /\ (code = 0 \/ code = 1))
    as (code & out & Hmain & Hcode).
  { unfold main. do 2 (erewrite bind_ret_eq by reflexivity).
    match goal with
    | |- context [bind (test_directory env "debug") _ ?s] =>
        destruct (test_directory_returns env "debug" s) as (p1 & f1 & o1 & E1 & _)
    end.
    erewrite bind_ret_eq by exact E1. cbv beta iota.
    match goal with
    | |- context [bind (test_directory env "examples") _ ?s] =>
        destruct (test_directory_returns env "examples" s) as (p2 & f2 & o2 & E2 & _)
    end.
    erewrite bind_ret_eq by exact E2. cbv beta iota zeta.
    do 4 (erewrite bind_ret_eq by reflexivity).
    assert ((0 <? (if dir_exists env "debug"
                   then Z.of_nat (length (glob_nr env "debug")) else 0)
                  + (if dir_exists env "examples"
                     then Z.of_nat (length (glob_nr env "examples")) else 0)) = true)
      as ->.
    { apply Z.ltb_lt.
      assert (forall d, 0 <= (if dir_exists env d
                              then Z.of_nat (length (glob_nr env d)) else 0)) as Hnn
          by (intros d; destruct (dir_exists env d); lia).
      pose proof (Hnn "debug"). pose proof (Hnn "examples").
      destruct Hsome as [[He Hg]|[He Hg]]; rewrite He in *;
        destruct (glob_nr env _) eqn:Hglob in Hg |- *;
        try contradiction; rewrite ?Hglob; cbn [length]; lia. }
    set (rate := (int_truediv _ _ * 100)%float).
    assert (forall s : list string,
               exists s', (match f1 ++ f2 with
                           | [] => ret tt
                           | _ :: _ =>
                               bind (print (nl +:+ "=== FAILURES ("
                                            +:+ pretty (Z.of_nat (length (f1 ++ f2)))
                                            +:+ " files) ==="))
                                    (fun _ => print_failures (f1 ++ f2))
                           end) s = (Ret tt, s')) as Hrecap.
    { intros s. destruct (f1 ++ f2) as [|entry more] eqn:Hall; [eauto|].
      erewrite bind_ret_eq by reflexivity. apply print_failures_returns. }
    destruct (float_ge rate 98) eqn:Hge;
      (erewrite bind_ret_eq by reflexivity; cbv beta iota;
       match goal with
       | |- context [bind _ _ ?s] => destruct (Hrecap s) as (s' & Efail)
       end;
       erewrite bind_ret_eq by exact Efail;
       rewrite Hge; eexists _, _; split; [reflexivity | auto]). }
  exists code, out. split; [exact Hmain|]. split; [exact Hcode|].
  unfold exit_status. rewrite Hmain. reflexivity.
Qed.

Lemma corpus_main_exits_when_files_are_found_witness :
  exists code out,
    main env_one_broken [] = (Ret code, out) /\
    (code = 0 \/ code = 1) /\
    exit_status env_one_broken = code.
Proof.
  apply (corpus_main_exits_when_files_are_found env_one_broken).
  right. split; [reflexivity | discriminate].
Defined.

Example one_broken_exit : exit_status env_one_broken = 1.
Proof. vm_compute. reflexivity. Qed.

End CorpusValidatorFacts.

Module FeatureHarnessFacts.
Import PyStr PyNum PyFacts FeatureHarness.

Ltac simpl_state :=
  cbn [files printed spawned local_temp_file
       set_files set_local_temp_file log_spawn fst snd] in *.

Example exe_of_temp : exe_of "/tmp/tmpk3v9x_2a.nr" = "/tmp/tmpk3v9x_2a.exe".
Proof. reflexivity. Qed.

(** [replace] rewrites every occurrence, not only the extension. *)
Example exe_of_inner_occurrence :
  exe_of "/home/u/proj.nr/tmpab.nr" = "/home/u/proj.exe/tmpab.exe".
Proof. reflexivity. Qed.

Lemma print_returns line : returns (print line) (fun _ => True).
Proof. apply returns_modify. exact I. Qed.

(** The bare [except: pass] makes the [finally] block silent. *)
Lemma finally_block_returns env : returns (finally_block env) (fun _ => True).
Proof.
  unfold finally_block. apply returns_try_except.
  - intros e. now apply returns_ret.
  - trivial.
Qed.

(** [compile_and_run_code] returns a verdict from every state: whatever
    the [try] block raises becomes [(False, str(e))]. *)
Lemma compile_and_run_code_returns env code expected :
  returns (compile_and_run_code env code expected) (fun _ => True).
Proof.
  unfold compile_and_run_code.
  eapply returns_bind with (P := fun _ => True);
    [apply returns_modify; exact I|]. intros _ _.
  apply returns_try_finally; [|apply finally_block_returns].
  apply returns_try_except; [|trivial].
  intros e. now apply returns_ret.
Qed.

Lemma run_cases_returns env tests :
  forall passed, returns (run_cases env tests passed) (fun _ => True).
Proof.
  induction tests as [|[[name code] expected] rest IH]; intros passed.
  - now apply returns_ret.
  - cbn [run_cases].
    eapply returns_bind; [apply compile_and_run_code_returns|].
    intros [success message] _. destruct success;
      (eapply returns_bind; [apply print_returns|]); intros _ _; apply IH.
Qed.

Lemma run_table_returns env header tests :
  returns (run_table env header tests) (fun _ => True).
Proof.
  unfold run_table.
  eapply returns_bind; [apply print_returns|]. intros _ _.
  eapply returns_bind; [apply run_cases_returns|]. intros passed _.
  now apply returns_ret.
Qed.

Lemma main_returns_None env : returns (main env) (fun r => r = None).
Proof.
  unfold main, test_basic_features, test_advanced_features,
    test_compilation_only, test_phase_1_features.
  repeat first
    [ apply returns_ret; reflexivity
    | eapply returns_bind; [apply print_returns|]; intros _ _
    | eapply returns_bind; [apply run_table_returns|]; intros ? _ ].
  eapply returns_bind with (P := fun _ => True).
  - destruct (0 <? _); [|now apply returns_ret].
    eapply returns_bind; [apply print_returns|]; intros _ _.
    eapply returns_bind with (P := fun _ => True).
    + repeat destruct (float_ge _ _); apply print_returns.
    + intros _ _. repeat destruct (float_ge _ _); apply print_returns.
  - intros _ _. now apply returns_ret.
Qed.

(** C2: from every world and state, [main] returns [None] and the
    script's exit status is 0, whatever the verdicts of the cases. *)
Theorem feature_suite_always_exits_zero (env : Env) (st : State) :
  (exists st', main env st = (Ret None, st')) /\ exit_status env st = 0.
Proof.
  destruct (main_returns_None env st) as (r & st' & E & ->).
  split; [eauto|]. unfold exit_status. rewrite E. reflexivity.
Qed.

(** C1 (as amended): for a case with an expected exit code whose build
    exits 0, when no file exists at the executable's path the run step
    is skipped and the verdict is [(True, "Success")]; the build is the
    only command spawned. *)
Theorem missing_executable_is_reported_as_pass
  (env : Env) (code : string) (expected : Z) (st : State)
  (name : string) (build_result : CompletedProcess) (fs : gset string) :
  mkstemp env (files st) = Ret name ->
  write_text env code = None ->
  neurc_build env name ({[name]} ∪ files st) = (Ret build_result, fs) ->
  returncode build_result = 0 ->
  exe_of name ∉ fs ->
  exists st',
    compile_and_run_code env code (Some expected) st = (Ret (true, "Success"), st') /\
    spawned st' = spawned st ++ [build_cmd name].
Proof.
  intros Hname Hwrite Hbuild Hzero Habsent.
  assert (exe_of name ∉ fs ∖ {[name]}) as Habsent'.
  { intros Hin. apply elem_of_difference in Hin as [Hin _]. contradiction. }
  unfold compile_and_run_code, try_block, finally_block, create_temp, write,
    build, path_exists, unlink.
  unfold_py. simpl_state.
  rewrite Hname, Hwrite. simpl_state.
  rewrite Hbuild. simpl_state.
  rewrite Hzero. cbn [Z.eqb negb].
  rewrite (bool_decide_eq_false_2 _ Habsent). simpl_state.
  destruct (bool_decide (name ∈ fs)); simpl_state.
  - destruct (unlink_error env name); simpl_state.
    + eexists; split; reflexivity.
    + rewrite (bool_decide_eq_false_2 _ Habsent'). simpl_state.
      eexists; split; reflexivity.
  - eexists; split; reflexivity.
Qed.

Lemma exe_of_scratch_absent : exe_of scratch ∉ ({[scratch]} ∪ (∅ : gset string)).
Proof.
  change (exe_of scratch) with "/tmp/tmp4k2j9x1q.exe". unfold scratch.
  intros H. apply elem_of_union in H as [H|H].
  - apply elem_of_singleton in H. discriminate H.
  - now apply not_elem_of_empty in H.
Qed.

Lemma missing_executable_is_reported_as_pass_witness :
  exists st',
    compile_and_run_code env_no_exe "fn main() -> int { return 42; }" (Some 42) (initial ∅)
    = (Ret (true, "Success"), st') /\
    spawned st' = spawned (initial ∅) ++ [build_cmd scratch].
Proof.
  apply (missing_executable_is_reported_as_pass env_no_exe _ 42 (initial ∅)
           scratch (Completed 0 "" "") ({[scratch]} ∪ ∅)).
  - reflexivity.
  - reflexivity.
  - reflexivity.
  - reflexivity.
  - exact exe_of_scratch_absent.
Defined.

(** C1 as stated fails: the build exits 0, the executable is absent, and
    the verdict is a pass. *)
Lemma missing_executable_passes_silently :
  (neurc_build env_no_exe scratch ({[scratch]} ∪ ∅)
   = (Ret (Completed 0 "" ""), {[scratch]} ∪ ∅)) /\
  (exe_of scratch ∉ ({[scratch]} ∪ (∅ : gset string))) /\
  (fst (compile_and_run_code env_no_exe "fn main() -> int { return 42; }"
                             (Some 42) (initial ∅))
   = Ret (true, "Success")).
Proof.
  split; [reflexivity|]. split; [exact exe_of_scratch_absent|].
  unfold compile_and_run_code, try_block, finally_block, create_temp, write,
    build, path_exists, unlink.
  unfold_py. simpl_state.
  cbn [env_no_exe mkstemp write_text neurc_build unlink_error]. simpl_state.
  cbn [returncode Z.eqb negb].
  rewrite (bool_decide_eq_false_2 _ exe_of_scratch_absent). simpl_state.
  destruct (bool_decide (scratch ∈ {[scratch]} ∪ (∅ : gset string))); simpl_state;
    [|reflexivity].
  destruct (bool_decide (exe_of scratch ∈ ({[scratch]} ∪ (∅ : gset string)) ∖ {[scratch]}));
    reflexivity.
Qed.

(** *** Cleanup *)

(** With [temp_file] bound, the scratch file still on disk, and both
    paths removable, the [finally] block removes the scratch file and
    the executable next to it. *)
Lemma finally_block_removes_both env st temp_file :
  local_temp_file st = Some temp_file ->
  temp_file ∈ files st ->
  unlink_error env temp_file = None ->
  unlink_error env (exe_of temp_file) = None ->
  exists st',
    finally_block env st = (Ret tt, st') /\
    (temp_file ∉ files st') /\ (exe_of temp_file ∉ files st').
Proof.
  intros Hlocal Hin Hrm Hrm'.
  unfold finally_block, unlink, path_exists. unfold_py.
  rewrite Hlocal. rewrite (bool_decide_eq_true_2 _ Hin). rewrite Hrm. simpl_state.
  destruct (bool_decide (exe_of temp_file ∈ files st ∖ {[temp_file]})) eqn:Hexe;
    simpl_state; rewrite ?Hexe, ?Hrm'; simpl_state.
  - eexists. split; [reflexivity|]. simpl_state. split.
    + intros H. apply elem_of_difference in H as [H _].
      apply elem_of_difference in H as [_ H]. apply H. now apply elem_of_singleton.
    + intros H. apply elem_of_difference in H as [_ H].
      apply H. now apply elem_of_singleton.
  - eexists. split; [reflexivity|]. simpl_state. split.
    + intros H. apply elem_of_difference in H as [_ H].
      apply H. now apply elem_of_singleton.
    + now apply bool_decide_eq_false_1 in Hexe.
Qed.

(** With [temp_file] unbound the [finally] block touches nothing. *)
Lemma finally_block_unbound env st :
  local_temp_file st = None -> finally_block env st = (Ret tt, st).
Proof.
  intros Hlocal. unfold finally_block. unfold_py. now rewrite Hlocal.
Qed.

(** When [os.unlink(temp_file)] raises, the bare [except] swallows it
    and the executable is never looked at. *)
Lemma finally_block_skips_executable env st temp_file :
  local_temp_file st = Some temp_file ->
  temp_file ∉ files st ->
  finally_block env st = (Ret tt, st).
Proof.
  intros Hlocal Hnot.
  unfold finally_block, unlink. unfold_py.
  rewrite Hlocal. now rewrite (bool_decide_eq_false_2 _ Hnot).
Qed.

(** The same happens when the scratch file is there and [os.unlink]
    cannot remove it: both files stay. *)
Lemma finally_block_swallows_unlink_error env st temp_file e :
  local_temp_file st = Some temp_file ->
  unlink_error env temp_file = Some e ->
  finally_block env st = (Ret tt, st).
Proof.
  intros Hlocal Herr.
  unfold finally_block, unlink. unfold_py.
  rewrite Hlocal, Herr. now destruct (bool_decide (temp_file ∈ files st)).
Qed.

(** The path on which the harness leaks: [f.write(code)] raises inside
    the [with] block, after the file was created and before [temp_file]
    is assigned. *)
Lemma failed_write_leaves_scratch_file env code expected st name e :
  mkstemp env (files st) = Ret name ->
  write_text env code = Some e ->
  compile_and_run_code env code expected st
  = (Ret (false, str_exn e),
     set_files ({[name]} ∪ files st) (set_local_temp_file None st)).
Proof.
  intros Hname Hwrite.
  unfold compile_and_run_code, try_block, finally_block, create_temp, write.
  unfold_py. simpl_state. now rewrite Hname, Hwrite.
Qed.

(** C7 fails on the code: the case ends with a failed verdict and its
    scratch file is still on disk. *)
Theorem scratch_file_survives_failed_write :
  (fst (compile_and_run_code env_unencodable "\udc80" (Some 0) (initial ∅))
   = Ret (false,
          "'utf-8' codec can't encode character '\udc80' in position 0: surrogates not allowed")) /\
  scratch ∈ files (snd (compile_and_run_code env_unencodable "\udc80" (Some 0) (initial ∅))).
Proof.
  rewrite (failed_write_leaves_scratch_file env_unencodable _ _ _ scratch _ eq_refl eq_refl).
  split; [reflexivity|]. simpl_state.
  apply elem_of_union_l. now apply elem_of_singleton.
Qed.

(** Once [temp_file] is bound, the [try] block ends (by a return or in
    the [except] clause) with the binding in place. *)
Lemma try_block_keeps_binding env code expected st name :
  mkstemp env (files st) = Ret name ->
  write_text env code = None ->
  keeps (neurc_build env) name ->
  keeps (run_exe env) name ->
  exists verdict st1,
    try_except (try_block env code expected) (fun e => ret (false, str_exn e)) st
    = (Ret verdict, st1) /\
    local_temp_file st1 = Some name /\ name ∈ files st1.
Proof.
  intros Hname Hwrite Hbuild Hrun.
  unfold try_block, create_temp, write, build, run, path_exists. unfold_py.
  rewrite Hname, Hwrite. simpl_state.
  assert (name ∈ {[name]} ∪ files st) as Hin
      by (apply elem_of_union_l; now apply elem_of_singleton).
  pose proof (Hbuild name _ Hin) as Hin1.
  destruct (neurc_build env name ({[name]} ∪ files st)) as [[p|e] fs1]; simpl_state.
  2: { eexists _, _. split; [reflexivity|]. simpl_state. auto. }
  destruct (negb (returncode p =? 0)); simpl_state.
  { eexists _, _. split; [reflexivity|]. simpl_state. auto. }
  destruct expected as [expected|]; simpl_state.
  2: { eexists _, _. split; [reflexivity|]. simpl_state. auto. }
  destruct (bool_decide (exe_of name ∈ fs1)); simpl_state.
  2: { eexists _, _. split; [reflexivity|]. simpl_state. auto. }
  pose proof (Hrun (exe_of name) _ Hin1) as Hin2.
  destruct (run_exe env (exe_of name) fs1) as [[q|e] fs2]; simpl_state.
  2: { eexists _, _. split; [reflexivity|]. simpl_state. auto. }
  destruct (negb (returncode q =? expected)); simpl_state;
    eexists _, _; (split; [reflexivity|]); simpl_state; auto.
Qed.

(** X14: what the cleanup does achieve: when the source text was
    written, neither the compiler nor the executable deleted the scratch
    file, and [os.unlink] can remove the scratch file and whatever is at
    the executable's path (neither is a directory or otherwise
    unremovable), neither of the two paths exists after the call,
    whatever the verdict. *)
Lemma scratch_files_removed_after_successful_write env code expected st name :
  mkstemp env (files st) = Ret name ->
  write_text env code = None ->
  keeps (neurc_build env) name ->
  keeps (run_exe env) name ->
  unlink_error env name = None ->
  unlink_error env (exe_of name) = None ->
  exists verdict st',
    compile_and_run_code env code expected st = (Ret verdict, st') /\
    (name ∉ files st') /\ (exe_of name ∉ files st').
Proof.
  intros Hname Hwrite Hbuild Hrun Hrm Hrm'.
  destruct (try_block_keeps_binding env code expected
              (set_local_temp_file None st) name Hname Hwrite Hbuild Hrun)
    as (verdict & st1 & E1 & Hlocal & Hin).
  destruct (finally_block_removes_both env st1 name Hlocal Hin Hrm Hrm')
    as (st2 & E2 & Hgone).
  exists verdict, st2. split; [|exact Hgone].
  unfold compile_and_run_code, bind, modify, try_finally.
  now rewrite E1, E2.
Qed.

(** All twenty-eight cases fail and the suite still exits with status 0. *)
Example all_cases_fail_exit_zero :
  In "Total: 0/28" (printed (snd (main env_compiler_missing (initial ∅)))) /\
  exit_status env_compiler_missing (initial ∅) = 0.
Proof.
  split; [vm_compute; tauto|].
  unfold exit_status.
  destruct (main_returns_None env_compiler_missing (initial ∅)) as (r & st' & E & ->).
  now rewrite E.
Qed.

(** *** Verdicts *)

(** The [finally] block prints nothing and spawns nothing. *)
Lemma finally_block_is_quiet env st :
  exists st',
    finally_block env st = (Ret tt, st') /\
    spawned st' = spawned st /\ printed st' = printed st.
Proof.
  unfold finally_block, unlink, path_exists. unfold_py.
  destruct (local_temp_file st) as [temp_file|]; [|eauto].
  destruct (bool_decide (temp_file ∈ files st)); simpl_state; [|eauto].
  destruct (unlink_error env temp_file); simpl_state; [eauto|].
  destruct (bool_decide (exe_of temp_file ∈ files st ∖ {[temp_file]})) eqn:Hexe;
    simpl_state; rewrite ?Hexe; simpl_state; [|eauto].
  destruct (unlink_error env (exe_of temp_file)); simpl_state; eauto.
Qed.

(** A call is its [try]/[except] part followed by the [finally] block. *)
Lemma compile_and_run_code_unfold env code expected st verdict st1 :
  try_except (try_block env code expected) (fun e => ret (false, str_exn e))
             (set_local_temp_file None st) = (Ret verdict, st1) ->
  exists st',
    compile_and_run_code env code expected st = (Ret verdict, st') /\
    finally_block env st1 = (Ret tt, st') /\
    spawned st' = spawned st1.
Proof.
  intros Htry. destruct (finally_block_is_quiet env st1) as (st' & Hfin & Hspawn & _).
  exists st'. split; [|auto].
  unfold compile_and_run_code, bind, modify, try_finally. now rewrite Htry, Hfin.
Qed.

Ltac run_try_block :=
  unfold try_block, create_temp, write, build, run, path_exists;
  unfold_py; simpl_state.

(** X9: when the build exits non-zero the verdict is [(False, "Build
    failed: " + stderr)], with or without an expected exit code, and the
    executable is not run: the build is the only command spawned. *)
Theorem failed_build_is_reported_with_stderr
  (env : Env) (code : string) (expected : option Z) (st : State)
  (name : string) (build_result : CompletedProcess) (fs : gset string) :
  mkstemp env (files st) = Ret name ->
  write_text env code = None ->
  neurc_build env name ({[name]} ∪ files st) = (Ret build_result, fs) ->
  returncode build_result <> 0 ->
  exists st',
    compile_and_run_code env code expected st
    = (Ret (false, "Build failed: " +:+ stderr build_result), st') /\
    spawned st' = spawned st ++ [build_cmd name].
Proof.
  intros Hname Hwrite Hbuild Hnz.
  edestruct (compile_and_run_code_unfold env code expected st) as (st' & E & _ & Hs).
  - run_try_block. rewrite Hname, Hwrite. simpl_state. rewrite Hbuild. simpl_state.
    apply Z.eqb_neq in Hnz. rewrite Hnz. cbn [negb]. reflexivity.
  - exists st'. split; [exact E|]. rewrite Hs. reflexivity.
Qed.

Lemma failed_build_is_reported_with_stderr_witness :
  exists st',
    compile_and_run_code env_syntax_error "fn main( { }" (Some 0) (initial ∅)
    = (Ret (false, "Build failed: " +:+ "error: unexpected token"), st') /\
    spawned st' = spawned (initial ∅) ++ [build_cmd scratch].
Proof.
  apply (failed_build_is_reported_with_stderr env_syntax_error _ (Some 0) (initial ∅)
           scratch (Completed 1 "" "error: unexpected token") ({[scratch]} ∪ ∅));
    try reflexivity.
  cbn. lia.
Defined.

(** X10: when the build exits 0 and the executable is there, it is run
    once and its exit code decides: equal to the expected code is
    [(True, "Success")], anything else is a failure whose message names
    both codes. *)
Theorem exit_code_decides_the_verdict
  (env : Env) (code : string) (expected : Z) (st : State) (name : string)
  (build_result run_result : CompletedProcess) (fs fs' : gset string) :
  mkstemp env (files st) = Ret name ->
  write_text env code = None ->
  neurc_build env name ({[name]} ∪ files st) = (Ret build_result, fs) ->
  returncode build_result = 0 ->
  exe_of name ∈ fs ->
  run_exe env (exe_of name) fs = (Ret run_result, fs') ->
  exists st',
    compile_and_run_code env code (Some expected) st
    = (Ret (if returncode run_result =? expected
            then (true, "Success")
            else (false, "Expected exit code " +:+ pretty expected +:+ ", got "
                         +:+ pretty (returncode run_result))), st') /\
    spawned st' = spawned st ++ [build_cmd name; [exe_of name]].
Proof.
  intros Hname Hwrite Hbuild Hzero Hexe Hrun.
  destruct (returncode run_result =? expected) eqn:Hrc;
    (edestruct (compile_and_run_code_unfold env code (Some expected) st)
      as (st' & E & _ & Hs);
     [ run_try_block; rewrite Hname, Hwrite; simpl_state; rewrite Hbuild; simpl_state;
       rewrite Hzero; cbn [Z.eqb negb];
       rewrite (bool_decide_eq_true_2 _ Hexe); simpl_state; rewrite Hrun; simpl_state;
       rewrite Hrc; cbn [negb]; reflexivity
     | exists st'; split; [exact E|]; rewrite Hs; simpl_state;
       now rewrite <- app_assoc ]).
Qed.

Lemma exe_of_scratch_present :
  exe_of scratch ∈ ({[exe_of scratch]} ∪ ({[scratch]} ∪ (∅ : gset string))).
Proof. apply elem_of_union_l. now apply elem_of_singleton. Qed.

Lemma exit_code_decides_the_verdict_witness :
  exists st',
    compile_and_run_code (env_compiles 7) "fn main() -> int { return 7; }"
                         (Some 42) (initial ∅)
    = (Ret (if 7 =? 42
            then (true, "Success")
            else (false, "Expected exit code " +:+ pretty 42 +:+ ", got "
                         +:+ pretty 7)), st') /\
    spawned st' = spawned (initial ∅) ++ [build_cmd scratch; [exe_of scratch]].
Proof.
  apply (exit_code_decides_the_verdict (env_compiles 7) _ 42 (initial ∅) scratch
           (Completed 0 "" "") (Completed 7 "" "")
           ({[exe_of scratch]} ∪ ({[scratch]} ∪ ∅))
           ({[exe_of scratch]} ∪ ({[scratch]} ∪ ∅)));
    first [reflexivity | exact exe_of_scratch_present].
Defined.

Example wrong_exit_code_message :
  fst (compile_and_run_code (env_compiles 7) "fn main() -> int { return 7; }"
                            (Some 42) (initial ∅))
  = Ret (false, "Expected exit code 42, got 7").
Proof. vm_compute. reflexivity. Qed.

(** X11: a case without an expected exit code never runs an executable:
    the build is the only command spawned, and the case passes exactly
    when the build finished with exit code 0. *)
Theorem compile_only_case_runs_no_executable
  (env : Env) (code : string) (st : State) (name : string) :
  mkstemp env (files st) = Ret name ->
  write_text env code = None ->
  exists verdict st',
    compile_and_run_code env code None st = (Ret verdict, st') /\
    spawned st' = spawned st ++ [build_cmd name] /\
    (verdict.1 = true <->
     exists build_result fs,
       neurc_build env name ({[name]} ∪ files st) = (Ret build_result, fs) /\
       returncode build_result = 0).
Proof.
  intros Hname Hwrite.
  destruct (neurc_build env name ({[name]} ∪ files st)) as [[p|e] fs] eqn:Hbuild.
  - destruct (returncode p =? 0) eqn:Hrc.
    + edestruct (compile_and_run_code_unfold env code None st) as (st' & E & _ & Hs).
      * run_try_block. rewrite Hname, Hwrite. simpl_state. rewrite Hbuild. simpl_state.
        rewrite Hrc. cbn [negb]. reflexivity.
      * exists (true, "Success"), st'. split; [exact E|]. split; [now rewrite Hs|].
        split; [|reflexivity]. intros _. exists p, fs. split; [reflexivity|].
        now apply Z.eqb_eq.
    + edestruct (compile_and_run_code_unfold env code None st) as (st' & E & _ & Hs).
      * run_try_block. rewrite Hname, Hwrite. simpl_state. rewrite Hbuild. simpl_state.
        rewrite Hrc. cbn [negb]. reflexivity.
      * eexists _, st'. split; [exact E|]. split; [now rewrite Hs|].
        cbn [fst]. split; [discriminate|].
        intros (p' & fs' & Heq & Hz). injection Heq as <- <-.
        apply Z.eqb_neq in Hrc. contradiction.
  - edestruct (compile_and_run_code_unfold env code None st) as (st' & E & _ & Hs).
    + run_try_block. rewrite Hname, Hwrite. simpl_state. rewrite Hbuild. simpl_state.
      reflexivity.
    + eexists _, st'. split; [exact E|]. split; [now rewrite Hs|].
      cbn [fst]. split; [discriminate|].
      intros (p' & fs' & Heq & _). discriminate Heq.
Qed.

Lemma compile_only_case_runs_no_executable_witness :
  exists verdict st',
    compile_and_run_code (env_compiles 3) "fn main() -> int { return 3; }" None (initial ∅)
    = (Ret verdict, st') /\
    spawned st' = spawned (initial ∅) ++ [build_cmd scratch] /\
    (verdict.1 = true <->
     exists build_result fs,
       neurc_build (env_compiles 3) scratch ({[scratch]} ∪ files (initial ∅))
       = (Ret build_result, fs) /\
       returncode build_result = 0).
Proof.
  apply (compile_only_case_runs_no_executable (env_compiles 3) _ (initial ∅) scratch);
    reflexivity.
Defined.

(** X12: an exception of [subprocess.run] is no crash of the harness: a
    build that times out or cannot be started, and an executable that
    times out or cannot be started, both give the verdict
    [(False, str(e))]. *)
Theorem subprocess_exception_becomes_failed_verdict
  (env : Env) (code : string) (expected : option Z) (st : State) (name : string) :
  mkstemp env (files st) = Ret name ->
  write_text env code = None ->
  (forall e fs,
      neurc_build env name ({[name]} ∪ files st) = (Raise e, fs) ->
      fst (compile_and_run_code env code expected st) = Ret (false, str_exn e)) /\
  (forall build_result fs wanted e fs',
      expected = Some wanted ->
      neurc_build env name ({[name]} ∪ files st) = (Ret build_result, fs) ->
      returncode build_result = 0 ->
      exe_of name ∈ fs ->
      run_exe env (exe_of name) fs = (Raise e, fs') ->
      fst (compile_and_run_code env code expected st) = Ret (false, str_exn e)).
Proof.
  intros Hname Hwrite. split.
  - intros e fs Hbuild.
    edestruct (compile_and_run_code_unfold env code expected st) as (st' & E & _).
    + run_try_block. rewrite Hname, Hwrite. simpl_state. rewrite Hbuild. simpl_state.
      reflexivity.
    + now rewrite E.
  - intros p fs wanted e fs' -> Hbuild Hzero Hexe Hrun.
    edestruct (compile_and_run_code_unfold env code (Some wanted) st) as (st' & E & _).
    + run_try_block. rewrite Hname, Hwrite. simpl_state. rewrite Hbuild. simpl_state.
      rewrite Hzero. cbn [Z.eqb negb].
      rewrite (bool_decide_eq_true_2 _ Hexe). simpl_state. rewrite Hrun. simpl_state.
      reflexivity.
    + now rewrite E.
Qed.

Lemma subprocess_exception_becomes_failed_verdict_witness :
  fst (compile_and_run_code env_build_timeout "fn main() -> int { return 0; }"
                            (Some 0) (initial ∅))
  = Ret (false, "Command timed out after 30 seconds").
Proof.
  destruct (subprocess_exception_becomes_failed_verdict env_build_timeout
              "fn main() -> int { return 0; }" (Some 0) (initial ∅) scratch
              eq_refl eq_refl) as [Hbuild _].
  apply (Hbuild (Exn TimeoutExpired "Command timed out after 30 seconds")
                ({[scratch]} ∪ ∅)).
  reflexivity.
Defined.

(** X13: [compile_and_run_code] never lets an exception out: whatever
    the temporary directory, the compiler and the executable do, the call
    returns a verdict. *)
Theorem compile_and_run_code_never_raises
  (env : Env) (code : string) (expected : option Z) (st : State) :
  exists verdict st', compile_and_run_code env code expected st = (Ret verdict, st').
Proof.
  destruct (compile_and_run_code_returns env code expected st) as (v & st' & E & _).
  eauto.
Qed.

Lemma env_compiles_keeps_scratch exit_code :
  keeps (neurc_build (env_compiles exit_code)) scratch /\
  keeps (run_exe (env_compiles exit_code)) scratch.
Proof.
  split; intros arg fs Hin; cbn; [now apply elem_of_union_r | exact Hin].
Qed.

Lemma scratch_files_removed_after_successful_write_witness :
  exists verdict st',
    compile_and_run_code (env_compiles 42) "fn main() -> int { return 42; }"
                         (Some 42) (initial ∅) = (Ret verdict, st') /\
    (scratch ∉ files st') /\ (exe_of scratch ∉ files st').
Proof.
  apply (scratch_files_removed_after_successful_write (env_compiles 42) _ (Some 42)
           (initial ∅) scratch eq_refl eq_refl);
    first [apply env_compiles_keeps_scratch | reflexivity].
Defined.

(** What the [finally] block does when the scratch file is gone: the
    state the [try] part left is the state after the call. *)
Lemma cleanup_after_vanished_scratch_file env code expected st name verdict st1 :
  try_except (try_block env code expected) (fun e => ret (false, str_exn e))
             (set_local_temp_file None st) = (Ret verdict, st1) ->
  local_temp_file st1 = Some name ->
  name ∉ files st1 ->
  compile_and_run_code env code expected st = (Ret verdict, st1).
Proof.
  intros Htry Hlocal Hgone.
  destruct (compile_and_run_code_unfold env code expected st _ _ Htry)
    as (st' & E & Hfin & _).
  rewrite (finally_block_skips_executable env st1 name Hlocal Hgone) in Hfin.
  injection Hfin as <-. exact E.
Qed.

(** X15: when the scratch file is gone by the time the [finally] block
    runs (the compiler or the executable moved or deleted it),
    [os.unlink] raises, the bare [except] swallows it and nothing is
    removed.  This holds for every call, with or without an expected
    exit code and however the build ended: the files after the call are
    the files the last process left (the executable's when it was run,
    the build's otherwise), an executable among them included. *)
Theorem vanished_scratch_file_leaves_executable
  (env : Env) (code : string) (expected : option Z) (st : State) (name : string)
  (build_outcome : res CompletedProcess) (fs left_files : gset string) :
  mkstemp env (files st) = Ret name ->
  write_text env code = None ->
  neurc_build env name ({[name]} ∪ files st) = (build_outcome, fs) ->
  left_files = (if runs_executable build_outcome expected (exe_of name) fs
                then (run_exe env (exe_of name) fs).2
                else fs) ->
  name ∉ left_files ->
  exists verdict st',
    compile_and_run_code env code expected st = (Ret verdict, st') /\
    files st' = left_files /\
    spawned st' = spawned st ++ build_cmd name ::
                  (if runs_executable build_outcome expected (exe_of name) fs
                   then [[exe_of name]] else []).
Proof.
  intros Hname Hwrite Hbuild -> Hgone.
  pose proof (cleanup_after_vanished_scratch_file env code expected st name) as Hstep.
  destruct build_outcome as [p|e]; cbn [runs_executable] in *.
  2: { eexists _, _. split; [|split].
       - apply Hstep.
         + run_try_block. rewrite Hname, Hwrite. simpl_state. rewrite Hbuild. simpl_state.
           reflexivity.
         + reflexivity.
         + exact Hgone.
       - reflexivity.
       - reflexivity. }
  destruct expected as [wanted|].
  2: { destruct (returncode p =? 0) eqn:Hrc;
         (eexists _, _; split; [|split];
          [ apply Hstep;
            [ run_try_block; rewrite Hname, Hwrite; simpl_state; rewrite Hbuild; simpl_state;
              rewrite Hrc; cbn [negb]; reflexivity
            | reflexivity
            | exact Hgone ]
          | reflexivity
          | reflexivity ]). }
  destruct (returncode p =? 0) eqn:Hrc; cbn [andb] in *.
  2: { eexists _, _. split; [|split].
       - apply Hstep.
         + run_try_block. rewrite Hname, Hwrite. simpl_state. rewrite Hbuild. simpl_state.
           rewrite Hrc. cbn [negb]. reflexivity.
         + reflexivity.
         + exact Hgone.
       - reflexivity.
       - reflexivity. }
  destruct (bool_decide (exe_of name ∈ fs)) eqn:Hexe.
  2: { eexists _, _. split; [|split].
       - apply Hstep.
         + run_try_block. rewrite Hname, Hwrite. simpl_state. rewrite Hbuild. simpl_state.
           rewrite Hrc. cbn [negb]. simpl_state. rewrite Hexe. simpl_state. reflexivity.
         + reflexivity.
         + exact Hgone.
       - reflexivity.
       - reflexivity. }
  destruct (run_exe env (exe_of name) fs) as [[q|e] fs'] eqn:Hrun; cbn [snd] in Hgone.
  - destruct (returncode q =? wanted) eqn:Hq;
      (eexists _, _; split; [|split];
       [ apply Hstep;
         [ run_try_block; rewrite Hname, Hwrite; simpl_state; rewrite Hbuild; simpl_state;
           rewrite Hrc; cbn [negb]; simpl_state; rewrite Hexe; simpl_state; rewrite Hrun; simpl_state;
           rewrite Hq; cbn [negb]; reflexivity
         | reflexivity
         | exact Hgone ]
       | reflexivity
       | simpl_state; now rewrite <- app_assoc ]).
  - eexists _, _. split; [|split].
    + apply Hstep.
      * run_try_block. rewrite Hname, Hwrite. simpl_state. rewrite Hbuild. simpl_state.
        rewrite Hrc. cbn [negb]. simpl_state. rewrite Hexe. simpl_state. rewrite Hrun. simpl_state.
        reflexivity.
      * reflexivity.
      * exact Hgone.
    + reflexivity.
    + simpl_state. now rewrite <- app_assoc.
Qed.

Lemma consumed_source_leaves_executable :
  exe_of scratch ∈ ({[exe_of scratch]} ∪ (({[scratch]} ∪ ∅) ∖ {[scratch]}) : gset string) /\
  scratch ∉ ({[exe_of scratch]} ∪ (({[scratch]} ∪ ∅) ∖ {[scratch]}) : gset string).
Proof.
  split.
  - apply elem_of_union_l. now apply elem_of_singleton.
  - intros Hin. apply elem_of_union in Hin as [Hin|Hin].
    + apply elem_of_singleton in Hin. discriminate Hin.
    + apply elem_of_difference in Hin as [_ Hin]. apply Hin. now apply elem_of_singleton.
Qed.

Lemma vanished_scratch_file_leaves_executable_witness :
  exists verdict st',
    compile_and_run_code env_consumes_source "fn main() -> int { return 0; }" (Some 0)
                         (initial ∅) = (Ret verdict, st') /\
    files st' = {[exe_of scratch]} ∪ (({[scratch]} ∪ ∅) ∖ {[scratch]}) /\
    spawned st' = spawned (initial ∅) ++ build_cmd scratch ::
                  (if runs_executable (Ret (Completed 0 "" "")) (Some 0) (exe_of scratch)
                        ({[exe_of scratch]} ∪ (({[scratch]} ∪ ∅) ∖ {[scratch]}))
                   then [[exe_of scratch]] else []).
Proof.
  apply (vanished_scratch_file_leaves_executable env_consumes_source _ (Some 0) (initial ∅)
           scratch (Ret (Completed 0 "" ""))
           ({[exe_of scratch]} ∪ (({[scratch]} ∪ ∅) ∖ {[scratch]}))).
  - reflexivity.
  - reflexivity.
  - reflexivity.
  - cbn [runs_executable returncode Z.eqb andb].
    rewrite (bool_decide_eq_true_2 _ (proj1 consumed_source_leaves_executable)).
    reflexivity.
  - exact (proj2 consumed_source_leaves_executable).
Defined.

Example consumed_source_run :
  exists st',
    compile_and_run_code env_consumes_source "fn main() -> int { return 0; }" (Some 0)
                         (initial ∅) = (Ret (true, "Success"), st') /\
    spawned st' = [build_cmd scratch; [exe_of scratch]] /\
    (exe_of scratch ∈ files st').
Proof.
  destruct (cleanup_after_vanished_scratch_file env_consumes_source
              "fn main() -> int { return 0; }" (Some 0) (initial ∅) scratch
              (true, "Success")
              {| files := {[exe_of scratch]} ∪ (({[scratch]} ∪ ∅) ∖ {[scratch]});
                 printed := []; spawned := [build_cmd scratch; [exe_of scratch]];
                 local_temp_file := Some scratch |}).
  - run_try_block. cbn [env_consumes_source mkstemp write_text neurc_build run_exe].
    simpl_state. cbn [returncode Z.eqb negb].
    rewrite (bool_decide_eq_true_2 _ (proj1 consumed_source_leaves_executable)).
    reflexivity.
  - reflexivity.
  - exact (proj2 consumed_source_leaves_executable).
  - eexists. split; [reflexivity|]. split; [reflexivity|].
    exact (proj1 consumed_source_leaves_executable).
Qed.

(** *** What the harness leaves alone *)

(** The [try] part keeps every path the processes leave alone, the
    scratch file's own name apart; [temp_file] ends unbound or bound to
    the scratch file's name. *)
Lemma try_block_leaves_path_alone env code expected st name path :
  mkstemp env (files st) = Ret name ->
  path <> name ->
  leaves_alone (neurc_build env) path ->
  leaves_alone (run_exe env) path ->
  exists verdict st1,
    try_except (try_block env code expected) (fun e => ret (false, str_exn e))
               (set_local_temp_file None st) = (Ret verdict, st1) /\
    (local_temp_file st1 = None \/ local_temp_file st1 = Some name) /\
    (path ∈ files st1 <-> path ∈ files st).
Proof.
  intros Hname Hne Hbuild Hrun.
  assert (path ∈ {[name]} ∪ files st <-> path ∈ files st) as Hcreated.
  { rewrite elem_of_union, elem_of_singleton. tauto. }
  run_try_block. rewrite Hname. simpl_state.
  destruct (write_text env code) as [e|]; simpl_state.
  { eexists _, _. split; [reflexivity|]. simpl_state. auto. }
  pose proof (Hbuild name ({[name]} ∪ files st)) as Hb.
  destruct (neurc_build env name ({[name]} ∪ files st)) as [[p|e] fs1]; simpl_state.
  2: { eexists _, _. split; [reflexivity|]. simpl_state. split; [auto|]. tauto. }
  destruct (negb (returncode p =? 0)); simpl_state.
  { eexists _, _. split; [reflexivity|]. simpl_state. split; [auto|]. tauto. }
  destruct expected as [expected|]; simpl_state.
  2: { eexists _, _. split; [reflexivity|]. simpl_state. split; [auto|]. tauto. }
  destruct (bool_decide (exe_of name ∈ fs1)); simpl_state.
  2: { eexists _, _. split; [reflexivity|]. simpl_state. split; [auto|]. tauto. }
  pose proof (Hrun (exe_of name) fs1) as Hr.
  destruct (run_exe env (exe_of name) fs1) as [[q|e] fs2]; simpl_state.
  2: { eexists _, _. split; [reflexivity|]. simpl_state. split; [auto|]. tauto. }
  destruct (negb (returncode q =? expected)); simpl_state;
    eexists _, _; (split; [reflexivity|]); simpl_state; (split; [auto|]); tauto.
Qed.

(** The [finally] block removes nothing but the scratch file and the
    file at the executable's path. *)
Lemma finally_block_leaves_path_alone env st name path :
  local_temp_file st = None \/ local_temp_file st = Some name ->
  path <> name ->
  path <> exe_of name ->
  exists st', finally_block env st = (Ret tt, st') /\
              (path ∈ files st' <-> path ∈ files st).
Proof.
  intros [Hlocal|Hlocal] Hne Hne'.
  - rewrite (finally_block_unbound env st Hlocal). eauto.
  - unfold finally_block, unlink, path_exists. unfold_py. rewrite Hlocal.
    destruct (bool_decide (name ∈ files st)); simpl_state; [|eauto].
    destruct (unlink_error env name); simpl_state; [eauto|].
    destruct (bool_decide (exe_of name ∈ files st ∖ {[name]})) eqn:Hexe;
      simpl_state; rewrite ?Hexe; simpl_state;
      [destruct (unlink_error env (exe_of name)); simpl_state|];
      (eexists; split; [reflexivity|]); simpl_state;
      rewrite ?elem_of_difference, ?elem_of_singleton; tauto.
Qed.

(** X16: the harness creates and removes nothing but the scratch file
    and the file at the executable's path: a path other than these two,
    which the compiler and the executable leave alone, exists after the
    call exactly when it existed before. *)
Theorem other_paths_are_left_alone
  (env : Env) (code : string) (expected : option Z) (st : State)
  (name path : string) :
  mkstemp env (files st) = Ret name ->
  path <> name ->
  path <> exe_of name ->
  leaves_alone (neurc_build env) path ->
  leaves_alone (run_exe env) path ->
  (path ∈ files (snd (compile_and_run_code env code expected st)) <-> path ∈ files st).
Proof.
  intros Hname Hne Hne' Hbuild Hrun.
  destruct (try_block_leaves_path_alone env code expected st name path
              Hname Hne Hbuild Hrun) as (verdict & st1 & E1 & Hlocal & Hsame1).
  destruct (finally_block_leaves_path_alone env st1 name path Hlocal Hne Hne')
    as (st2 & E2 & Hsame2).
  unfold compile_and_run_code, bind, modify, try_finally.
  rewrite E1, E2. cbn [snd]. now rewrite Hsame2.
Qed.

Lemma other_paths_are_left_alone_witness :
  "/tmp/notes.txt"
    ∈ files (snd (compile_and_run_code env_no_exe "fn main() -> int { return 42; }"
                    (Some 42) (initial {["/tmp/notes.txt"]})))
  <-> "/tmp/notes.txt" ∈ files (initial {["/tmp/notes.txt"]}).
Proof.
  apply (other_paths_are_left_alone env_no_exe _ (Some 42)
           (initial {["/tmp/notes.txt"]}) scratch "/tmp/notes.txt").
  - reflexivity.
  - discriminate.
  - discriminate.
  - intros arg fs. reflexivity.
  - intros arg fs. reflexivity.
Defined.

(** *** The executable's path *)

(** X17: for a scratch name [base + ".nr"] in which [".nr"] occurs
    nowhere else, [temp_file.replace('.nr', '.exe')] is [base + ".exe"]:
    only the extension changes. *)
Theorem exe_of_replaces_the_extension (base : string) :
  only_at_end ".nr" base ->
  exe_of (base +:+ ".nr") = base +:+ ".exe".
Proof.
  unfold exe_of, replace.
  induction base as [|c rest IH]; intros Honly; [reflexivity|].
  destruct Honly as [Hhere Hrest].
  change (String c rest +:+ ".nr") with (String c (rest +:+ ".nr")) in *.
  cbn [replace_from]. rewrite Hhere.
  change (String c rest +:+ ".exe") with (String c (rest +:+ ".exe")).
  f_equal. exact (IH Hrest).
Qed.

Lemma exe_of_replaces_the_extension_witness :
  exe_of ("/tmp/tmp4k2j9x1q" +:+ ".nr") = "/tmp/tmp4k2j9x1q" +:+ ".exe".
Proof.
  apply (exe_of_replaces_the_extension "/tmp/tmp4k2j9x1q").
  cbn. repeat split.
Defined.

(** *** Counting *)

Lemma run_cases_bounds env tests :
  forall passed st,
  exists passed' st',
    run_cases env tests passed st = (Ret passed', st') /\
    passed <= passed' <= passed + Z.of_nat (length tests).
Proof.
  induction tests as [|[[name code] expected] rest IH]; intros passed st.
  - exists passed, st. split; [reflexivity|]. cbn [length]. lia.
  - cbn [run_cases]. unfold bind at 1.
    destruct (compile_and_run_code_returns env code expected st)
      as ([success message] & st1 & -> & _).
    destruct success; unfold print; unfold_py;
      match goal with
      | |- context [run_cases env rest ?p ?s] =>
          destruct (IH p s) as (passed' & st' & -> & Hbounds)
      end;
      exists passed', st'; (split; [reflexivity|]); cbn [length]; lia.
Qed.

(** X18: each of the four [test_*] functions returns [(passed, total)]
    with [total] the number of cases in its table and
    [0 <= passed <= total], in every world. *)
Theorem test_functions_count_within_bounds (env : Env) (st : State) :
  (exists passed st', test_basic_features env st = (Ret (passed, 8), st')
                      /\ 0 <= passed <= 8) /\
  (exists passed st', test_advanced_features env st = (Ret (passed, 8), st')
                      /\ 0 <= passed <= 8) /\
  (exists passed st', test_compilation_only env st = (Ret (passed, 8), st')
                      /\ 0 <= passed <= 8) /\
  (exists passed st', test_phase_1_features env st = (Ret (passed, 4), st')
                      /\ 0 <= passed <= 4).
Proof.
  unfold test_basic_features, test_advanced_features, test_compilation_only,
    test_phase_1_features, run_table, print.
  repeat split; unfold_py;
    match goal with
    | |- context [run_cases env ?tests 0 ?s] =>
        destruct (run_cases_bounds env tests 0 s) as (passed & st' & -> & Hbounds)
    end;
    exists passed, st'; (split; [reflexivity|]);
    unfold basic_tests, advanced_tests, compilation_only_tests, phase_1_tests in Hbounds;
    cbn [length Z.of_nat Pos.of_succ_nat Pos.succ] in Hbounds; lia.
Qed.

End FeatureHarnessFacts.

Module BenchmarkGateFacts.
Import PyStr PyNum PyFacts BenchmarkGate.

Example split_group_name : split_once "/" "lexer/tokenize_small" = ["lexer"; "tokenize_small"].
Proof. reflexivity. Qed.

Example split_keeps_later_slashes : split_once "/" "g/a/b" = ["g"; "a/b"].
Proof. reflexivity. Qed.

Example split_without_separator : split_once "/" "plain" = ["plain"].
Proof. reflexivity. Qed.

Example float_of_int_exact : float_of_int 1000000 = 1000000%float.
Proof. vm_compute. reflexivity. Qed.

(** 35% over a budget of one millisecond. *)
Example allowed_for_one_millisecond :
  allowed_ns_of 1000000 0x1.6666666666666p-2 = 1350000%float.
Proof. vm_compute. reflexivity. Qed.

(** *** Comparison of floats *)



(** *** The comparison loop *)

Lemma exceeds_checkable env args item measured budget :
  checkable env args item measured budget ->
  exceeds env args item
  = float_gt measured (budget * (1 + threshold_ratio args))%float.
Proof. intros (Hm & Hb & _). unfold exceeds. now rewrite Hm, Hb. Qed.

(** A checkable key prints its line and goes on; it adds a failure
    exactly when it exceeds. *)
Lemma check_each_checkable_step env args item rest failures st measured budget :
  checkable env args item measured budget ->
  exists failure st1,
    check_each env args (item :: rest) failures st
    = check_each env args rest
        (if exceeds env args item then failures ++ [failure] else failures) st1.
Proof.
  intros Hc. rewrite (exceeds_checkable _ _ _ _ _ Hc).
  destruct Hc as (Hm & Hb & Hnz). destruct item as [key baseline_ns].
  cbn [fst snd] in *. cbn [check_each]. unfold consult, print, float_div. unfold_py.
  rewrite Hm, Hb, Hnz. unfold allowed_ns_of. eexists _, _. reflexivity.
Qed.

Lemma check_each_all_checkable env args items :
  (forall item, In item items -> exists m b, checkable env args item m b) ->
  forall failures st,
  exists failures' st',
    check_each env args items failures st = (Ret failures', st') /\
    (failures' = [] <-> failures = [] /\ existsb (exceeds env args) items = false).
Proof.
  induction items as [|item rest IH]; intros Hall failures st.
  - exists failures, st. split; [reflexivity|]. cbn. tauto.
  - destruct (Hall item (or_introl eq_refl)) as (m & b & Hc).
    destruct (check_each_checkable_step env args item rest failures st m b Hc)
      as (failure & st1 & E).
    rewrite E.
    destruct (IH (fun it Hin => Hall it (or_intror Hin))
                 (if exceeds env args item then failures ++ [failure] else failures) st1)
      as (failures' & st' & E' & Hiff).
    exists failures', st'. split; [exact E'|].
    rewrite Hiff. cbn [existsb]. destruct (exceeds env args item); cbn [orb].
    + split; [intros [Hnil _]|intros [_ Hf]]; [|discriminate].
      now apply app_eq_nil in Hnil as [_ Hnil].
    + tauto.
Qed.


Lemma existsb_exceeds_false env args items :
  (forall item, In item items -> exists m b, checkable env args item m b) ->
  existsb (exceeds env args) items = false <->
  forall item m b,
    In item items -> checkable env args item m b ->
    float_gt m (b * (1 + threshold_ratio args))%float = false.
Proof.
  intros Hall. split.
  - intros Hnone item m b Hin Hc.
    rewrite <- (exceeds_checkable _ _ _ _ _ Hc).
    destruct (exceeds env args item) eqn:Hex; [|reflexivity].
    assert (existsb (exceeds env args) items = true) as Hsome
        by (apply existsb_exists; eauto).
    congruence.
  - intros Hnone. destruct (existsb (exceeds env args) items) eqn:Hex; [|reflexivity].
    apply existsb_exists in Hex as (item & Hin & Hex).
    destruct (Hall item Hin) as (m & b & Hc).
    rewrite (exceeds_checkable _ _ _ _ _ Hc) in Hex.
    rewrite (Hnone item m b Hin Hc) in Hex. discriminate.
Qed.






Example measured_below_allowance_passes :
  fst (main (env_measured (JFloat 1300000)) args_35 initial) = Ret 0.
Proof. vm_compute. reflexivity. Qed.

Example measured_above_allowance_fails :
  fst (main (env_measured (JFloat 1400000)) args_35 initial) = Ret 1.
Proof. vm_compute. reflexivity. Qed.

Example measured_at_allowance_passes :
  fst (main (env_measured (JFloat 1350000)) args_35 initial) = Ret 0.
Proof. vm_compute. reflexivity. Qed.



(** *** Missing data *)

(** A document without [mean.point_estimate] makes the reader raise:
    [ValueError] when the entry or its parent is absent or null,
    [AttributeError] when the document or its [mean] is no mapping. *)
Lemma read_raises_without_point_estimate env results_root key group bench_name doc :
  split_once "/" key = [group; bench_name] ->
  file_at env (estimates_path_of results_root group bench_name) = Some (Ret doc) ->
  point_estimate_of doc = None ->
  exists e, read_criterion_mean_ns env results_root key = Raise e.
Proof.
  intros Hsplit Hfile Hnone.
  unfold read_criterion_mean_ns, load_json. rewrite Hsplit, Hfile.
  destruct doc as [| | | | | |members]; cbn; eauto.
  cbn in Hnone.
  destruct (dict_get "mean" members) as [mean|]; cbn; eauto.
  destruct mean as [| | | | | |entries]; cbn; eauto.
  destruct (dict_get "point_estimate" entries) as [found|]; cbn; eauto.
  destruct found; try discriminate Hnone. eauto.
Qed.

Lemma read_raises_on_missing_data env args key :
  missing_data env args key ->
  exists e, read_criterion_mean_ns env (results_root args) key = Raise e.
Proof.
  intros (group & bench_name & Hsplit & [Hnone|(doc & Hfile & Hpe)]).
  - unfold read_criterion_mean_ns. rewrite Hsplit, Hnone. eauto.
  - eapply read_raises_without_point_estimate; eauto.
Qed.

(** The loop stops at the first key that raises, and no key is skipped:
    a key whose measurement cannot be read makes the loop raise. *)
Lemma check_each_raises env args items key baseline_ns :
  In (key, baseline_ns) items ->
  (exists e, read_criterion_mean_ns env (results_root args) key = Raise e) ->
  forall failures st,
  exists e st', check_each env args items failures st = (Raise e, st').
Proof.
  intros Hin (e & He).
  induction items as [|[k v] rest IH]; intros failures st; [destruct Hin|].
  cbn [check_each]. unfold consult, print, float_div. unfold_py.
  destruct (read_criterion_mean_ns env (results_root args) k) as [m|e1] eqn:Hread;
    [|eauto].
  destruct Hin as [Heq|Hin]; [inversion Heq; subst; congruence|].
  destruct (py_float env v) as [b|e2]; [|eauto].
  destruct (PrimFloat.eqb b 0); [eauto|].
  apply (IH Hin).
Qed.

(** A budget [float()] rejects, or a budget of zero, stops the loop as
    well: the slowdown ratio printed for the key divides by it. *)
Lemma check_each_raises_on_unusable_budget env args items key baseline_ns :
  In (key, baseline_ns) items ->
  unusable_budget env baseline_ns ->
  forall failures st,
  exists e st', check_each env args items failures st = (Raise e, st').
Proof.
  intros Hin Hbad.
  induction items as [|[k v] rest IH]; intros failures st; [destruct Hin|].
  cbn [check_each]. unfold consult, print, float_div. unfold_py.
  destruct (read_criterion_mean_ns env (results_root args) k) as [m|e1]; [|eauto].
  destruct (py_float env v) as [b|e2] eqn:Hb; [|eauto].
  destruct (PrimFloat.eqb b 0) eqn:Hz; [eauto|].
  destruct Hin as [Heq|Hin]; [|apply (IH Hin)].
  inversion Heq; subst.
  destruct Hbad as [(e & He)|(b' & Hb' & Hz')]; congruence.
Qed.

Lemma unusable_budget_is_a_hard_error env args members key baseline_ns :
  baseline_is env args members ->
  In (key, baseline_ns) members ->
  unusable_budget env baseline_ns ->
  (exists e st, main env args initial = (Raise e, st)) /\
  exit_status env args = 1.
Proof.
  intros (top & Hfile & Hbench) Hin Hbad.
  assert (exists e st, main env args initial = (Raise e, st)) as (e & st & Hmain).
  { unfold main, load_json, py_get. unfold_py. rewrite Hfile, Hbench.
    destruct members as [|first others]; [destruct Hin|].
    cbn [truthy negb py_items].
    destruct (check_each_raises_on_unusable_budget env args (first :: others)
                key baseline_ns Hin Hbad [] initial) as (e & st & ->).
    eauto. }
  split; [eauto|]. unfold exit_status. now rewrite Hmain.
Qed.

(** C4: when the results file of some baseline key is missing, or its
    document has no [mean.point_estimate], [main] raises; the exception
    leaves the script and the exit status is 1, never 0. *)
Theorem missing_data_is_a_hard_error
  (env : Env) (args : Args) (members : list (string * json))
  (key : string) (baseline_ns : json) :
  baseline_is env args members ->
  In (key, baseline_ns) members ->
  missing_data env args key ->
  (exists e st, main env args initial = (Raise e, st)) /\
  exit_status env args = 1 /\
  exit_status env args <> 0.
Proof.
  intros (top & Hfile & Hbench) Hin Hmissing.
  assert (exists e st, main env args initial = (Raise e, st)) as (e & st & Hmain).
  { unfold main, load_json, py_get. unfold_py. rewrite Hfile, Hbench.
    destruct members as [|first others]; [destruct Hin|].
    cbn [truthy negb py_items].
    destruct (check_each_raises env args (first :: others) key baseline_ns Hin
                (read_raises_on_missing_data env args key Hmissing) [] initial)
      as (e & st & ->).
    eauto. }
  split; [eauto|].
  unfold exit_status. rewrite Hmain. cbn. split; [reflexivity|discriminate].
Qed.

Lemma missing_data_is_a_hard_error_witness :
  (exists e st, main env_no_results args_35 initial = (Raise e, st)) /\
  exit_status env_no_results args_35 = 1 /\
  exit_status env_no_results args_35 <> 0.
Proof.
  apply (missing_data_is_a_hard_error env_no_results args_35
           [("g/b", JInt 1000000)] "g/b" (JInt 1000000)).
  - exists [("benchmarks", JObj [("g/b", JInt 1000000)])]. split; reflexivity.
  - left. reflexivity.
  - exists "g", "b". split; [reflexivity|]. left. reflexivity.
Defined.

Example missing_results_file_run :
  main env_no_results args_35 initial
  = (Raise (Exn FileNotFoundError
              "Missing benchmark output: target/criterion/g/b/new/estimates.json"),
     {| printed := []; consulted := ["g/b"] |}).
Proof. vm_compute. reflexivity. Qed.

(** A results document whose [mean] has no [point_estimate]. *)
Example malformed_results_run :
  fst (main (env_measured JNull) args_35 initial)
  = Raise (Exn ValueError
             "Invalid criterion estimates format in target/criterion/g/b/new/estimates.json").
Proof. vm_compute. reflexivity. Qed.

(** *** Empty baseline *)

(** C6: when the baseline document has no ["benchmarks"] key, or maps it
    to an empty mapping, [main] prints one line and returns 1 without
    asking for the measurement of any key. *)
Theorem empty_baseline_exits_one
  (env : Env) (args : Args) (top : list (string * json)) :
  file_at env (baseline args) = Some (Ret (JObj top)) ->
  dict_get "benchmarks" top = None \/ dict_get "benchmarks" top = Some (JObj []) ->
  main env args initial
  = (Ret 1, {| printed := ["No benchmark baseline entries found."];
               consulted := [] |}) /\
  exit_status env args = 1.
Proof.
  intros Hfile Hbench.
  assert (main env args initial
          = (Ret 1, {| printed := ["No benchmark baseline entries found."];
                       consulted := [] |})) as Hmain.
  { unfold main, load_json, py_get. unfold_py. rewrite Hfile.
    destruct Hbench as [-> | ->]; reflexivity. }
  split; [exact Hmain|]. unfold exit_status. now rewrite Hmain.
Qed.

Lemma empty_baseline_exits_one_witness :
  main env_empty_baseline args_35 initial
  = (Ret 1, {| printed := ["No benchmark baseline entries found."];
               consulted := [] |}) /\
  exit_status env_empty_baseline args_35 = 1.
Proof.
  apply (empty_baseline_exits_one env_empty_baseline args_35 [("benchmarks", JObj [])]).
  - reflexivity.
  - right. reflexivity.
Defined.

(** *** Reading one measurement *)

(** X1: [read_criterion_mean_ns] returns a value exactly when the key
    splits into group and name, the derived file parses to a document
    that has a non-null [mean.point_estimate], and [float()] accepts that
    entry; the value is then the entry's float. *)
Theorem read_criterion_mean_ns_returns_iff
  (env : Env) (results_root key : string) (x : float) :
  read_criterion_mean_ns env results_root key = Ret x <->
  exists group bench_name doc v,
    split_once "/" key = [group; bench_name] /\
    file_at env (estimates_path_of results_root group bench_name) = Some (Ret doc) /\
    point_estimate_of doc = Some v /\
    py_float env v = Ret x.
Proof.
  split.
  - unfold read_criterion_mean_ns, load_json.
    destruct (split_once "/" key) as [|group [|bench_name [|extra more]]];
      try discriminate.
    destruct (file_at env (estimates_path_of results_root group bench_name))
      as [[doc|e]|] eqn:Hfile; try discriminate.
    intros H. exists group, bench_name, doc.
    destruct doc as [| | | | | |members]; try discriminate H.
    cbn in H. cbn [point_estimate_of].
    destruct (dict_get "mean" members) as [mean|].
    + destruct mean as [| | | | | |entries]; cbn in H; try discriminate H.
      destruct (dict_get "point_estimate" entries) as [found|];
        cbn in H; [|discriminate H].
      exists found.
      destruct found; try discriminate H; (repeat split; [exact Hfile | exact H]).
    + cbn in H. discriminate H.
  - intros (group & bench_name & doc & v & Hsplit & Hfile & Hpe & Hfloat).
    unfold read_criterion_mean_ns, load_json. rewrite Hsplit, Hfile.
    destruct doc as [| | | | | |members]; try discriminate Hpe.
    cbn in Hpe. cbn.
    destruct (dict_get "mean" members) as [mean|]; [|discriminate Hpe].
    destruct mean as [| | | | | |entries]; try discriminate Hpe.
    cbn. destruct (dict_get "point_estimate" entries) as [found|]; [|discriminate Hpe].
    destruct found; try discriminate Hpe; injection Hpe as <-; exact Hfloat.
Qed.

(** The path of the results file is built by [pathlib]: a name that
    starts with [/] replaces the results root, empty and [.] components
    vanish. *)
Example estimates_path_examples :
  estimates_path_of "target/criterion" "lexer" "tokenize_small"
  = "target/criterion/lexer/tokenize_small/new/estimates.json" /\
  estimates_path_of "target/criterion" "g" "/abs/x" = "/abs/x/new/estimates.json" /\
  estimates_path_of "target/criterion" "g" "//abs" = "//abs/new/estimates.json" /\
  estimates_path_of "target/criterion" "g" "a//b/" = "target/criterion/g/a/b/new/estimates.json" /\
  estimates_path_of "target/criterion" "" "b" = "target/criterion/b/new/estimates.json" /\
  estimates_path_of "target/criterion" "g" ".." = "target/criterion/g/../new/estimates.json" /\
  estimates_path_of "." "g" "b" = "g/b/new/estimates.json" /\
  estimates_path_of "/" "g" "b" = "/g/b/new/estimates.json".
Proof. repeat split. Qed.

(** The key [g//abs/x] is measured by the file at [/abs/x/new/estimates.json]. *)
Example absolute_key_run :
  read_criterion_mean_ns env_absolute_key (results_root args_35) "g//abs/x"
  = Ret 1300000%float /\
  fst (main env_absolute_key args_35 initial) = Ret 0.
Proof. split; vm_compute; reflexivity. Qed.

(** A string without the separator is returned whole. *)
Lemma split_once_without_separator sep s :
  Forall (fun c => c <> sep) (list_ascii_of_string s) ->
  split_once sep s = [s].
Proof.
  induction s as [|c rest IH]; intros Hno; [reflexivity|].
  cbn [list_ascii_of_string] in Hno. apply Forall_cons in Hno as [Hc Hrest].
  cbn [split_once]. destruct (Ascii.eqb_spec c sep) as [->|_]; [contradiction|].
  now rewrite (IH Hrest).
Qed.

(** X2: a baseline key without a [/] cannot be unpacked into group and
    name: reading it raises [ValueError] whatever the results tree holds,
    and a baseline that has such a key makes [main] raise (exit status
    1). *)
Theorem key_without_slash_is_a_hard_error
  (env : Env) (args : Args) (members : list (string * json))
  (key : string) (baseline_ns : json) :
  baseline_is env args members ->
  In (key, baseline_ns) members ->
  Forall (fun c => c <> "/"%char) (list_ascii_of_string key) ->
  read_criterion_mean_ns env (results_root args) key
  = Raise (Exn ValueError "not enough values to unpack (expected 2, got 1)") /\
  (exists e st, main env args initial = (Raise e, st)) /\
  exit_status env args = 1.
Proof.
  intros (top & Hfile & Hbench) Hin Hno.
  assert (read_criterion_mean_ns env (results_root args) key
          = Raise (Exn ValueError "not enough values to unpack (expected 2, got 1)"))
    as Hread.
  { unfold read_criterion_mean_ns.
    now rewrite (split_once_without_separator _ _ Hno). }
  split; [exact Hread|].
  assert (exists e st, main env args initial = (Raise e, st)) as (e & st & Hmain).
  { unfold main, load_json, py_get. unfold_py. rewrite Hfile, Hbench.
    destruct members as [|first others]; [destruct Hin|].
    cbn [truthy negb py_items].
    destruct (check_each_raises env args (first :: others) key baseline_ns Hin
                (ex_intro _ _ Hread) [] initial) as (e & st & ->).
    eauto. }
  split; [eauto|]. unfold exit_status. now rewrite Hmain.
Qed.

Lemma key_without_slash_is_a_hard_error_witness :
  read_criterion_mean_ns env_plain_key (results_root args_35) "plain"
  = Raise (Exn ValueError "not enough values to unpack (expected 2, got 1)") /\
  (exists e st, main env_plain_key args_35 initial = (Raise e, st)) /\
  exit_status env_plain_key args_35 = 1.
Proof.
  apply (key_without_slash_is_a_hard_error env_plain_key args_35
           [("plain", JInt 5)] "plain" (JInt 5)).
  - exists [("benchmarks", JObj [("plain", JInt 5)])]. split; reflexivity.
  - left. reflexivity.
  - cbn. repeat constructor; discriminate.
Defined.

(** *** Order and progress of the checks *)

(** A prefix of checkable keys is consulted key by key, each printing one
    line, and the loop goes on with the rest. *)
Lemma check_each_checkable_prefix env args pre :
  (forall item, In item pre -> exists m b, checkable env args item m b) ->
  forall rest failures st,
  exists failures' st',
    check_each env args (pre ++ rest) failures st
    = check_each env args rest failures' st' /\
    consulted st' = consulted st ++ map fst pre /\
    length (printed st') = (length (printed st) + length pre)%nat.
Proof.
  induction pre as [|[key baseline_ns] pre IH]; intros Hall rest failures st.
  - exists failures, st. cbn. rewrite app_nil_r. split; [reflexivity|]. split; [reflexivity|lia].
  - destruct (Hall (key, baseline_ns) (or_introl eq_refl)) as (m & b & Hm & Hb & Hnz).
    cbn [fst snd] in *. cbn [app check_each]. unfold consult, print, float_div. unfold_py.
    rewrite Hm, Hb, Hnz.
    match goal with
    | |- context [check_each env args (pre ++ rest) ?f ?s] =>
        destruct (IH (fun it Hin => Hall it (or_intror Hin)) rest f s)
          as (failures' & st' & E & Hcons & Hlen)
    end.
    exists failures', st'. split; [exact E|]. cbn [consulted printed] in *.
    split.
    + rewrite Hcons. cbn [map fst]. now rewrite <- app_assoc.
    + rewrite Hlen, length_app. cbn [length]. lia.
Qed.

Lemma print_failures_keeps_consulted failures :
  forall st, exists st',
    print_failures failures st = (Ret tt, st') /\ consulted st' = consulted st.
Proof.
  induction failures as [|failure rest IH]; intros st; cbn [print_failures].
  - exists st. split; reflexivity.
  - unfold print. unfold_py.
    match goal with
    | |- context [print_failures rest ?s] => destruct (IH s) as (st' & -> & Hc)
    end.
    exists st'. split; [reflexivity | exact Hc].
Qed.

(** X3: over a baseline whose keys can all be checked, [main] asks for
    the measurement of every key exactly once, in the order of the
    baseline document. *)
Theorem every_key_is_consulted_once_in_order
  (env : Env) (args : Args) (members : list (string * json)) :
  baseline_is env args members ->
  (forall item, In item members -> exists m b, checkable env args item m b) ->
  consulted (snd (main env args initial)) = map fst members.
Proof.
  intros (top & Hfile & Hbench) Hall.
  unfold main, load_json, py_get. unfold_py. rewrite Hfile, Hbench.
  destruct members as [|first others]; [reflexivity|].
  cbn [truthy negb py_items].
  destruct (check_each_checkable_prefix env args (first :: others) Hall [] [] initial)
    as (failures & st & E & Hcons & _).
  rewrite app_nil_r in E. rewrite E. cbn [check_each]. unfold_py.
  cbn [consulted initial app] in Hcons.
  destruct failures as [|failure more]; unfold print; unfold_py.
  - exact Hcons.
  - match goal with
    | |- context [print_failures ?l ?s] =>
        destruct (print_failures_keeps_consulted l s) as (s' & -> & Hc)
    end.
    cbn [snd consulted]. now rewrite Hc.
Qed.

Lemma every_key_is_consulted_once_in_order_witness :
  consulted (snd (main (env_measured (JFloat 1400000)) args_35 initial)) = ["g/b"].
Proof.
  apply (every_key_is_consulted_once_in_order (env_measured (JFloat 1400000)) args_35
           [("g/b", JInt 1000000)]).
  - exists [("benchmarks", JObj [("g/b", JInt 1000000)])]. split; reflexivity.
  - intros item [<-|[]]. exists 1400000%float, 1000000%float.
    repeat split; vm_compute; reflexivity.
Defined.

(** X4: the gate stops at the first key whose measurement cannot be
    read: the exception of that key leaves [main] unchanged, the keys
    before it have been consulted and have printed their lines, and no
    key after it is consulted. *)
Theorem gate_stops_at_first_unreadable_key
  (env : Env) (args : Args) (pre post : list (string * json))
  (key : string) (baseline_ns : json) (e : exn) :
  baseline_is env args (pre ++ (key, baseline_ns) :: post) ->
  (forall item, In item pre -> exists m b, checkable env args item m b) ->
  read_criterion_mean_ns env (results_root args) key = Raise e ->
  exists st,
    main env args initial = (Raise e, st) /\
    consulted st = map fst pre ++ [key] /\
    length (printed st) = length pre.
Proof.
  intros (top & Hfile & Hbench) Hall Hread.
  unfold main, load_json, py_get. unfold_py. rewrite Hfile, Hbench.
  assert (truthy (JObj (pre ++ (key, baseline_ns) :: post)) = true) as ->
      by (destruct pre; reflexivity).
  cbn [negb py_items].
  destruct (check_each_checkable_prefix env args pre Hall
              ((key, baseline_ns) :: post) [] initial)
    as (failures & st & E & Hcons & Hlen).
  rewrite E. cbn [check_each]. unfold consult. unfold_py. rewrite Hread.
  eexists. split; [reflexivity|]. cbn [consulted printed initial app length] in *.
  split; [now rewrite Hcons | exact Hlen].
Qed.

Lemma gate_stops_at_first_unreadable_key_witness :
  exists st,
    main env_second_missing args_35 initial
    = (Raise (Exn FileNotFoundError
                "Missing benchmark output: target/criterion/g/b/new/estimates.json"), st) /\
    consulted st = map fst [("g/a", JInt 1000000)] ++ ["g/b"] /\
    length (printed st) = length [("g/a", JInt 1000000)].
Proof.
  apply (gate_stops_at_first_unreadable_key env_second_missing args_35
           [("g/a", JInt 1000000)] [] "g/b" (JInt 1000000)).
  - exists [("benchmarks", JObj [("g/a", JInt 1000000); ("g/b", JInt 1000000)])].
    split; reflexivity.
  - intros item [<-|[]]. exists 1300000%float, 1000000%float.
    repeat split; vm_compute; reflexivity.
  - reflexivity.
Defined.

(** *** The shape of the baseline document *)

(** X5: any falsy value under ["benchmarks"] ([null], [false], [0],
    [0.0], [""], [[]], [{}]) is treated like an empty mapping: one line,
    return 1, no key consulted. *)
Theorem falsy_benchmarks_exit_one
  (env : Env) (args : Args) (top : list (string * json)) (benchmarks : json) :
  file_at env (baseline args) = Some (Ret (JObj top)) ->
  dict_get "benchmarks" top = Some benchmarks ->
  truthy benchmarks = false ->
  main env args initial
  = (Ret 1, {| printed := ["No benchmark baseline entries found."];
               consulted := [] |}) /\
  exit_status env args = 1.
Proof.
  intros Hfile Hbench Hfalsy.
  assert (main env args initial
          = (Ret 1, {| printed := ["No benchmark baseline entries found."];
                       consulted := [] |})) as Hmain.
  { unfold main, load_json, py_get. unfold_py. now rewrite Hfile, Hbench, Hfalsy. }
  split; [exact Hmain|]. unfold exit_status. now rewrite Hmain.
Qed.

Lemma falsy_benchmarks_exit_one_witness :
  main (env_benchmarks JNull) args_35 initial
  = (Ret 1, {| printed := ["No benchmark baseline entries found."];
               consulted := [] |}) /\
  exit_status (env_benchmarks JNull) args_35 = 1.
Proof.
  apply (falsy_benchmarks_exit_one (env_benchmarks JNull) args_35
           [("benchmarks", JNull)] JNull); reflexivity.
Defined.

(** X6: a truthy value under ["benchmarks"] that is no mapping (a
    non-empty list or string, a non-zero number, [true]) has no
    [items]: [main] raises [AttributeError] before it prints or consults
    anything. *)
Theorem non_mapping_benchmarks_is_a_hard_error
  (env : Env) (args : Args) (top : list (string * json)) (benchmarks : json) :
  file_at env (baseline args) = Some (Ret (JObj top)) ->
  dict_get "benchmarks" top = Some benchmarks ->
  truthy benchmarks = true ->
  (forall members, benchmarks <> JObj members) ->
  main env args initial = (Raise (no_attribute benchmarks "items"), initial) /\
  exit_status env args = 1.
Proof.
  intros Hfile Hbench Htruthy Hshape.
  assert (main env args initial = (Raise (no_attribute benchmarks "items"), initial))
    as Hmain.
  { unfold main, load_json, py_get. unfold_py. rewrite Hfile, Hbench, Htruthy.
    cbn [negb]. destruct benchmarks; try reflexivity.
    now destruct (Hshape members). }
  split; [exact Hmain|]. unfold exit_status. now rewrite Hmain.
Qed.

Lemma non_mapping_benchmarks_is_a_hard_error_witness :
  main (env_benchmarks (JArr [JInt 1])) args_35 initial
  = (Raise (no_attribute (JArr [JInt 1]) "items"), initial) /\
  exit_status (env_benchmarks (JArr [JInt 1])) args_35 = 1.
Proof.
  apply (non_mapping_benchmarks_is_a_hard_error (env_benchmarks (JArr [JInt 1])) args_35
           [("benchmarks", JArr [JInt 1])] (JArr [JInt 1]));
    try reflexivity.
  intros members. discriminate.
Defined.

(** X7: unless the baseline file loads as a JSON object, [main] raises
    before it prints or consults anything: the error of [open] or of the
    parser, or [AttributeError] for a document that has no [get]. *)
Theorem baseline_must_load_as_a_mapping (env : Env) (args : Args) :
  (forall top, file_at env (baseline args) <> Some (Ret (JObj top))) ->
  (exists e, main env args initial = (Raise e, initial)) /\
  exit_status env args = 1.
Proof.
  intros Hshape.
  assert (exists e, main env args initial = (Raise e, initial)) as (e & Hmain).
  { unfold main, load_json, py_get. unfold_py.
    destruct (file_at env (baseline args)) as [[doc|e]|] eqn:Hfile; eauto.
    destruct doc; eauto. now destruct (Hshape members). }
  split; [eauto|]. unfold exit_status. now rewrite Hmain.
Qed.

Lemma baseline_must_load_as_a_mapping_witness :
  (exists e, main env_nothing args_35 initial = (Raise e, initial)) /\
  exit_status env_nothing args_35 = 1.
Proof.
  apply (baseline_must_load_as_a_mapping env_nothing args_35).
  intros top. discriminate.
Defined.

(** *** What an exit status of 0 means *)

(** The loop returns only if every key could be checked. *)
Lemma check_each_returns_only_if_checkable env args items :
  forall failures st failures' st',
    check_each env args items failures st = (Ret failures', st') ->
    forall item, In item items -> exists m b, checkable env args item m b.
Proof.
  induction items as [|[key baseline_ns] rest IH];
    intros failures st failures' st' Hret item Hin; [destruct Hin|].
  cbn [check_each] in Hret. unfold consult, print, float_div in Hret.
  unfold bind, modify, lift, ret in Hret.
  destruct (read_criterion_mean_ns env (results_root args) key) as [m|] eqn:Hm;
    [|discriminate Hret].
  destruct (py_float env baseline_ns) as [b|] eqn:Hb; [|discriminate Hret].
  destruct (PrimFloat.eqb b 0) eqn:Hnz; [discriminate Hret|].
  destruct Hin as [<-|Hin].
  - exists m, b. repeat split; assumption.
  - eapply IH; eauto.
Qed.

(** X8: the gate exits with status 0 only when the baseline is a
    non-empty mapping, every one of its keys has a measurement and a
    budget, and no measurement is above its allowance. *)
Theorem exit_zero_means_every_key_within_allowance (env : Env) (args : Args) :
  exit_status env args = 0 ->
  exists members,
    members <> [] /\
    baseline_is env args members /\
    forall item, In item members ->
      exists m b,
        checkable env args item m b /\
        float_gt m (allowed_ns_of b (threshold_ratio args)) = false.
Proof.
  unfold exit_status. intros Hexit.
  destruct (main env args initial) as [[code|e] st] eqn:Hmain;
    cbn [fst sys_exit] in Hexit; [subst code|discriminate Hexit].
  unfold main, load_json, py_get in Hmain. unfold bind, lift, ret in Hmain.
  destruct (file_at env (baseline args)) as [[doc|e]|] eqn:Hfile;
    try discriminate Hmain.
  destruct doc as [| | | | | |top]; try discriminate Hmain.
  destruct (dict_get "benchmarks" top) as [benchmarks|] eqn:Hbench.
  2: { cbn in Hmain. discriminate Hmain. }
  destruct (truthy benchmarks) eqn:Htruthy; cbn [negb] in Hmain.
  2: { unfold print, modify in Hmain. discriminate Hmain. }
  destruct benchmarks as [| | | | | |members]; try discriminate Hmain.
  cbn [py_items] in Hmain.
  destruct (check_each env args members [] initial) as [[failures|e] st1] eqn:Hloop;
    [|discriminate Hmain].
  pose proof (check_each_returns_only_if_checkable _ _ _ _ _ _ _ Hloop) as Hall.
  exists members. split; [now destruct members|].
  split; [exists top; auto|].
  destruct (check_each_all_checkable env args members Hall [] initial)
    as (failures' & st' & E & Hiff).
  rewrite Hloop in E. injection E as <- <-.
  destruct failures as [|failure more].
  - destruct Hiff as [Hiff _]. destruct (Hiff eq_refl) as [_ Hnone].
    intros item Hin. destruct (Hall item Hin) as (m & b & Hc).
    exists m, b. split; [exact Hc|]. unfold allowed_ns_of.
    eapply existsb_exceeds_false; eauto.
  - exfalso. unfold print, modify in Hmain.
    destruct (print_failures_keeps_consulted (failure :: more)
                {| printed := printed st1 ++ [nl +:+ "Benchmark regression check failed:"];
                   consulted := consulted st1 |}) as (s' & Ep & _).
    rewrite Ep in Hmain. discriminate Hmain.
Qed.

Lemma exit_zero_means_every_key_within_allowance_witness :
  exists members,
    members <> [] /\
    baseline_is (env_measured (JFloat 1300000)) args_35 members /\
    forall item, In item members ->
      exists m b,
        checkable (env_measured (JFloat 1300000)) args_35 item m b /\
        float_gt m (allowed_ns_of b (threshold_ratio args_35)) = false.
Proof.
  apply (exit_zero_means_every_key_within_allowance (env_measured (JFloat 1300000)) args_35).
  vm_compute. reflexivity.
Defined.

(** *** The shape of the report *)

Lemma check_each_checkable_lengths env args items :
  (forall item, In item items -> exists m b, checkable env args item m b) ->
  forall failures st,
  exists failures' st',
    check_each env args items failures st = (Ret failures', st') /\
    length failures'
    = (length failures + length (List.filter (exceeds env args) items))%nat /\
    length (printed st') = (length (printed st) + length items)%nat.
Proof.
  induction items as [|[key baseline_ns] rest IH]; intros Hall failures st.
  - exists failures, st. cbn. split; [reflexivity|]. split; lia.
  - destruct (Hall (key, baseline_ns) (or_introl eq_refl)) as (m & b & Hc).
    pose proof (exceeds_checkable _ _ _ _ _ Hc) as Hex.
    destruct Hc as (Hm & Hb & Hnz). cbn [fst snd] in *.
    cbn [check_each List.filter]. unfold consult, print, float_div. unfold_py.
    rewrite Hm, Hb, Hnz. rewrite Hex. unfold allowed_ns_of.
    match goal with
    | |- context [check_each env args rest ?f ?s] =>
        destruct (IH (fun it Hin => Hall it (or_intror Hin)) f s)
          as (failures' & st' & -> & Hlen & Hprinted)
    end.
    exists failures', st'. split; [reflexivity|]. cbn [printed] in Hprinted.
    rewrite length_app in Hprinted. cbn [length] in *.
    destruct (float_gt m (b * (1 + threshold_ratio args))%float);
      rewrite ?length_app in Hlen; cbn [length] in *; split; lia.
Qed.

Lemma print_failures_length failures :
  forall st, exists st',
    print_failures failures st = (Ret tt, st') /\
    length (printed st') = (length (printed st) + length failures)%nat.
Proof.
  induction failures as [|failure rest IH]; intros st; cbn [print_failures].
  - exists st. split; [reflexivity|]. cbn [length]. lia.
  - erewrite bind_ret_eq by reflexivity.
    match goal with
    | |- context [print_failures rest ?s] => destruct (IH s) as (st' & -> & Hlen)
    end.
    exists st'. split; [reflexivity|]. cbn [printed] in Hlen.
    rewrite length_app in Hlen. cbn [length] in *. lia.
Qed.

(** X27: over a non-empty baseline whose keys can all be checked, the
    gate prints one line per key, one verdict line, and one more line
    for each key whose measurement is above its allowance — nothing
    else, whether it passes or fails. *)
Theorem gate_prints_a_line_per_key_and_per_failure
  (env : Env) (args : Args) (members : list (string * json)) :
  baseline_is env args members ->
  members <> [] ->
  (forall item, In item members -> exists m b, checkable env args item m b) ->
  length (printed (snd (main env args initial)))
  = (length members + 1 + length (List.filter (exceeds env args) members))%nat.
Proof.
  intros (top & Hfile & Hbench) Hne Hall.
  unfold main, load_json, py_get. unfold_py. rewrite Hfile, Hbench.
  destruct members as [|first others]; [contradiction|].
  cbn [truthy negb py_items].
  destruct (check_each_checkable_lengths env args (first :: others) Hall [] initial)
    as (failures & st & -> & Hlen & Hprinted).
  cbn [length printed initial Nat.add] in Hlen, Hprinted.
  destruct failures as [|failure more].
  - unfold print. unfold_py. cbn [snd printed]. rewrite length_app. cbn [length] in *. lia.
  - destruct (print_failures_length (failure :: more)
                {| printed := printed st ++ [nl +:+ "Benchmark regression check failed:"];
                   consulted := consulted st |}) as (st' & E & Hlen').
    unfold print. unfold_py. rewrite E. cbn [snd printed] in *.
    rewrite length_app in Hlen'. cbn [length] in *. lia.
Qed.

Lemma gate_prints_a_line_per_key_and_per_failure_witness :
  length (printed (snd (main (env_measured (JFloat 1400000)) args_35 initial)))
  = (length [("g/b", JInt 1000000)] + 1
     + length (List.filter (exceeds (env_measured (JFloat 1400000)) args_35)
                           [("g/b", JInt 1000000)]))%nat.
Proof.
  apply (gate_prints_a_line_per_key_and_per_failure (env_measured (JFloat 1400000)) args_35
           [("g/b", JInt 1000000)]).
  - exists [("benchmarks", JObj [("g/b", JInt 1000000)])]. split; reflexivity.
  - discriminate.
  - intros item [<-|[]]. exists 1400000%float, 1000000%float.
    repeat split; vm_compute; reflexivity.
Defined.

Example failing_gate_prints_three_lines :
  length (printed (snd (main (env_measured (JFloat 1400000)) args_35 initial))) = 3%nat.
Proof. vm_compute. reflexivity. Qed.

End BenchmarkGateFacts.
